(** * Student CGPA prediction API: a shallow embedding of [src/main.py]

    The development follows the request pipeline of the FastAPI
    application: schema validation ([StudentInput]), the renaming table
    ([input_data]), the label-encoder loop, column selection, scaling,
    inference, and the post-processing [round] / [max]/[min] /
    [interpret_cgpa].  The four joblib artifacts are opaque objects: they
    are modelled by the operations the handler invokes on them, first as
    functions of their argument and then, for what may change between two
    requests, as methods over the state the objects hold. *)

From Stdlib Require Import ZArith Lia Bool List String Ascii.
From Stdlib Require Import DecimalString.
From Stdlib Require Import Floats.SpecFloat.
Import ListNotations.

Local Open Scope string_scope.
Local Open Scope Z_scope.

(* ===================================================================== *)
(** * Python floats *)
(* ===================================================================== *)

(** A Python [float] is an IEEE 754 binary64 value.  The data type is the
    standard library's [spec_float]: signed zeros, signed infinities, NaN
    and finite numbers [(-1)^s * m * 2^e]. *)
Module PyFloat.

Definition prec : Z := 53.
Definition emax : Z := 1024.

(** Rounding of the exact quotient [n / d] ([0 < d]) to an integer, ties
    to the even neighbour. *)
Definition round_half_even (n d : Z) : Z :=
  let q := n / d in
  match (2 * (n mod d)) ?= d with
  | Lt => q
  | Gt => q + 1
  | Eq => if Z.even q then q else q + 1
  end.

(** [scaled_le d n c] decides [d * 2^c <= n] for an exponent [c] of either
    sign. *)
Definition scaled_le (d n c : Z) : bool :=
  if 0 <=? c then d * 2 ^ c <=? n else d <=? n * 2 ^ (- c).

(** [floor (log2 (n / d))] for positive [n] and [d]. *)
Definition floor_log2_ratio (n d : Z) : Z :=
  let c := Z.log2 n - Z.log2 d in
  if scaled_le d n c then c else c - 1.

(** The binary64 value nearest to the rational [n / d] ([0 <= n], [0 < d]),
    ties to even, with sign [s]: what the interpreter computes when it
    converts a decimal numeral to a float. *)
Definition nearest_double (s : bool) (n d : Z) : spec_float :=
  if n <=? 0 then S754_zero s else
  let e := Z.max (floor_log2_ratio n d - 52) (-1074) in
  let m := if 0 <=? e then round_half_even n (d * 2 ^ e)
           else round_half_even (n * 2 ^ (- e)) d in
  let (m', e') := if m =? 2 ^ 53 then (2 ^ 52, e + 1) else (m, e) in
  match m' with
  | Zpos p => if e' <=? 971 then S754_finite s p e' else S754_infinity s
  | _ => S754_zero s
  end.

(** A non-negative decimal literal of the source with two fractional
    digits, such as [3.50], given by its value in hundredths. *)
Definition centi (k : Z) : spec_float := nearest_double false k 100.

(** Comparison operators; every comparison with NaN is false. *)
Definition lt (x y : spec_float) : bool := SFltb x y.
Definition gt (x y : spec_float) : bool := SFltb y x.
Definition le (x y : spec_float) : bool := SFleb x y.
Definition ge (x y : spec_float) : bool := SFleb y x.

(** The builtins [min(a, b)] and [max(a, b)]: the first argument is kept
    unless the second compares strictly below (resp. above) it. *)
Definition min (a b : spec_float) : spec_float := if lt b a then b else a.
Definition max (a b : spec_float) : spec_float := if gt b a then b else a.

(** The builtin [round(x, 2)] on a float: NaN, infinities and zeros are
    returned unchanged; a finite [x] is rounded, on its exact value, to the
    nearest multiple of 1/100 (ties to even) and the decimal result is
    converted back to the nearest float, keeping the sign of [x]. *)
Definition round2 (x : spec_float) : spec_float :=
  match x with
  | S754_finite s m e =>
      let k := if 0 <=? e then 100 * Zpos m * 2 ^ e
               else round_half_even (100 * Zpos m) (2 ^ (- e)) in
      nearest_double s k 100
  | _ => x
  end.

(** Structural equality test on floats (distinguishes the two zeros). *)
Definition same (x y : spec_float) : bool :=
  match x, y with
  | S754_zero a, S754_zero b => Bool.eqb a b
  | S754_infinity a, S754_infinity b => Bool.eqb a b
  | S754_nan, S754_nan => true
  | S754_finite a m e, S754_finite b m' e' =>
      Bool.eqb a b && Pos.eqb m m' && Z.eqb e e'
  | _, _ => false
  end.

End PyFloat.

(* ===================================================================== *)
(** * Python values, exceptions and the request monad *)
(* ===================================================================== *)

(** The values that occur in [input_data] and in the cells of the one-row
    data frame: integers (the age, the codes written by the encoders) and
    strings (every other field). *)
Inductive pyval : Type :=
| PInt (z : Z)
| PStr (s : string).

(** [str(v)], also what an f-string interpolates. *)
Definition py_str (v : pyval) : string :=
  match v with
  | PInt z => NilZero.string_of_int (Z.to_int z)
  | PStr s => s
  end.

(** The argument of a [KeyError]: [None], one key, or what pandas reports
    for a selection by a list of labels ("[...] not in index" with the
    labels that are missing, "None of [...] are in the [columns]" with the
    requested labels when none of them is a column). *)
Inductive pykey : Type :=
| KNone
| KStr (s : string)
| KList (l : list string)
| KNoneOf (l : list string).

(** Exceptions other than [HTTPException]: the ones the interpreter and
    pandas raise inside the handler, and whatever an artifact raises. *)
Inductive py_error : Type :=
| ValueError (msg : string)
| KeyError (key : pykey)
| AttributeError (obj attr : string)
| IndexError (msg : string)
| OtherError (cls msg : string).

Inductive exn : Type :=
| HTTPException (status_code : Z) (detail : string)
| PyError (e : py_error).

Inductive Outcome (A : Type) : Type :=
| Return (a : A)
| Raise (e : exn).
Arguments Return {A} a.
Arguments Raise {A} e.

(** A call of a library or artifact method either returns or raises. *)
Definition lib (A : Type) : Type := (py_error + A)%type.

(** ** The artifacts *)

(** A fitted [LabelEncoder]: the categories it was fit on, in the order of
    its [classes_] array. *)
Record LabelEncoder : Type := { classes_ : list string }.

Fixpoint index_of (v : string) (l : list string) : option Z :=
  match l with
  | [] => None
  | c :: l' =>
      if String.eqb v c then Some 0
      else option_map Z.succ (index_of v l')
  end.

(** [enc.transform([v])[0]]: the position of [v] among the classes, a
    [ValueError] when [v] was not seen at fit time. *)
Definition LabelEncoder_transform (enc : LabelEncoder) (v : string) : lib Z :=
  match index_of v (classes_ enc) with
  | Some code => inr code
  | None =>
      inl (ValueError ("y contains previously unseen labels: '" ++ v ++ "'"))
  end.

(** A one-row [DataFrame]: column labels with their cell, in column order. *)
Definition DataFrame : Type := list (string * pyval).

(** The scaler and the model are black boxes with one entry point each. *)
Record Scaler : Type :=
  { Scaler_transform : DataFrame -> lib (list spec_float) }.

Record Model : Type :=
  { Model_predict : list spec_float -> lib (list spec_float) }.

(** The module-level globals bound by the [joblib.load] block.  [None] is
    the Python object [None], which a pickle file may hold. *)
Record Process : Type :=
  { model : option Model;
    scaler : option Scaler;
    label_encoders : option (list (string * LabelEncoder));
    feature_names : option (list string) }.

(** ** State, exceptions and the call log *)

(** Calls made on the artifacts, in order. *)
Inductive Call : Type :=
| EncoderCall (col : string) (v : string)
| ScalerCall (df : DataFrame)
| ModelCall (x : list spec_float).

Record World : Type :=
  { globals : Process;
    calls : list Call }.

Definition M (A : Type) : Type := World -> Outcome A * World.

Definition ret {A} (a : A) : M A := fun w => (Return a, w).

Definition bind {A B} (c : M A) (k : A -> M B) : M B :=
  fun w =>
    match c w with
    | (Return a, w') => k a w'
    | (Raise e, w') => (Raise e, w')
    end.

Definition raise {A} (e : exn) : M A := fun w => (Raise e, w).

(** Reading a module-level global. *)
Definition read {A} (f : Process -> A) : M A :=
  fun w => (Return (f (globals w)), w).

(** Appending to the call log. *)
Definition record (c : Call) : M unit :=
  fun w => (Return tt, {| globals := globals w; calls := calls w ++ [c] |}).

(** The result of a library call, in the monad. *)
Definition lift {A} (r : lib A) : M A :=
  match r with
  | inr a => ret a
  | inl e => raise (PyError e)
  end.

(** [try: c  except ...: h e] where [catches] selects the [except] clause. *)
Definition try_except {A} (c : M A) (catches : exn -> bool) (h : exn -> M A)
  : M A :=
  fun w =>
    match c w with
    | (Raise e, w') => if catches e then h e w' else (Raise e, w')
    | r => r
    end.

Definition is_ValueError (e : exn) : bool :=
  match e with
  | PyError (ValueError _) => true
  | _ => false
  end.

Declare Scope py_scope.
Delimit Scope py_scope with py.
Notation "x <- c ;; k" := (bind c (fun x => k))
  (at level 61, c at next level, right associativity) : py_scope.
Notation "c ;;; k" := (bind c (fun _ => k))
  (at level 61, right associativity) : py_scope.
Local Open Scope py_scope.

(** ** Dictionaries and data frames *)

Fixpoint lookup {A} (k : string) (d : list (string * A)) : option A :=
  match d with
  | [] => None
  | (k', a) :: d' => if String.eqb k k' then Some a else lookup k d'
  end.

(** [d[k]] on a dict. *)
Definition dict_getitem {A} (d : list (string * A)) (k : string) : lib A :=
  match lookup k d with
  | Some a => inr a
  | None => inl (KeyError (KStr k))
  end.

(** [col in df.columns]. *)
Definition in_columns (col : string) (df : DataFrame) : bool :=
  existsb (String.eqb col) (map fst df).

(** [df[col] = v]: overwrites the column when it exists, appends it
    otherwise. *)
Fixpoint df_setitem (df : DataFrame) (col : string) (v : pyval) : DataFrame :=
  match df with
  | [] => [(col, v)]
  | (c, x) :: df' =>
      if String.eqb col c then (c, v) :: df'
      else (c, x) :: df_setitem df' col v
  end.

(** The distinct elements of a list, in the order of their first
    occurrence. *)
Fixpoint unique (l : list string) : list string :=
  match l with
  | [] => []
  | x :: l' => x :: filter (fun y => negb (String.eqb y x)) (unique l')
  end.

(** The error of a selection of [names] of which [missing] are not
    columns: it names the requested labels if none of them is a column and
    the distinct missing labels otherwise. *)
Definition not_in_index (names missing : list string) : py_error :=
  if Nat.eqb (List.length missing) (List.length names)
  then KeyError (KNoneOf names)
  else KeyError (KList (unique missing)).

(** [df[names]] with a list of labels: the listed columns in the listed
    order, a [KeyError] when a label is not a column. *)
Definition df_select (df : DataFrame) (names : list string) : lib DataFrame :=
  match filter (fun n => negb (in_columns n df)) names with
  | [] =>
      inr (flat_map (fun n => match lookup n df with
                              | Some v => [(n, v)]
                              | None => []
                              end) names)
  | missing => inl (not_in_index names missing)
  end.

(** [a[0]] on the prediction array. *)
Definition first_item (a : list spec_float) : lib spec_float :=
  match a with
  | x :: _ => inr x
  | [] => inl (IndexError "index 0 is out of bounds for axis 0 with size 0")
  end.

(* ===================================================================== *)
(** * Input and output schemas *)
(* ===================================================================== *)

(** The fields of [class StudentInput], as received after JSON decoding:
    [age] is an integer and the eight other fields are strings. *)
Record StudentInput : Type :=
  { age : Z;
    gender : string;
    course : string;
    year : string;
    marital_status : string;
    depression : string;
    anxiety : string;
    panic_attack : string;
    treatment : string }.

(** [len(s)] on a [str].  A Python string is a sequence of code points; it
    is represented here by its UTF-8 encoding, one element per byte, so its
    length is the number of bytes that are not continuation bytes
    (10xxxxxx). *)
Definition is_continuation_byte (c : ascii) : bool :=
  match c with
  | Ascii _ _ _ _ _ _ b6 b7 => b7 && negb b6
  end.

Fixpoint py_len (s : string) : nat :=
  match s with
  | EmptyString => O
  | String c s' =>
      if is_continuation_byte c then py_len s' else S (py_len s')
  end.

(** The three kinds of constraint used in the class body. *)
Definition Field_int (ge le : Z) (v : Z) : bool :=
  (ge <=? v) && (v <=? le).

Definition Field_str (min_length max_length : nat) (v : string) : bool :=
  (Nat.leb min_length (py_len v))
  && (Nat.leb (py_len v) max_length).

Definition Literal (allowed : list string) (v : string) : bool :=
  existsb (String.eqb v) allowed.

(** One entry per declared field, in declaration order: the field name and
    whether the value passes its constraint. *)
Definition StudentInput_checks (s : StudentInput) : list (string * bool) :=
  [ ("age", Field_int 18 30 (age s));
    ("gender", Literal ["Male"; "Female"] (gender s));
    ("course", Field_str 2 100 (course s));
    ("year", Literal ["year 1"; "year 2"; "year 3"; "year 4"] (year s));
    ("marital_status", Literal ["Yes"; "No"] (marital_status s));
    ("depression", Literal ["Yes"; "No"] (depression s));
    ("anxiety", Literal ["Yes"; "No"] (anxiety s));
    ("panic_attack", Literal ["Yes"; "No"] (panic_attack s));
    ("treatment", Literal ["Yes"; "No"] (treatment s)) ].

(** The fields that fail validation; the input is accepted when there is
    none. *)
Definition validation_errors (s : StudentInput) : list string :=
  map fst (filter (fun c => negb (snd c)) (StudentInput_checks s)).

Definition validate (s : StudentInput) : bool :=
  match validation_errors s with
  | [] => true
  | _ => false
  end.

Record PredictionOutput : Type :=
  { predicted_cgpa : spec_float;
    cgpa_range : string;
    message : string }.

(* ===================================================================== *)
(** * The post-processor *)
(* ===================================================================== *)

Definition interpret_cgpa (cgpa : spec_float) : string * string :=
  if PyFloat.ge cgpa (PyFloat.centi 350) then
    ("Excellent (3.50 - 4.00)",
     "Student is performing excellently! Keep up the great work.")
  else if PyFloat.ge cgpa (PyFloat.centi 300) then
    ("Good (3.00 - 3.49)",
     "Student is performing well academically.")
  else if PyFloat.ge cgpa (PyFloat.centi 250) then
    ("Average (2.50 - 2.99)",
     "Student is performing at an average level. Some improvement possible.")
  else if PyFloat.ge cgpa (PyFloat.centi 200) then
    ("Below Average (2.00 - 2.49)",
     "Student may need academic support and intervention.")
  else
    ("Poor (0.00 - 1.99)",
     "Student requires immediate academic and mental health support.").

(** [max(0.0, min(4.0, x))]. *)
Definition clamp (x : spec_float) : spec_float :=
  PyFloat.max (PyFloat.centi 0) (PyFloat.min (PyFloat.centi 400) x).

(* ===================================================================== *)
(** * The prediction handler *)
(* ===================================================================== *)

(** The renaming table: the dict [input_data], in insertion order. *)
Definition input_data (student : StudentInput) : list (string * pyval) :=
  [ ("Age", PInt (age student));
    ("Choose your gender", PStr (gender student));
    ("What is your course?", PStr (course student));
    ("Your current year of Study", PStr (year student));
    ("Marital status", PStr (marital_status student));
    ("Do you have Depression?", PStr (depression student));
    ("Do you have Anxiety?", PStr (anxiety student));
    ("Do you have Panic attack?", PStr (panic_attack student));
    ("Did you seek any specialist for a treatment?", PStr (treatment student)) ].

(** The detail of the 400 response. *)
Definition invalid_value_detail (col : string) (v : pyval) : string :=
  "Invalid value for " ++ col ++ ": " ++ py_str v
  ++ ". Must be one of the categories in training data.".

(** [label_encoders.keys()]. *)
Definition label_encoders_keys : M (list string) :=
  encs <- read label_encoders ;;
  match encs with
  | Some d => ret (map fst d)
  | None => raise (PyError (AttributeError "NoneType" "keys"))
  end.

(** [label_encoders[col].transform([str(input_data[col])])[0]]. *)
Definition encode_value (data : list (string * pyval)) (col : string) : M Z :=
  encs <- read label_encoders ;;
  match encs with
  | None =>
      raise (PyError (OtherError "TypeError"
                        "'NoneType' object is not subscriptable"))
  | Some d =>
      enc <- lift (dict_getitem d col) ;;
      v <- lift (dict_getitem data col) ;;
      record (EncoderCall col (py_str v)) ;;;
      lift (LabelEncoder_transform enc (py_str v))
  end.

(** The handler of [except ValueError] inside the loop. *)
Definition unseen_category (data : list (string * pyval)) (col : string)
  : M Z :=
  v <- lift (dict_getitem data col) ;;
  raise (HTTPException 400 (invalid_value_detail col v)).

(** The loop [for col in label_encoders.keys(): ...] over the remaining
    keys. *)
Fixpoint encode_columns (data : list (string * pyval)) (keys : list string)
  (input_df : DataFrame) : M DataFrame :=
  match keys with
  | [] => ret input_df
  | col :: keys' =>
      if in_columns col input_df then
        code <- try_except (encode_value data col) is_ValueError
                  (fun _ => unseen_category data col) ;;
        encode_columns data keys' (df_setitem input_df col (PInt code))
      else
        encode_columns data keys' input_df
  end.

(** [input_df[feature_names]]. *)
Definition reorder_columns (input_df : DataFrame) : M DataFrame :=
  names <- read feature_names ;;
  match names with
  | Some l => lift (df_select input_df l)
  | None => raise (PyError (KeyError KNone))
  end.

(** [scaler.transform(input_df)]. *)
Definition scale (input_df : DataFrame) : M (list spec_float) :=
  sc <- read scaler ;;
  match sc with
  | Some s => record (ScalerCall input_df) ;;; lift (Scaler_transform s input_df)
  | None => raise (PyError (AttributeError "NoneType" "transform"))
  end.

(** [model.predict(input_scaled)]. *)
Definition predict (input_scaled : list spec_float) : M (list spec_float) :=
  mdl <- read model ;;
  match mdl with
  | Some m =>
      record (ModelCall input_scaled) ;;; lift (Model_predict m input_scaled)
  | None => raise (PyError (AttributeError "NoneType" "predict"))
  end.

(** Lines 267-280: round, clamp, interpret, build the output. *)
Definition postprocess (score : spec_float) : PredictionOutput :=
  let predicted_cgpa := PyFloat.round2 score in
  let predicted_cgpa := clamp predicted_cgpa in
  let (cgpa_range, message) := interpret_cgpa predicted_cgpa in
  {| predicted_cgpa := predicted_cgpa;
     cgpa_range := cgpa_range;
     message := message |}.

(** Lines 257-265: from the encoded frame to the number
    [float(prediction[0])]. *)
Definition score_of_frame (input_df : DataFrame) : M spec_float :=
  input_df <- reorder_columns input_df ;;
  input_scaled <- scale input_df ;;
  prediction <- predict input_scaled ;;
  lift (first_item prediction).

(** Lines 229-265 of the outer [try]: from the request to the raw score. *)
Definition raw_score (student : StudentInput) : M spec_float :=
  let data := input_data student in
  let input_df : DataFrame := data in
  keys <- label_encoders_keys ;;
  input_df <- encode_columns data keys input_df ;;
  score_of_frame input_df.

(** The body of the outer [try]. *)
Definition predict_body (student : StudentInput) : M PredictionOutput :=
  score <- raw_score student ;;
  ret (postprocess score).

Section Handler.

(** [str(e)] for an exception [e]: the text is chosen by the library that
    raised it. *)
Variable exc_str : py_error -> string.

(** The two [except] clauses of the outer [try]. *)
Definition on_exception (e : exn) : M PredictionOutput :=
  match e with
  | HTTPException _ _ => raise e
  | PyError err =>
      raise (HTTPException 500 ("Prediction error: " ++ exc_str err))
  end.

Definition predict_cgpa (student : StudentInput) : M PredictionOutput :=
  try_except (predict_body student) (fun _ => true) on_exception.

End Handler.

(* ===================================================================== *)
(** * The HTTP surface and process start *)
(* ===================================================================== *)

#[local] Set Warnings "-register-all".
Inductive json : Type :=
| JStr (s : string)
| JBool (b : bool)
| JObj (fields : list (string * json)).

Inductive Body : Type :=
| JsonBody (fields : list (string * json))
| PredictionBody (out : PredictionOutput)
| DetailBody (detail : string)
| ValidationBody (fields : list string).

Record Response : Type :=
  { status : Z;
    body : Body }.

(** [x is not None]. *)
Definition is_not_None {A} (x : option A) : bool :=
  match x with
  | Some _ => true
  | None => false
  end.

Definition root : M (list (string * json)) :=
  ret [ ("message", JStr "Welcome to Student Mental Health CGPA Prediction API");
        ("version", JStr "1.0.0");
        ("endpoints",
         JObj [ ("predict", JStr "/predict (POST)");
                ("health", JStr "/health (GET)");
                ("docs", JStr "/docs (Swagger UI)");
                ("redoc", JStr "/redoc (ReDoc)") ]) ].

Definition health_check : M (list (string * json)) :=
  m <- read model ;;
  s <- read scaler ;;
  l <- read label_encoders ;;
  ret [ ("status", JStr "healthy");
        ("model_loaded", JBool (is_not_None m));
        ("scaler_loaded", JBool (is_not_None s));
        ("encoders_loaded", JBool (is_not_None l)) ].

(** What the framework sends for the outcome of a route function: the
    returned value with status 200, the status and detail of an
    [HTTPException], a bare 500 for any other exception. *)
Definition response_of {A} (to_body : A -> Body) (out : Outcome A)
  : Response :=
  match out with
  | Return a => {| status := 200; body := to_body a |}
  | Raise (HTTPException code detail) =>
      {| status := code; body := DetailBody detail |}
  | Raise (PyError _) =>
      {| status := 500; body := DetailBody "Internal Server Error" |}
  end.

Definition respond {A} (to_body : A -> Body) (c : M A)
  : World -> Response * World :=
  fun w => let (out, w') := c w in (response_of to_body out, w').

Inductive Request : Type :=
| GET_root
| GET_health
| POST_predict (payload : StudentInput).

Section Server.

Variable exc_str : py_error -> string.

(** Routing.  The body of [POST /predict] is validated against
    [StudentInput] before the route function is entered; a rejected body
    is answered with 422. *)
Definition serve (r : Request) : World -> Response * World :=
  match r with
  | GET_root => respond JsonBody root
  | GET_health => respond JsonBody health_check
  | POST_predict payload =>
      if validate payload then
        respond PredictionBody (predict_cgpa exc_str payload)
      else
        fun w => ({| status := 422;
                     body := ValidationBody (validation_errors payload) |}, w)
  end.

End Server.

(** The outcome of each [joblib.load] of the start-up block: the object
    held by the file, or the exception raised while loading it. *)
Record ArtifactFiles : Type :=
  { best_model_pkl : lib (option Model);
    scaler_pkl : lib (option Scaler);
    label_encoders_pkl : lib (option (list (string * LabelEncoder)));
    feature_names_pkl : lib (option (list string)) }.

(** The module-level [try] block: four loads in order; the first exception
    is re-raised, so the module fails to import and nothing is served.  (The
    two [print] calls only write to the console.) *)
Definition startup (fs : ArtifactFiles) : lib Process :=
  match best_model_pkl fs with
  | inl e => inl e
  | inr m =>
      match scaler_pkl fs with
      | inl e => inl e
      | inr s =>
          match label_encoders_pkl fs with
          | inl e => inl e
          | inr l =>
              match feature_names_pkl fs with
              | inl e => inl e
              | inr f =>
                  inr {| model := m; scaler := s;
                         label_encoders := l; feature_names := f |}
              end
          end
      end
  end.

(** The states of a process that is serving: the one reached by a
    successful start, and every state reached from a serving state by
    answering a request. *)
Inductive serving (exc_str : py_error -> string) (fs : ArtifactFiles)
  : World -> Prop :=
| serving_start p :
    startup fs = inr p ->
    serving exc_str fs {| globals := p; calls := [] |}
| serving_step w r :
    serving exc_str fs w ->
    serving exc_str fs (snd (serve exc_str r w)).

(** Answering a sequence of requests, one after the other. *)
Fixpoint serve_all (exc_str : py_error -> string) (rs : list Request)
  (w : World) : World :=
  match rs with
  | [] => w
  | r :: rs' => serve_all exc_str rs' (snd (serve exc_str r w))
  end.

(* ===================================================================== *)
(** * Vocabulary of the statements *)
(* ===================================================================== *)

(** [runs_on p c out l]: in a process whose globals are [p], the
    computation [c] ends with [out], leaves the globals as they are and
    appends the calls [l] to the log, whatever the log held before. *)
Definition runs_on (p : Process) {A} (c : M A) (out : Outcome A)
  (l : list Call) : Prop :=
  forall w, globals w = p ->
    c w = (out, {| globals := p; calls := calls w ++ l |}).

Definition is_encoder_call (c : Call) : bool :=
  match c with
  | EncoderCall _ _ => true
  | _ => false
  end.

Definition is_scaler_call (c : Call) : bool :=
  match c with
  | ScalerCall _ => true
  | _ => false
  end.

Definition is_model_call (c : Call) : bool :=
  match c with
  | ModelCall _ => true
  | _ => false
  end.

(** A log that holds calls of encoders only. *)
Definition encoder_calls_only (l : list Call) : Prop :=
  Forall (fun c => is_encoder_call c = true) l.

Definition count_calls (f : Call -> bool) (l : list Call) : nat :=
  List.length (filter f l).

(** A run with outcome [out] and calls [l] is a single pass: the scaler
    and the model are called at most once each, an exception raised by
    either call is the outcome of the run, and a returned score is the first
    entry of what the one model call returned. *)
Definition single_pass (p : Process) (out : Outcome spec_float)
  (l : list Call) : Prop :=
  (count_calls is_scaler_call l <= 1)%nat
  /\ (count_calls is_model_call l <= 1)%nat
  /\ (forall s df e, scaler p = Some s -> In (ScalerCall df) l ->
        Scaler_transform s df = inl e -> out = Raise (PyError e))
  /\ (forall m x e, model p = Some m -> In (ModelCall x) l ->
        Model_predict m x = inl e -> out = Raise (PyError e))
  /\ (forall score, out = Return score ->
        exists m x rest, model p = Some m /\ In (ModelCall x) l
                         /\ Model_predict m x = inr (score :: rest)).

(** The column labels of the frames handed to the scaler, call by call. *)
Definition scaler_frames (l : list Call) : list (list string) :=
  flat_map (fun c => match c with
                     | ScalerCall df => [map fst df]
                     | _ => []
                     end) l.

(** Column [col] of the request carries the value [v], and the encoder
    stored for [col] was not fit on [str(v)]. *)
Definition unseen (encs : list (string * LabelEncoder))
  (data : list (string * pyval)) (col : string) (v : pyval) : Prop :=
  exists enc,
    lookup col encs = Some enc /\
    lookup col data = Some v /\
    index_of (py_str v) (classes_ enc) = None.

(** The first key, in the order of [keys], whose column is unseen. *)
Fixpoint first_unseen (encs : list (string * LabelEncoder))
  (data : list (string * pyval)) (keys : list string)
  : option (string * pyval) :=
  match keys with
  | [] => None
  | col :: keys' =>
      match lookup col data, lookup col encs with
      | Some v, Some enc =>
          match index_of (py_str v) (classes_ enc) with
          | None => Some (col, v)
          | Some _ => first_unseen encs data keys'
          end
      | _, _ => first_unseen encs data keys'
      end
  end.

(** Some encoder of the process rejects a value of the request. *)
Definition encoder_rejects (p : Process) (student : StudentInput) : Prop :=
  exists encs col v,
    label_encoders p = Some encs /\ unseen encs (input_data student) col v.

(** The boolean stored under [key] in a JSON object, if any. *)
Definition bool_field (key : string) (fields : list (string * json))
  : option bool :=
  match lookup key fields with
  | Some (JBool b) => Some b
  | _ => None
  end.

(** The members of a JSON object body. *)
Definition body_fields (b : Body) : list (string * json) :=
  match b with
  | JsonBody fields => fields
  | _ => []
  end.

(** ** Sample data for the concrete runs *)

Definition with_age (s : StudentInput) (a : Z) : StudentInput :=
  {| age := a; gender := gender s; course := course s; year := year s;
     marital_status := marital_status s; depression := depression s;
     anxiety := anxiety s; panic_attack := panic_attack s;
     treatment := treatment s |}.

Definition with_course (s : StudentInput) (c : string) : StudentInput :=
  {| age := age s; gender := gender s; course := c; year := year s;
     marital_status := marital_status s; depression := depression s;
     anxiety := anxiety s; panic_attack := panic_attack s;
     treatment := treatment s |}.

Definition with_gender (s : StudentInput) (g : string) : StudentInput :=
  {| age := age s; gender := g; course := course s; year := year s;
     marital_status := marital_status s; depression := depression s;
     anxiety := anxiety s; panic_attack := panic_attack s;
     treatment := treatment s |}.

(** A string of [n] letters. *)
Fixpoint letters (n : nat) : string :=
  match n with
  | O => EmptyString
  | S n' => String "x"%char (letters n')
  end.

(** A string of [n] characters outside ASCII: the character U+4E2D, three
    bytes in UTF-8, [n] times. *)
Fixpoint wide_letters (n : nat) : string :=
  match n with
  | O => EmptyString
  | S n' =>
      String "228"%char
        (String "184"%char (String "173"%char (wide_letters n')))
  end.

(** The request of the scenario in section 8 of the specification. *)
Definition sample_student : StudentInput :=
  {| age := 21; gender := "Male"; course := "Engineering"; year := "year 2";
     marital_status := "No"; depression := "No"; anxiety := "Yes";
     panic_attack := "No"; treatment := "No" |}.

Definition yes_no : LabelEncoder := {| classes_ := ["No"; "Yes"] |}.

Definition sample_encoders : list (string * LabelEncoder) :=
  [ ("Choose your gender", {| classes_ := ["Female"; "Male"] |});
    ("What is your course?",
     {| classes_ := ["BCS"; "BIT"; "Engineering"; "Law"] |});
    ("Your current year of Study",
     {| classes_ := ["year 1"; "year 2"; "year 3"; "year 4"] |});
    ("Marital status", yes_no);
    ("Do you have Depression?", yes_no);
    ("Do you have Anxiety?", yes_no);
    ("Do you have Panic attack?", yes_no);
    ("Did you seek any specialist for a treatment?", yes_no) ].

Definition sample_feature_names : list string :=
  [ "Choose your gender"; "Age"; "What is your course?";
    "Your current year of Study"; "Marital status";
    "Do you have Depression?"; "Do you have Anxiety?";
    "Do you have Panic attack?";
    "Did you seek any specialist for a treatment?" ].

Definition float_of_Z (z : Z) : spec_float :=
  PyFloat.nearest_double (z <? 0) (Z.abs z) 1.

(** A scaler that accepts nine numeric cells and passes them on. *)
Definition sample_scaler : Scaler :=
  {| Scaler_transform := fun df =>
       if forallb (fun c => match snd c with PInt _ => true | _ => false end) df
       then
         if Nat.eqb (List.length df) 9 then
           inr (map (fun c => match snd c with
                              | PInt z => float_of_Z z
                              | PStr _ => S754_nan
                              end) df)
         else inl (ValueError "X has a wrong number of features")
       else inl (ValueError "could not convert string to float") |}.

(** A model whose score is 3.496 whatever the input. *)
Definition sample_model : Model :=
  {| Model_predict := fun _ => inr [PyFloat.nearest_double false 3496 1000] |}.

Definition sample_process : Process :=
  {| model := Some sample_model;
     scaler := Some sample_scaler;
     label_encoders := Some sample_encoders;
     feature_names := Some sample_feature_names |}.

Definition sample_world : World :=
  {| globals := sample_process; calls := [] |}.

Definition sample_files : ArtifactFiles :=
  {| best_model_pkl := inr (Some sample_model);
     scaler_pkl := inr (Some sample_scaler);
     label_encoders_pkl := inr (Some sample_encoders);
     feature_names_pkl := inr (Some sample_feature_names) |}.

(** Artifact files whose model file holds a pickled [None]. *)
Definition files_model_None : ArtifactFiles :=
  {| best_model_pkl := inr None;
     scaler_pkl := inr (Some sample_scaler);
     label_encoders_pkl := inr (Some sample_encoders);
     feature_names_pkl := inr (Some sample_feature_names) |}.

(** Artifact files whose feature-name file holds a pickled [None]. *)
Definition files_features_None : ArtifactFiles :=
  {| best_model_pkl := inr (Some sample_model);
     scaler_pkl := inr (Some sample_scaler);
     label_encoders_pkl := inr (Some sample_encoders);
     feature_names_pkl := inr None |}.

(** Artifact files whose scaler file cannot be loaded. *)
Definition files_scaler_missing : ArtifactFiles :=
  {| best_model_pkl := inr (Some sample_model);
     scaler_pkl := inl (OtherError "FileNotFoundError"
                          "[Errno 2] No such file or directory: 'scaler.pkl'");
     label_encoders_pkl := inr (Some sample_encoders);
     feature_names_pkl := inr (Some sample_feature_names) |}.

(** A process whose feature names lost a column: the scaler is handed
    eight cells. *)
Definition process_narrow : Process :=
  {| model := Some sample_model;
     scaler := Some sample_scaler;
     label_encoders := Some sample_encoders;
     feature_names := Some (tl sample_feature_names) |}.

(** A process without encoders: the scaler is handed the raw strings. *)
Definition process_unencoded : Process :=
  {| model := Some sample_model;
     scaler := Some sample_scaler;
     label_encoders := Some [];
     feature_names := Some sample_feature_names |}.

(** A process whose model raises. *)
Definition process_model_fails : Process :=
  {| model := Some {| Model_predict := fun _ =>
                        inl (ValueError "Input contains NaN.") |};
     scaler := Some sample_scaler;
     label_encoders := Some sample_encoders;
     feature_names := Some sample_feature_names |}.

(** Encoders fit on training data that spelt the years with a capital:
    no year the schema admits is among the categories. *)
Definition encoders_capital_years : list (string * LabelEncoder) :=
  [ ("Choose your gender", {| classes_ := ["Female"; "Male"] |});
    ("What is your course?",
     {| classes_ := ["BCS"; "BIT"; "Engineering"; "Law"] |});
    ("Your current year of Study",
     {| classes_ := ["Year 1"; "Year 2"; "Year 3"; "Year 4"] |});
    ("Marital status", yes_no);
    ("Do you have Depression?", yes_no);
    ("Do you have Anxiety?", yes_no);
    ("Do you have Panic attack?", yes_no);
    ("Did you seek any specialist for a treatment?", yes_no) ].

Definition process_capital_years : Process :=
  {| model := Some sample_model;
     scaler := Some sample_scaler;
     label_encoders := Some encoders_capital_years;
     feature_names := Some sample_feature_names |}.

(** A process whose feature names are those of the sample in the opposite
    order. *)
Definition process_reversed : Process :=
  {| model := Some sample_model;
     scaler := Some sample_scaler;
     label_encoders := Some sample_encoders;
     feature_names := Some (rev sample_feature_names) |}.

(** [needle in text], on strings. *)
Fixpoint occurs (needle text : string) : bool :=
  String.prefix needle text
  || match text with
     | EmptyString => false
     | String _ text' => occurs needle text'
     end.

(** [repr(s)] of a string: single quotes unless the text has a single
    quote and no double quote; the backslash, the chosen quote and the
    control characters are escaped.  (Bytes of non-ASCII characters are
    copied: such characters are taken to be printable.) *)
Definition double_quote : ascii := "034"%char.

Definition hex_digit (n : N) : ascii :=
  ascii_of_N (if (n <? 10)%N then 48 + n else 87 + n).

Definition escape_char (quote c : ascii) : string :=
  let n := N_of_ascii c in
  if Ascii.eqb c "\"%char then "\\"
  else if Ascii.eqb c quote then String "\"%char (String quote EmptyString)
  else if (n =? 9)%N then "\t"
  else if (n =? 10)%N then "\n"
  else if (n =? 13)%N then "\r"
  else if ((n <? 32) || (n =? 127))%N then
    String "\"%char
      (String "x"%char
         (String (hex_digit (n / 16)) (String (hex_digit (n mod 16))
                                         EmptyString)))
  else String c EmptyString.

Fixpoint has_char (c : ascii) (s : string) : bool :=
  match s with
  | EmptyString => false
  | String x s' => Ascii.eqb x c || has_char c s'
  end.

Fixpoint escape (quote : ascii) (s : string) : string :=
  match s with
  | EmptyString => EmptyString
  | String c s' => escape_char quote c ++ escape quote s'
  end.

Definition py_repr (s : string) : string :=
  let quote :=
    if has_char "'"%char s && negb (has_char double_quote s)
    then double_quote else "'"%char in
  String quote (escape quote s ++ String quote EmptyString).

(** [repr] of a list of strings. *)
Definition py_repr_list (l : list string) : string :=
  "[" ++ String.concat ", " (map py_repr l) ++ "]".

(** [str(e)] for the concrete runs: the message of a [ValueError] or of an
    exception of another class, the interpreter's text for an attribute
    missing on an object, and for a [KeyError] the [repr] of its argument,
    which for a selection by labels is the message pandas builds (the
    one-line form of the index is used in the second message). *)
Definition show_error (e : py_error) : string :=
  match e with
  | ValueError msg => msg
  | KeyError KNone => "None"
  | KeyError (KStr k) => py_repr k
  | KeyError (KList l) => py_repr (py_repr_list l ++ " not in index")
  | KeyError (KNoneOf l) =>
      py_repr ("None of [Index(" ++ py_repr_list l
               ++ ", dtype='object')] are in the [columns]")
  | AttributeError obj attr =>
      "'" ++ obj ++ "' object has no attribute '" ++ attr ++ "'"
  | IndexError msg => msg
  | OtherError _ msg => msg
  end.

(* ===================================================================== *)
(** * Vocabulary of the further properties *)
(* ===================================================================== *)

(** The five range labels, from the lowest band to the highest. *)
Definition band_labels : list string :=
  [ "Poor (0.00 - 1.99)"; "Below Average (2.00 - 2.49)";
    "Average (2.50 - 2.99)"; "Good (3.00 - 3.49)";
    "Excellent (3.50 - 4.00)" ].

(** The position of a label in [band_labels] (5 for any other string). *)
Fixpoint position (label : string) (l : list string) : nat :=
  match l with
  | [] => O
  | x :: l' => if String.eqb label x then O else S (position label l')
  end.

Definition band_rank (label : string) : nat := position label band_labels.

(** The band whose printed bounds contain the two-decimal value k/100. *)
Definition band_of_hundredths (k : Z) : string :=
  if 350 <=? k then "Excellent (3.50 - 4.00)"
  else if 300 <=? k then "Good (3.00 - 3.49)"
  else if 250 <=? k then "Average (2.50 - 2.99)"
  else if 200 <=? k then "Below Average (2.00 - 2.49)"
  else "Poor (0.00 - 1.99)".

(** The post-processor as section 4.5 of the specification words it, on
    integers: the score in hundredths is rounded, clamped into 0..400 and
    looked up in the table of bands and messages.  None of these
    definitions mentions the floating-point functions of the handler. *)

(** The message that goes with the band of k/100. *)
Definition message_of_hundredths (k : Z) : string :=
  if 350 <=? k then
    "Student is performing excellently! Keep up the great work."
  else if 300 <=? k then "Student is performing well academically."
  else if 250 <=? k then
    "Student is performing at an average level. Some improvement possible."
  else if 200 <=? k then "Student may need academic support and intervention."
  else "Student requires immediate academic and mental health support.".

(** The exact value of a float that is a number, as a fraction [n / d] with
    [0 < d]. *)
Definition exact_value (x : spec_float) : option (Z * Z) :=
  match x with
  | S754_zero _ => Some (0, 1)
  | S754_finite s m e =>
      let n := if s then Z.neg m else Z.pos m in
      Some (if 0 <=? e then (n * 2 ^ e, 1) else (n, 2 ^ (- e)))
  | _ => None
  end.

(** [nearest_integer n d a]: the integer [a] is the fraction [n / d]
    rounded to the nearest integer, a tie going to the even neighbour. *)
Definition nearest_integer (n d a : Z) : Prop :=
  2 * Z.abs (n - a * d) <= d
  /\ (2 * Z.abs (n - a * d) = d -> Z.even a = true).

(** Rounding to two decimals, in hundredths: [k] is 100 times the exact
    value of the score, rounded to the nearest integer. *)
Definition rounded_hundredths (score : spec_float) (k : Z) : Prop :=
  match exact_value score with
  | Some (n, d) => nearest_integer (100 * n) d k
  | None => False
  end.

(** Clamping into [0.0, 4.0], in hundredths. *)
Definition clamp_hundredths (k : Z) : Z := Z.max 0 (Z.min 400 k).

(** The cell of column [n] once the encoder loop has passed over it: the
    code of the request's value when an encoder is stored for [n] and knows
    the value, the cell [old] as it was otherwise. *)
Definition encode_cell (encs : list (string * LabelEncoder))
  (data : list (string * pyval)) (n : string) (old : option pyval)
  : option pyval :=
  match lookup n data, lookup n encs with
  | Some v, Some enc =>
      match index_of (py_str v) (classes_ enc) with
      | Some code => Some (PInt code)
      | None => old
      end
  | _, _ => old
  end.

(** The encoder calls of the loop over [keys]: one per key that is a column
    of the request, in key order, up to and including the first one that
    rejects its value. *)
Fixpoint encoder_calls (encs : list (string * LabelEncoder))
  (data : list (string * pyval)) (keys : list string) : list Call :=
  match keys with
  | [] => []
  | col :: keys' =>
      match lookup col data, lookup col encs with
      | Some v, Some enc =>
          EncoderCall col (py_str v)
          :: match index_of (py_str v) (classes_ enc) with
             | Some _ => encoder_calls encs data keys'
             | None => []
             end
      | _, _ => encoder_calls encs data keys'
      end
  end.

(** The runs of [score_of_frame] on the frame [df], case by case: the
    outcome and the calls made. *)
Inductive frame_run (p : Process) (df : DataFrame)
  : Outcome spec_float -> list Call -> Prop :=
| frame_no_names :
    feature_names p = None ->
    frame_run p df (Raise (PyError (KeyError KNone))) []
| frame_missing_columns names e :
    feature_names p = Some names ->
    df_select df names = inl e ->
    frame_run p df (Raise (PyError e)) []
| frame_no_scaler names df2 :
    feature_names p = Some names ->
    df_select df names = inr df2 ->
    scaler p = None ->
    frame_run p df (Raise (PyError (AttributeError "NoneType" "transform"))) []
| frame_scaler_raises names df2 s e :
    feature_names p = Some names ->
    df_select df names = inr df2 ->
    scaler p = Some s ->
    Scaler_transform s df2 = inl e ->
    frame_run p df (Raise (PyError e)) [ScalerCall df2]
| frame_no_model names df2 s x :
    feature_names p = Some names ->
    df_select df names = inr df2 ->
    scaler p = Some s ->
    Scaler_transform s df2 = inr x ->
    model p = None ->
    frame_run p df (Raise (PyError (AttributeError "NoneType" "predict")))
      [ScalerCall df2]
| frame_model_raises names df2 s x m e :
    feature_names p = Some names ->
    df_select df names = inr df2 ->
    scaler p = Some s ->
    Scaler_transform s df2 = inr x ->
    model p = Some m ->
    Model_predict m x = inl e ->
    frame_run p df (Raise (PyError e)) [ScalerCall df2; ModelCall x]
| frame_empty_prediction names df2 s x m :
    feature_names p = Some names ->
    df_select df names = inr df2 ->
    scaler p = Some s ->
    Scaler_transform s df2 = inr x ->
    model p = Some m ->
    Model_predict m x = inr [] ->
    frame_run p df
      (Raise (PyError (IndexError
                "index 0 is out of bounds for axis 0 with size 0")))
      [ScalerCall df2; ModelCall x]
| frame_score names df2 s x m score rest :
    feature_names p = Some names ->
    df_select df names = inr df2 ->
    scaler p = Some s ->
    Scaler_transform s df2 = inr x ->
    model p = Some m ->
    Model_predict m x = inr (score :: rest) ->
    frame_run p df (Return score) [ScalerCall df2; ModelCall x].

(** The runs of [raw_score] for a request: no encoder mapping, an unseen
    column, or the whole loop followed by a run on the encoded frame. *)
Inductive request_run (p : Process) (student : StudentInput)
  : Outcome spec_float -> list Call -> Prop :=
| request_no_encoders :
    label_encoders p = None ->
    request_run p student
      (Raise (PyError (AttributeError "NoneType" "keys"))) []
| request_unseen encs c v :
    label_encoders p = Some encs ->
    first_unseen encs (input_data student) (map fst encs) = Some (c, v) ->
    request_run p student
      (Raise (HTTPException 400 (invalid_value_detail c v)))
      (encoder_calls encs (input_data student) (map fst encs))
| request_encoded encs df out l :
    label_encoders p = Some encs ->
    first_unseen encs (input_data student) (map fst encs) = None ->
    map fst df = map fst (input_data student) ->
    (forall n,
        lookup n df
        = if existsb (String.eqb n) (map fst encs)
          then encode_cell encs (input_data student) n
                 (lookup n (input_data student))
          else lookup n (input_data student)) ->
    frame_run p df out l ->
    request_run p student out
      (encoder_calls encs (input_data student) (map fst encs) ++ l)%list.

(** A process whose feature names list a column the request does not
    have. *)
Definition process_drifted : Process :=
  {| model := Some sample_model;
     scaler := Some sample_scaler;
     label_encoders := Some sample_encoders;
     feature_names :=
       Some (sample_feature_names ++ ["What is your CGPA?"])%list |}.

(* ===================================================================== *)
(** * The handler over artifacts that hold state *)
(* ===================================================================== *)

(** The loaded artifacts are Python objects: a call of [transform] or
    [predict] may read and write whatever state the object, or the
    interpreter, holds (fitted attributes, caches, a random generator).
    In this second embedding of the handler that state is explicit: a
    method takes the state and returns it, and the handler threads it
    from call to call and from request to request. *)
Module Stateful.

Section Objects.

(** The state held behind the loaded objects. *)
Variable Heap : Type.

(** A method of a loaded object. *)
Definition method (A B : Type) : Type := A -> Heap -> lib B * Heap.

(** [enc.transform([v])[0]] is the one entry point used of an encoder. *)
Record LabelEncoder : Type :=
  { LabelEncoder_transform : method string Z }.

Record Scaler : Type :=
  { Scaler_transform : method DataFrame (list spec_float) }.

Record Model : Type :=
  { Model_predict : method (list spec_float) (list spec_float) }.

(** The module-level globals. *)
Record Process : Type :=
  { model : option Model;
    scaler : option Scaler;
    label_encoders : option (list (string * LabelEncoder));
    feature_names : option (list string) }.

Record World : Type :=
  { globals : Process;
    heap : Heap }.

Definition M (A : Type) : Type := World -> Outcome A * World.

Definition ret {A} (a : A) : M A := fun w => (Return a, w).

Definition bind {A B} (c : M A) (k : A -> M B) : M B :=
  fun w =>
    match c w with
    | (Return a, w') => k a w'
    | (Raise e, w') => (Raise e, w')
    end.

Definition raise {A} (e : exn) : M A := fun w => (Raise e, w).

(** Reading a module-level global. *)
Definition read {A} (f : Process -> A) : M A :=
  fun w => (Return (f (globals w)), w).

(** The result of a library call that touches no loaded object. *)
Definition lift {A} (r : lib A) : M A :=
  match r with
  | inr a => ret a
  | inl e => raise (PyError e)
  end.

(** A call of a method of a loaded object: it runs on the current state
    and leaves the state it returns, also when it raises. *)
Definition call {A B} (f : method A B) (a : A) : M B :=
  fun w =>
    let (r, h) := f a (heap w) in
    (match r with
     | inr b => Return b
     | inl e => Raise (PyError e)
     end, {| globals := globals w; heap := h |}).

Definition try_except {A} (c : M A) (catches : exn -> bool) (h : exn -> M A)
  : M A :=
  fun w =>
    match c w with
    | (Raise e, w') => if catches e then h e w' else (Raise e, w')
    | r => r
    end.

(** [label_encoders.keys()]. *)
Definition label_encoders_keys : M (list string) :=
  bind (read label_encoders) (fun encs =>
  match encs with
  | Some d => ret (map fst d)
  | None => raise (PyError (AttributeError "NoneType" "keys"))
  end).

(** [label_encoders[col].transform([str(input_data[col])])[0]]. *)
Definition encode_value (data : list (string * pyval)) (col : string) : M Z :=
  bind (read label_encoders) (fun encs =>
  match encs with
  | None =>
      raise (PyError (OtherError "TypeError"
                        "'NoneType' object is not subscriptable"))
  | Some d =>
      bind (lift (dict_getitem d col)) (fun enc =>
      bind (lift (dict_getitem data col)) (fun v =>
      call (LabelEncoder_transform enc) (py_str v)))
  end).

(** The handler of [except ValueError] inside the loop. *)
Definition unseen_category (data : list (string * pyval)) (col : string)
  : M Z :=
  bind (lift (dict_getitem data col)) (fun v =>
  raise (HTTPException 400 (invalid_value_detail col v))).

(** The loop [for col in label_encoders.keys(): ...] over the remaining
    keys. *)
Fixpoint encode_columns (data : list (string * pyval)) (keys : list string)
  (input_df : DataFrame) : M DataFrame :=
  match keys with
  | [] => ret input_df
  | col :: keys' =>
      if in_columns col input_df then
        bind (try_except (encode_value data col) is_ValueError
                (fun _ => unseen_category data col)) (fun code =>
        encode_columns data keys' (df_setitem input_df col (PInt code)))
      else
        encode_columns data keys' input_df
  end.

(** [input_df[feature_names]]. *)
Definition reorder_columns (input_df : DataFrame) : M DataFrame :=
  bind (read feature_names) (fun names =>
  match names with
  | Some l => lift (df_select input_df l)
  | None => raise (PyError (KeyError KNone))
  end).

(** [scaler.transform(input_df)]. *)
Definition scale (input_df : DataFrame) : M (list spec_float) :=
  bind (read scaler) (fun sc =>
  match sc with
  | Some s => call (Scaler_transform s) input_df
  | None => raise (PyError (AttributeError "NoneType" "transform"))
  end).

(** [model.predict(input_scaled)]. *)
Definition predict (input_scaled : list spec_float) : M (list spec_float) :=
  bind (read model) (fun mdl =>
  match mdl with
  | Some m => call (Model_predict m) input_scaled
  | None => raise (PyError (AttributeError "NoneType" "predict"))
  end).

(** Lines 257-265: from the encoded frame to the number
    [float(prediction[0])]. *)
Definition score_of_frame (input_df : DataFrame) : M spec_float :=
  bind (reorder_columns input_df) (fun input_df =>
  bind (scale input_df) (fun input_scaled =>
  bind (predict input_scaled) (fun prediction =>
  lift (first_item prediction)))).

(** Lines 229-265 of the outer [try]: from the request to the raw score. *)
Definition raw_score (student : StudentInput) : M spec_float :=
  let data := input_data student in
  let input_df : DataFrame := data in
  bind label_encoders_keys (fun keys =>
  bind (encode_columns data keys input_df) (fun input_df =>
  score_of_frame input_df)).

(** The body of the outer [try]. *)
Definition predict_body (student : StudentInput) : M PredictionOutput :=
  bind (raw_score student) (fun score => ret (postprocess score)).

(** [str(e)] for an exception [e]. *)
Variable exc_str : py_error -> string.

(** The two [except] clauses of the outer [try]. *)
Definition on_exception (e : exn) : M PredictionOutput :=
  match e with
  | HTTPException _ _ => raise e
  | PyError err =>
      raise (HTTPException 500 ("Prediction error: " ++ exc_str err))
  end.

Definition predict_cgpa (student : StudentInput) : M PredictionOutput :=
  try_except (predict_body student) (fun _ => true) on_exception.

Definition root : M (list (string * json)) :=
  ret [ ("message", JStr "Welcome to Student Mental Health CGPA Prediction API");
        ("version", JStr "1.0.0");
        ("endpoints",
         JObj [ ("predict", JStr "/predict (POST)");
                ("health", JStr "/health (GET)");
                ("docs", JStr "/docs (Swagger UI)");
                ("redoc", JStr "/redoc (ReDoc)") ]) ].

Definition health_check : M (list (string * json)) :=
  bind (read model) (fun m =>
  bind (read scaler) (fun s =>
  bind (read label_encoders) (fun l =>
  ret [ ("status", JStr "healthy");
        ("model_loaded", JBool (is_not_None m));
        ("scaler_loaded", JBool (is_not_None s));
        ("encoders_loaded", JBool (is_not_None l)) ]))).

Definition respond {A} (to_body : A -> Body) (c : M A)
  : World -> Response * World :=
  fun w => let (out, w') := c w in (response_of to_body out, w').

(** Routing, with the schema check in front of [POST /predict]. *)
Definition serve (r : Request) : World -> Response * World :=
  match r with
  | GET_root => respond JsonBody root
  | GET_health => respond JsonBody health_check
  | POST_predict payload =>
      if validate payload then
        respond PredictionBody (predict_cgpa payload)
      else
        fun w => ({| status := 422;
                     body := ValidationBody (validation_errors payload) |}, w)
  end.

(** Answering a sequence of requests, one after the other. *)
Fixpoint serve_all (rs : list Request) (w : World) : World :=
  match rs with
  | [] => w
  | r :: rs' => serve_all rs' (snd (serve r w))
  end.

(** [leaves p c]: run in a process whose globals are [p], the computation
    [c] ends in the world it started in. *)
Definition leaves (p : Process) {A} (c : M A) : Prop :=
  forall w, globals w = p -> snd (c w) = w.

(** [frames c]: the computation [c] leaves every global bound as it
    was. *)
Definition frames {A} (c : M A) : Prop :=
  forall w, globals (snd (c w)) = globals w.

(** The methods of the loaded objects leave the state as they found
    it. *)
Definition keeps_state {A B} (f : method A B) : Prop :=
  forall a h, snd (f a h) = h.

Definition read_only (p : Process) : Prop :=
  (forall m, model p = Some m -> keeps_state (Model_predict m))
  /\ (forall s, scaler p = Some s -> keeps_state (Scaler_transform s))
  /\ (forall encs col enc,
        label_encoders p = Some encs ->
        lookup col encs = Some enc ->
        keeps_state (LabelEncoder_transform enc)).

End Objects.

Arguments LabelEncoder_transform {Heap} _.
Arguments Scaler_transform {Heap} _.
Arguments Model_predict {Heap} _.
Arguments model {Heap} _.
Arguments scaler {Heap} _.
Arguments label_encoders {Heap} _.
Arguments feature_names {Heap} _.
Arguments globals {Heap} _.
Arguments heap {Heap} _.
Arguments ret {Heap A} _.
Arguments bind {Heap A B} _ _.
Arguments raise {Heap A} _.
Arguments read {Heap A} _.
Arguments lift {Heap A} _.
Arguments call {Heap A B} _ _.
Arguments try_except {Heap A} _ _ _.
Arguments label_encoders_keys {Heap}.
Arguments encode_value {Heap} _ _.
Arguments unseen_category {Heap} _ _.
Arguments encode_columns {Heap} _ _ _.
Arguments reorder_columns {Heap} _.
Arguments scale {Heap} _.
Arguments predict {Heap} _.
Arguments score_of_frame {Heap} _.
Arguments raw_score {Heap} _.
Arguments predict_body {Heap} _.
Arguments on_exception {Heap} _ _.
Arguments predict_cgpa {Heap} _ _.
Arguments root {Heap}.
Arguments health_check {Heap}.
Arguments respond {Heap A} _ _.
Arguments serve {Heap} _ _.
Arguments serve_all {Heap} _ _.
Arguments leaves {Heap} _ {A} _.
Arguments frames {Heap A} _.
Arguments keeps_state {Heap A B} _.
Arguments read_only {Heap} _.

End Stateful.

(** An artifact of the first embedding, whose methods are functions of
    their argument, as an object that keeps no state. *)
Definition pure_method {Heap A B : Type} (f : A -> lib B)
  : Stateful.method Heap A B :=
  fun a h => (f a, h).

Definition stateless_encoder (Heap : Type) (enc : LabelEncoder)
  : Stateful.LabelEncoder Heap :=
  {| Stateful.LabelEncoder_transform :=
       pure_method (LabelEncoder_transform enc) |}.

Definition stateless_scaler (Heap : Type) (s : Scaler) : Stateful.Scaler Heap :=
  {| Stateful.Scaler_transform := pure_method (Scaler_transform s) |}.

Definition stateless_model (Heap : Type) (m : Model) : Stateful.Model Heap :=
  {| Stateful.Model_predict := pure_method (Model_predict m) |}.

Definition stateless (Heap : Type) (p : Process) : Stateful.Process Heap :=
  {| Stateful.model := option_map (stateless_model Heap) (model p);
     Stateful.scaler := option_map (stateless_scaler Heap) (scaler p);
     Stateful.label_encoders :=
       option_map (map (fun ce => (fst ce, stateless_encoder Heap (snd ce))))
         (label_encoders p);
     Stateful.feature_names := feature_names p |}.

(** [agrees Heap p c cs]: from a world with the globals [p] and from its
    image without state, the computations [c] and [cs] of the two
    embeddings have the same outcome, and each leaves the globals (and the
    second the state) untouched. *)
Definition agrees (Heap : Type) (p : Process) {A} (c : M A)
  (cs : Stateful.M Heap A) : Prop :=
  forall w h,
    globals w = p ->
    exists out w',
      c w = (out, w') /\ globals w' = p
      /\ cs {| Stateful.globals := stateless Heap p; Stateful.heap := h |}
         = (out,
            {| Stateful.globals := stateless Heap p; Stateful.heap := h |}).

(** A model that draws its score from a generator it carries: the state is
    the number of draws made so far, and the draws are 3.0, 4.0, 5.0 and so
    on. *)
Definition drawing_model : Stateful.Model nat :=
  {| Stateful.Model_predict := fun _ draws =>
       (inr [float_of_Z (3 + Z.of_nat draws)], S draws) |}.

(** The sample process with that model in place of its own. *)
Definition process_drawing : Stateful.Process nat :=
  {| Stateful.model := Some drawing_model;
     Stateful.scaler := Stateful.scaler (stateless nat sample_process);
     Stateful.label_encoders :=
       Stateful.label_encoders (stateless nat sample_process);
     Stateful.feature_names := Some sample_feature_names |}.

(* ===================================================================== *)
(** * Properties of the float model *)
(* ===================================================================== *)

Module PyFloatFacts.
Import PyFloat.

Lemma round_half_even_lower (n d q0 : Z) :
  0 < d -> q0 * d <= n -> q0 <= round_half_even n d.
Proof.
  intros Hd Hn. unfold round_half_even.
  assert (Hq : q0 <= n / d) by (apply Z.div_le_lower_bound; lia).
  destruct (2 * (n mod d) ?= d); [destruct (Z.even (n / d)) | | ]; lia.
Qed.

(** For a quotient of at least 4 the exponent found is at least 2 and is
    a lower estimate. *)
Lemma floor_log2_ratio_ge_4 (n d : Z) :
  0 < d -> 4 * d <= n ->
  2 <= floor_log2_ratio n d /\ d * 2 ^ floor_log2_ratio n d <= n.
Proof.
  intros Hd Hn.
  assert (Hn0 : 0 < n) by lia.
  pose proof (Z.log2_spec n Hn0) as [Ha1 Ha2].
  pose proof (Z.log2_spec d Hd) as [Hb1 Hb2].
  pose proof (Z.log2_nonneg n) as Ha0.
  pose proof (Z.log2_nonneg d) as Hb0.
  set (a := Z.log2 n) in *. set (b := Z.log2 d) in *.
  assert (Hc : 2 <= a - b).
  { assert (H : 2 ^ (b + 2) < 2 ^ (Z.succ a)).
    { replace (2 ^ (b + 2)) with (4 * 2 ^ b)
        by (rewrite Z.pow_add_r by lia; change (2 ^ 2) with 4; lia).
      lia. }
    apply Z.pow_lt_mono_r_iff in H; lia. }
  unfold floor_log2_ratio, scaled_le. fold a b.
  replace (0 <=? a - b) with true by (symmetry; apply Z.leb_le; lia).
  destruct (d * 2 ^ (a - b) <=? n) eqn:Hle.
  - apply Z.leb_le in Hle. split; lia.
  - apply Z.leb_gt in Hle.
    assert (Hc3 : 3 <= a - b).
    { destruct (Z.eq_dec (a - b) 2) as [E | E]; [| lia].
      rewrite E in Hle. change (2 ^ 2) with 4 in Hle. lia. }
    split; [lia |].
    assert (Hpow : 2 ^ Z.succ b * 2 ^ (a - b - 1) = 2 ^ a).
    { rewrite <- Z.pow_add_r by lia. f_equal. lia. }
    assert (0 < 2 ^ (a - b - 1)) by (apply Z.pow_pos_nonneg; lia).
    nia.
Qed.

Lemma centi_400 : centi 400 = S754_finite false 4503599627370496 (-50).
Proof. vm_compute. reflexivity. Qed.

Lemma centi_0 : centi 0 = S754_zero false.
Proof. reflexivity. Qed.

(** Conversion to the nearest float does not take a quotient of at least
    4 below the float 4.0. *)
Lemma nearest_double_ge_4 (n d : Z) :
  0 < d -> 4 * d <= n -> lt (nearest_double false n d) (centi 400) = false.
Proof.
  intros Hd Hn.
  destruct (floor_log2_ratio_ge_4 n d Hd Hn) as [HE Hlow].
  rewrite centi_400. unfold nearest_double.
  replace (n <=? 0) with false by (symmetry; apply Z.leb_gt; lia).
  set (E := floor_log2_ratio n d) in *.
  replace (Z.max (E - 52) (-1074)) with (E - 52) by lia.
  set (e := E - 52).
  set (m := if 0 <=? e then round_half_even n (d * 2 ^ e)
            else round_half_even (n * 2 ^ (- e)) d).
  assert (Hm : 2 ^ 52 <= m).
  { unfold m. destruct (0 <=? e) eqn:He.
    - apply Z.leb_le in He.
      assert (0 < 2 ^ e) by (apply Z.pow_pos_nonneg; lia).
      apply round_half_even_lower; [nia |].
      replace (2 ^ 52 * (d * 2 ^ e)) with (d * 2 ^ E); [exact Hlow |].
      replace E with (e + 52) by (unfold e; lia).
      rewrite Z.pow_add_r by lia. ring.
    - apply Z.leb_gt in He.
      apply round_half_even_lower; [lia |].
      assert (Hp : 2 ^ E * 2 ^ (- e) = 2 ^ 52).
      { rewrite <- Z.pow_add_r by lia. f_equal. unfold e. lia. }
      assert (0 < 2 ^ (- e)) by (apply Z.pow_pos_nonneg; lia).
      rewrite <- Hp. nia. }
  assert (He : -50 <= e) by (unfold e; lia).
  clearbody m e. clear Hlow HE E.
  assert (Hfin : forall m' e', 2 ^ 52 <= m' -> -50 <= e' ->
            lt match m' with
               | Zpos p =>
                   if e' <=? 971 then S754_finite false p e'
                   else S754_infinity false
               | _ => S754_zero false
               end (S754_finite false 4503599627370496 (-50)) = false).
  { intros m' e' Hm' He'. change (2 ^ 52) with 4503599627370496 in Hm'.
    destruct m' as [| p | p]; try lia.
    destruct (e' <=? 971); [| reflexivity].
    unfold lt, SFltb, SFcompare.
    destruct (Z.compare_spec e' (-50)) as [Heq | Hlt | Hgt];
      [| lia | reflexivity].
    rewrite Pos.compare_cont_spec. simpl.
    destruct (Pos.compare_spec p 4503599627370496) as [_ | Hlt | _];
      try reflexivity.
    apply Pos2Z.pos_lt_pos in Hlt. lia. }
  destruct (m =? 2 ^ 53).
  - apply Hfin; lia.
  - apply Hfin; lia.
Qed.

Lemma lt_le (x y : spec_float) : lt x y = true -> le x y = true.
Proof.
  unfold lt, le, SFltb, SFleb.
  destruct (SFcompare x y) as [[| |] |]; congruence.
Qed.

Lemma gt_ge (x y : spec_float) : gt x y = true -> ge x y = true.
Proof. unfold gt, ge. apply lt_le. Qed.

(** On every value of the grid 0.01 ... 4.00 the conversion agrees with the
    standard library's IEEE division of the integer by 100. *)
Lemma centi_is_division :
  forallb (fun k => same (centi (Z.of_nat k))
                      (SFdiv prec emax (S754_finite false (Pos.of_nat k) 0)
                         (S754_finite false 100 0)))
    (seq 1 400) = true.
Proof. vm_compute. reflexivity. Qed.

(** [round(2.675, 2) = 2.67] (the float 2.675 lies below the tie),
    [round(0.125, 2) = 0.12] (an exact tie goes to the even neighbour),
    [round(3.496, 2) = 3.5], [round(-0.004, 2) = -0.0] and
    [round(1e22, 2) = 1e22]. *)
Lemma round2_examples :
  round2 (nearest_double false 2675 1000) = centi 267
  /\ round2 (nearest_double false 125 1000) = centi 12
  /\ round2 (nearest_double false 3496 1000) = centi 350
  /\ round2 (nearest_double true 4 1000) = S754_zero true
  /\ round2 (nearest_double false (10 ^ 22) 1) = nearest_double false (10 ^ 22) 1.
Proof. repeat split; vm_compute; reflexivity. Qed.

End PyFloatFacts.

(* ===================================================================== *)
(** * The post-processor *)
(* ===================================================================== *)

Module PostProcessor.
Import PyFloat PyFloatFacts.

Lemma nearest_double_cases (s : bool) (n d : Z) :
  nearest_double s n d = S754_zero s
  \/ nearest_double s n d = S754_infinity s
  \/ exists p e, nearest_double s n d = S754_finite s p e.
Proof.
  unfold nearest_double.
  destruct (n <=? 0); [now left |].
  destruct (_ =? 2 ^ 53).
  - destruct (2 ^ 52); [now left | | now left].
    destruct (_ <=? 971); [right; right; eauto | now right; left].
  - destruct (if 0 <=? _ then _ else _); [now left | | now left].
    destruct (_ <=? 971); [right; right; eauto | now right; left].
Qed.

(** Negative results of the rounding, the negative zero included, are
    clamped to [0.0]. *)
Lemma clamp_negative (n d : Z) : clamp (nearest_double true n d) = centi 0.
Proof.
  unfold clamp. rewrite centi_400, centi_0.
  destruct (nearest_double_cases true n d) as [E | [E | (p & e & E)]];
    rewrite E; reflexivity.
Qed.

Lemma clamp_cases (x : spec_float) :
  clamp x = x /\ lt x (centi 400) = true /\ gt x (centi 0) = true
  \/ clamp x = centi 0
  \/ clamp x = centi 400.
Proof.
  unfold clamp, max, min.
  destruct (lt x (centi 400)) eqn:H4.
  - destruct (gt x (centi 0)) eqn:H0; [left; auto | right; left; reflexivity].
  - right. destruct (gt (centi 400) (centi 0)); [right | left]; reflexivity.
Qed.

(** The clamped value always compares within the two bounds. *)
Lemma clamp_bounds (x : spec_float) :
  le (centi 0) (clamp x) = true /\ le (clamp x) (centi 400) = true.
Proof.
  destruct (clamp_cases x) as [(E & H4 & H0) | [E | E]]; rewrite E.
  - split; [apply lt_le; exact H0 | apply lt_le; exact H4].
  - split; reflexivity.
  - split; vm_compute; reflexivity.
Qed.

(** Rounding then clamping lands on one of the 401 two-decimal values
    0.00, 0.01, ..., 4.00. *)
Lemma clamp_round2_grid (score : spec_float) :
  exists k, 0 <= k <= 400 /\ clamp (round2 score) = centi k.
Proof.
  destruct score as [s | s | | s m e]; unfold round2.
  - exists 0. split; [lia |]. destruct s; reflexivity.
  - destruct s; [exists 0 | exists 400]; (split; [lia |]);
      vm_compute; reflexivity.
  - exists 400. split; [lia |]. vm_compute; reflexivity.
  - set (k := if 0 <=? e then 100 * Z.pos m * 2 ^ e
              else round_half_even (100 * Z.pos m) (2 ^ (- e))).
    destruct s.
    + exists 0. split; [lia | apply clamp_negative].
    + destruct (clamp_cases (nearest_double false k 100))
        as [(E & H4 & _) | [E | E]].
      * destruct (Z_lt_le_dec k 400) as [Hk | Hk].
        -- destruct (Z_le_gt_dec k 0) as [Hk0 | Hk0].
           ++ exists 0. split; [lia |]. rewrite E. unfold centi, nearest_double.
              replace (k <=? 0) with true by (symmetry; apply Z.leb_le; lia).
              reflexivity.
           ++ exists k. split; [lia | exact E].
        -- rewrite nearest_double_ge_4 in H4 by lia. discriminate.
      * exists 0. split; [lia | exact E].
      * exists 400. split; [lia | exact E].
Qed.

End PostProcessor.

(** C2. [interpret_cgpa] evaluates the thresholds 3.50, 3.00, 2.50 and 2.00
    from the top and the first one reached decides: every score gets
    exactly one of the five fixed (range label, message) pairs, and the
    boundary values 3.50, 3.49, 2.99, 2.49 and 1.99 fall in Excellent, Good,
    Average, Below Average and Poor. *)
Theorem interpret_cgpa_bands (s : spec_float) :
  let excellent := ("Excellent (3.50 - 4.00)",
     "Student is performing excellently! Keep up the great work.") in
  let good := ("Good (3.00 - 3.49)",
     "Student is performing well academically.") in
  let average := ("Average (2.50 - 2.99)",
     "Student is performing at an average level. Some improvement possible.") in
  let below := ("Below Average (2.00 - 2.49)",
     "Student may need academic support and intervention.") in
  let poor := ("Poor (0.00 - 1.99)",
     "Student requires immediate academic and mental health support.") in
  (PyFloat.ge s (PyFloat.centi 350) = true -> interpret_cgpa s = excellent)
  /\ (PyFloat.ge s (PyFloat.centi 350) = false ->
      PyFloat.ge s (PyFloat.centi 300) = true -> interpret_cgpa s = good)
  /\ (PyFloat.ge s (PyFloat.centi 350) = false ->
      PyFloat.ge s (PyFloat.centi 300) = false ->
      PyFloat.ge s (PyFloat.centi 250) = true -> interpret_cgpa s = average)
  /\ (PyFloat.ge s (PyFloat.centi 350) = false ->
      PyFloat.ge s (PyFloat.centi 300) = false ->
      PyFloat.ge s (PyFloat.centi 250) = false ->
      PyFloat.ge s (PyFloat.centi 200) = true -> interpret_cgpa s = below)
  /\ (PyFloat.ge s (PyFloat.centi 350) = false ->
      PyFloat.ge s (PyFloat.centi 300) = false ->
      PyFloat.ge s (PyFloat.centi 250) = false ->
      PyFloat.ge s (PyFloat.centi 200) = false -> interpret_cgpa s = poor)
  /\ In (interpret_cgpa s) [excellent; good; average; below; poor]
  /\ interpret_cgpa (PyFloat.centi 350) = excellent
  /\ interpret_cgpa (PyFloat.centi 349) = good
  /\ interpret_cgpa (PyFloat.centi 299) = average
  /\ interpret_cgpa (PyFloat.centi 249) = below
  /\ interpret_cgpa (PyFloat.centi 199) = poor.
Proof.
  intros excellent good average below poor.
  repeat split; try (vm_compute; reflexivity);
    unfold interpret_cgpa;
    try (intros; repeat match goal with
                   | H : PyFloat.ge _ _ = _ |- _ => rewrite H; clear H
                   end; reflexivity).
  destruct (PyFloat.ge s (PyFloat.centi 350)); [now left |].
  destruct (PyFloat.ge s (PyFloat.centi 300)); [now right; left |].
  destruct (PyFloat.ge s (PyFloat.centi 250)); [now right; right; left |].
  destruct (PyFloat.ge s (PyFloat.centi 200)); simpl; auto 6.
Qed.

(* ===================================================================== *)
(** * Runs of the handler *)
(* ===================================================================== *)

Module Runs.

Lemma runs_on_det {A} p (c : M A) o1 l1 o2 l2 :
  runs_on p c o1 l1 -> runs_on p c o2 l2 -> o1 = o2 /\ l1 = l2.
Proof.
  intros H1 H2.
  specialize (H1 {| globals := p; calls := [] |} eq_refl).
  specialize (H2 {| globals := p; calls := [] |} eq_refl).
  rewrite H1 in H2. simpl in H2. inversion H2. auto.
Qed.

Lemma runs_on_ret {A} p (a : A) : runs_on p (ret a) (Return a) [].
Proof. intros [g cs] Hg. simpl in *. subst. unfold ret. now rewrite app_nil_r. Qed.

Lemma runs_on_raise {A} p e : runs_on p (@raise A e) (Raise e) [].
Proof. intros [g cs] Hg. simpl in *. subst. unfold raise. now rewrite app_nil_r. Qed.

Lemma runs_on_read {A} p (f : Process -> A) :
  runs_on p (read f) (Return (f p)) [].
Proof. intros [g cs] Hg. simpl in *. subst. unfold read. simpl. now rewrite app_nil_r. Qed.

Lemma runs_on_record p c : runs_on p (record c) (Return tt) [c].
Proof. intros [g cs] Hg. simpl in *. subst. reflexivity. Qed.

Lemma runs_on_lift {A} p (r : lib A) :
  runs_on p (lift r)
    (match r with inr a => Return a | inl e => Raise (PyError e) end) [].
Proof. destruct r; [apply runs_on_raise | apply runs_on_ret]. Qed.

Lemma runs_on_bind {A B} p (c : M A) (k : A -> M B) a l1 out l2 :
  runs_on p c (Return a) l1 -> runs_on p (k a) out l2 ->
  runs_on p (bind c k) out (l1 ++ l2).
Proof.
  intros Hc Hk w Hw. unfold bind. rewrite (Hc w Hw).
  rewrite (Hk {| globals := p; calls := calls w ++ l1 |} eq_refl).
  simpl. now rewrite app_assoc.
Qed.

Lemma runs_on_bind_raise {A B} p (c : M A) (k : A -> M B) e l :
  runs_on p c (Raise e) l -> runs_on p (bind c k) (Raise e) l.
Proof. intros Hc w Hw. unfold bind. now rewrite (Hc w Hw). Qed.

Lemma runs_on_try_return {A} p (c : M A) catches h a l :
  runs_on p c (Return a) l -> runs_on p (try_except c catches h) (Return a) l.
Proof. intros Hc w Hw. unfold try_except. now rewrite (Hc w Hw). Qed.

Lemma runs_on_try_caught {A} p (c : M A) catches h e l1 out l2 :
  runs_on p c (Raise e) l1 -> catches e = true -> runs_on p (h e) out l2 ->
  runs_on p (try_except c catches h) out (l1 ++ l2).
Proof.
  intros Hc He Hh w Hw. unfold try_except. rewrite (Hc w Hw), He.
  rewrite (Hh {| globals := p; calls := calls w ++ l1 |} eq_refl).
  simpl. now rewrite app_assoc.
Qed.

Lemma runs_on_try_passed {A} p (c : M A) catches h e l :
  runs_on p c (Raise e) l -> catches e = false ->
  runs_on p (try_except c catches h) (Raise e) l.
Proof. intros Hc He w Hw. unfold try_except. now rewrite (Hc w Hw), He. Qed.

Lemma runs_on_respond {A} p (c : M A) (to_body : A -> Body) out l w :
  runs_on p c out l -> globals w = p ->
  respond to_body c w
  = (response_of to_body out, {| globals := p; calls := calls w ++ l |}).
Proof. intros Hc Hw. unfold respond. now rewrite (Hc w Hw). Qed.

(** ** Dictionaries and frames *)

Lemma lookup_in_columns (col : string) (df : DataFrame) :
  in_columns col df = true <-> exists v, lookup col df = Some v.
Proof.
  unfold in_columns. induction df as [| [c x] df IH]; simpl.
  - split; [discriminate | intros [v H]; discriminate].
  - destruct (String.eqb col c); simpl; [split; eauto | exact IH].
Qed.

Lemma in_columns_names (col : string) (df df' : DataFrame) :
  map fst df = map fst df' -> in_columns col df = in_columns col df'.
Proof. unfold in_columns. now intros ->. Qed.

Lemma df_setitem_columns (df : DataFrame) (col : string) (v : pyval) :
  in_columns col df = true -> map fst (df_setitem df col v) = map fst df.
Proof.
  unfold in_columns. induction df as [| [c x] df IH]; simpl; [discriminate |].
  destruct (String.eqb col c); simpl; [reflexivity |].
  intros H. now rewrite IH.
Qed.

Lemma lookup_keys {A} (k : string) (d : list (string * A)) :
  In k (map fst d) -> exists a, lookup k d = Some a.
Proof.
  induction d as [| [k' a] d IH]; simpl; [tauto |].
  intros [E | H].
  - subst. rewrite String.eqb_refl. eauto.
  - destruct (String.eqb k k'); eauto.
Qed.

Lemma lookup_In {A} (k : string) (d : list (string * A)) a :
  lookup k d = Some a -> In k (map fst d).
Proof.
  induction d as [| [k' a'] d IH]; simpl; [discriminate |].
  destruct (String.eqb_spec k k'); [left; congruence | right; auto].
Qed.

(** ** The calls of a run *)

Lemma encoder_calls_only_app l1 l2 :
  encoder_calls_only l1 -> encoder_calls_only l2 ->
  encoder_calls_only (l1 ++ l2).
Proof. intros H1 H2. apply Forall_app. now split. Qed.

Lemma encoder_calls_only_count l :
  encoder_calls_only l ->
  count_calls is_scaler_call l = 0%nat /\ count_calls is_model_call l = 0%nat.
Proof.
  unfold count_calls. induction 1 as [| c l Hc _ IH]; [now split |].
  destruct c; simpl in *; try discriminate. exact IH.
Qed.

Lemma encoder_calls_only_In l c :
  encoder_calls_only l -> In c l -> is_encoder_call c = true.
Proof. intros H Hc. unfold encoder_calls_only in H. rewrite Forall_forall in H. auto. Qed.

Lemma count_calls_app f l1 l2 :
  count_calls f (l1 ++ l2) = (count_calls f l1 + count_calls f l2)%nat.
Proof. unfold count_calls. now rewrite filter_app, length_app. Qed.

End Runs.

Module EncoderLoop.
Import Runs.

Lemma encode_value_runs p encs data col enc v :
  label_encoders p = Some encs ->
  lookup col encs = Some enc ->
  lookup col data = Some v ->
  runs_on p (encode_value data col)
    (match index_of (py_str v) (classes_ enc) with
     | Some code => Return code
     | None =>
         Raise (PyError (ValueError
                  ("y contains previously unseen labels: '" ++ py_str v
                   ++ "'")))
     end)
    [EncoderCall col (py_str v)].
Proof.
  intros Hp Henc Hv [g cs] Hg. simpl in Hg. subst g.
  unfold encode_value, bind, read, lift, dict_getitem, record,
    LabelEncoder_transform, ret, raise.
  simpl. rewrite Hp, Henc, Hv. simpl.
  destruct (index_of (py_str v) (classes_ enc)); reflexivity.
Qed.

Lemma unseen_category_runs p data col v :
  lookup col data = Some v ->
  runs_on p (unseen_category data col)
    (Raise (HTTPException 400 (invalid_value_detail col v))) [].
Proof.
  intros Hv [g cs] Hg. simpl in Hg. subst g.
  unfold unseen_category, bind, lift, dict_getitem, ret, raise.
  rewrite Hv. now rewrite app_nil_r.
Qed.

(** The encoder loop stops with the 400 of the first unseen column, or
    runs to its end; it calls encoders only and keeps the columns. *)
Lemma encode_columns_runs p encs data :
  label_encoders p = Some encs ->
  forall keys df,
    map fst df = map fst data ->
    (forall k, In k keys -> In k (map fst encs)) ->
    exists l, encoder_calls_only l /\
      match first_unseen encs data keys with
      | Some (c, v) =>
          runs_on p (encode_columns data keys df)
            (Raise (HTTPException 400 (invalid_value_detail c v))) l
      | None =>
          exists df', map fst df' = map fst data /\
            runs_on p (encode_columns data keys df) (Return df') l
      end.
Proof.
  intros Hp keys. induction keys as [| col keys IH]; intros df Hdf Hk; simpl.
  - exists []. split; [constructor |]. exists df. split; [exact Hdf |].
    apply runs_on_ret.
  - assert (Hk' : forall k, In k keys -> In k (map fst encs))
      by (intros k Hin; apply Hk; now right).
    destruct (in_columns col df) eqn:Hcol.
    + pose proof Hcol as Hcol'.
      rewrite (in_columns_names col df data Hdf) in Hcol'.
      apply lookup_in_columns in Hcol' as [v Hv]. rewrite Hv.
      destruct (lookup_keys col encs (Hk col (or_introl eq_refl)))
        as [enc Henc].
      rewrite Henc.
      pose proof (encode_value_runs p encs data col enc v Hp Henc Hv) as Hrun.
      destruct (index_of (py_str v) (classes_ enc)) as [code |] eqn:Hidx.
      * destruct (IH (df_setitem df col (PInt code))) as (l & Hl & Hrest);
          [rewrite df_setitem_columns; auto | exact Hk' |].
        exists ([EncoderCall col (py_str v)] ++ l)%list. split.
        { apply encoder_calls_only_app; [repeat constructor | exact Hl]. }
        destruct (first_unseen encs data keys) as [[c v'] |].
        -- eapply runs_on_bind; [apply runs_on_try_return; exact Hrun |].
           exact Hrest.
        -- destruct Hrest as (df' & Hdf' & Hrest). exists df'.
           split; [exact Hdf' |].
           eapply runs_on_bind; [apply runs_on_try_return; exact Hrun |].
           exact Hrest.
      * exists ([EncoderCall col (py_str v)] ++ [])%list. split.
        { repeat constructor. }
        apply runs_on_bind_raise.
        eapply runs_on_try_caught;
          [exact Hrun | reflexivity | apply unseen_category_runs; exact Hv].
    + assert (Hnone : lookup col data = None).
      { destruct (lookup col data) as [v |] eqn:Hv; [| reflexivity].
        rewrite (in_columns_names col df data Hdf) in Hcol.
        assert (in_columns col data = true)
          by (apply lookup_in_columns; eauto).
        congruence. }
      rewrite Hnone. apply IH; assumption.
Qed.

(** What [first_unseen] finds is an unseen column, and it finds one as soon
    as there is one among the keys. *)
Lemma first_unseen_sound encs data keys c v :
  first_unseen encs data keys = Some (c, v) ->
  In c keys /\ unseen encs data c v.
Proof.
  induction keys as [| col keys IH]; simpl; [discriminate |].
  destruct (lookup col data) as [x |] eqn:Hx;
    [| intros H; apply IH in H; tauto].
  destruct (lookup col encs) as [enc |] eqn:Henc;
    [| intros H; apply IH in H; tauto].
  destruct (index_of (py_str x) (classes_ enc)) eqn:Hidx;
    [intros H; apply IH in H; tauto |].
  intros H. inversion H; subst. split; [now left |].
  exists enc. auto.
Qed.

Lemma first_unseen_complete encs data keys col v :
  In col keys -> unseen encs data col v ->
  exists c v', first_unseen encs data keys = Some (c, v').
Proof.
  intros Hin (enc & Henc & Hv & Hidx).
  induction keys as [| k keys IH]; simpl; [destruct Hin |].
  destruct Hin as [E | Hin].
  - subst k. rewrite Hv, Henc, Hidx. eauto.
  - destruct (lookup k data); [| auto].
    destruct (lookup k encs) as [enc' |]; [| auto].
    destruct (index_of (py_str p) (classes_ enc')); eauto.
Qed.

End EncoderLoop.

Module HandlerFacts.
Import Runs EncoderLoop.

Ltac compute_run :=
  let g := fresh "g" in
  let cs := fresh "cs" in
  let Hg := fresh "Hg" in
  intros [g cs] Hg; simpl in Hg; subst g;
  unfold score_of_frame, reorder_columns, scale, predict, label_encoders_keys,
    bind, read, lift, record, ret, raise, first_item;
  simpl;
  repeat match goal with
         | H : ?x = _ |- context [?x] => rewrite H; simpl
         end;
  rewrite <- ?app_assoc, ?app_nil_r; reflexivity.

Ltac single_pass_trivial :=
  unfold single_pass, count_calls; simpl;
  repeat split; try lia;
  try (intros; repeat match goal with
                      | H : _ \/ _ |- _ => destruct H
                      | H : False |- _ => destruct H
                      | H : ScalerCall _ = ScalerCall _ |- _ =>
                          inversion H; clear H; subst
                      | H : ModelCall _ = ModelCall _ |- _ =>
                          inversion H; clear H; subst
                      | H : Some _ = Some _ |- _ =>
                          inversion H; clear H; subst
                      end; try discriminate; try congruence).

(** From the encoded frame on, the run is a single pass that raises no
    [HTTPException] and calls no encoder. *)
Lemma score_of_frame_runs p df :
  exists out l,
    runs_on p (score_of_frame df) out l
    /\ (forall code d, out <> Raise (HTTPException code d))
    /\ single_pass p out l.
Proof.
  destruct (feature_names p) as [names |] eqn:Hnames.
  2:{ exists (Raise (PyError (KeyError KNone))), [].
      split; [compute_run | split; [discriminate | single_pass_trivial]]. }
  destruct (df_select df names) as [e | df2] eqn:Hsel.
  { exists (Raise (PyError e)), [].
    split; [compute_run | split; [discriminate | single_pass_trivial]]. }
  destruct (scaler p) as [s |] eqn:Hs.
  2:{ exists (Raise (PyError (AttributeError "NoneType" "transform"))), [].
      split; [compute_run | split; [discriminate | single_pass_trivial]]. }
  destruct (Scaler_transform s df2) as [e | x] eqn:Hx.
  { exists (Raise (PyError e)), [ScalerCall df2].
    split; [compute_run | split; [discriminate | single_pass_trivial]]. }
  destruct (model p) as [m |] eqn:Hm.
  2:{ exists (Raise (PyError (AttributeError "NoneType" "predict"))),
        [ScalerCall df2].
      split; [compute_run | split; [discriminate | single_pass_trivial]]. }
  destruct (Model_predict m x) as [e | prediction] eqn:Hpred.
  { exists (Raise (PyError e)), [ScalerCall df2; ModelCall x].
    split; [compute_run | split; [discriminate | single_pass_trivial]]. }
  destruct prediction as [| score rest].
  { exists (Raise (PyError (IndexError
              "index 0 is out of bounds for axis 0 with size 0"))),
      [ScalerCall df2; ModelCall x].
    split; [compute_run | split; [discriminate | single_pass_trivial]]. }
  exists (Return score), [ScalerCall df2; ModelCall x].
  split; [compute_run | split; [discriminate |]].
  single_pass_trivial.
  exists m, x, rest. inversion H; subst. auto.
Qed.

(** The whole run up to the raw score: a single pass; it ends in an
    [HTTPException] exactly when the encoder loop met an unseen column, with
    status 400 and the detail of the first such column, and then no call
    other than encoder calls was made. *)
Lemma raw_score_runs p student :
  exists out l,
    runs_on p (raw_score student) out l
    /\ single_pass p out l
    /\ (forall code d,
          out = Raise (HTTPException code d) <->
          exists encs c v,
            label_encoders p = Some encs
            /\ first_unseen encs (input_data student) (map fst encs)
               = Some (c, v)
            /\ code = 400 /\ d = invalid_value_detail c v)
    /\ ((exists code d, out = Raise (HTTPException code d)) ->
        encoder_calls_only l).
Proof.
  destruct (label_encoders p) as [encs |] eqn:Hencs.
  2:{ exists (Raise (PyError (AttributeError "NoneType" "keys"))), [].
      split; [| split; [single_pass_trivial | split]].
      - unfold raw_score. apply runs_on_bind_raise. compute_run.
      - intros code d. split; [discriminate |].
        intros (encs & c & v & H & _). discriminate.
      - intros _. constructor. }
  assert (Hkeys : runs_on p label_encoders_keys (Return (map fst encs)) [])
    by compute_run.
  destruct (encode_columns_runs p encs (input_data student) Hencs
              (map fst encs) (input_data student) eq_refl (fun k H => H))
    as (l1 & Hl1 & Hloop).
  destruct (encoder_calls_only_count l1 Hl1) as [Hs1 Hm1].
  destruct (first_unseen encs (input_data student) (map fst encs))
    as [[c v] |] eqn:Hfirst.
  - exists (Raise (HTTPException 400 (invalid_value_detail c v))),
      ([] ++ l1)%list.
    split; [| split; [| split]].
    + unfold raw_score. eapply runs_on_bind; [exact Hkeys |].
      apply runs_on_bind_raise. exact Hloop.
    + simpl. unfold single_pass. rewrite Hs1, Hm1.
      repeat split; try lia; try discriminate.
      * intros s df e _ Hin. apply (encoder_calls_only_In _ _ Hl1) in Hin.
        discriminate.
      * intros m x e _ Hin. apply (encoder_calls_only_In _ _ Hl1) in Hin.
        discriminate.
    + intros code d. split.
      * intros H. inversion H; subst. exists encs, c, v. auto.
      * intros (encs' & c' & v' & He & Hf & -> & ->).
        inversion He; subst encs'. rewrite Hfirst in Hf.
        inversion Hf; subst. reflexivity.
    + intros _. exact Hl1.
  - destruct Hloop as (df' & _ & Hloop).
    destruct (score_of_frame_runs p df') as (out & l2 & Hrun & Hnot & Hpass).
    exists out, ([] ++ (l1 ++ l2))%list.
    split; [| split; [| split]].
    + unfold raw_score. eapply runs_on_bind; [exact Hkeys |].
      eapply runs_on_bind; [exact Hloop | exact Hrun].
    + simpl. destruct Hpass as (Hc1 & Hc2 & Hsc & Hmd & Hret).
      unfold single_pass. rewrite !count_calls_app, Hs1, Hm1.
      repeat split; try assumption.
      * intros s df e Hs Hin. apply in_app_or in Hin as [Hin | Hin].
        -- apply (encoder_calls_only_In _ _ Hl1) in Hin. discriminate.
        -- eauto.
      * intros m x e Hm Hin. apply in_app_or in Hin as [Hin | Hin].
        -- apply (encoder_calls_only_In _ _ Hl1) in Hin. discriminate.
        -- eauto.
      * intros score Hscore.
        destruct (Hret score Hscore) as (m & x & rest & Hm & Hin & Hp).
        exists m, x, rest. repeat split; auto. apply in_or_app. now right.
    + intros code d. split.
      * intros H. destruct (Hnot code d H).
      * intros (encs' & c' & v' & He & Hf & _).
        inversion He; subst encs'. rewrite Hfirst in Hf. discriminate.
    + intros (code & d & H). destruct (Hnot code d H).
Qed.

(** The outer [try]: a returned score is post-processed, an
    [HTTPException] passes unchanged, any other exception becomes a 500
    whose detail carries its text. *)
Lemma predict_cgpa_runs exc_str p student out l :
  runs_on p (raw_score student) out l ->
  runs_on p (predict_cgpa exc_str student)
    (match out with
     | Return score => Return (postprocess score)
     | Raise (HTTPException code d) => Raise (HTTPException code d)
     | Raise (PyError e) =>
         Raise (HTTPException 500 ("Prediction error: " ++ exc_str e))
     end) l.
Proof.
  intros H w Hw.
  unfold predict_cgpa, try_except, predict_body, bind. rewrite (H w Hw).
  destruct out as [score | [code d | e]]; reflexivity.
Qed.

Lemma health_check_runs p :
  runs_on p health_check
    (Return [ ("status", JStr "healthy");
              ("model_loaded", JBool (is_not_None (model p)));
              ("scaler_loaded", JBool (is_not_None (scaler p)));
              ("encoders_loaded", JBool (is_not_None (label_encoders p))) ])
    [].
Proof.
  intros [g cs] Hg. simpl in Hg. subst g.
  unfold health_check, bind, read, ret. simpl. now rewrite app_nil_r.
Qed.

(** Answering a request never changes the globals. *)
Lemma serve_globals exc_str r w :
  globals (snd (serve exc_str r w)) = globals w.
Proof.
  destruct r as [| | student]; cbv beta iota delta [serve].
  - unfold respond, root, ret. reflexivity.
  - rewrite (runs_on_respond _ _ _ _ _ w (health_check_runs (globals w)) eq_refl).
    reflexivity.
  - destruct (validate student); [| reflexivity].
    destruct (raw_score_runs (globals w) student) as (out & l & Hrun & _).
    rewrite (runs_on_respond _ _ _ _ _ w
               (predict_cgpa_runs exc_str _ _ _ _ Hrun) eq_refl).
    reflexivity.
Qed.

Lemma serve_all_globals exc_str rs w :
  globals (serve_all exc_str rs w) = globals w.
Proof.
  revert w. induction rs as [| r rs IH]; intros w; simpl; [reflexivity |].
  rewrite IH. apply serve_globals.
Qed.

(** The response to a request depends on the globals only. *)
Lemma serve_response exc_str r w w' :
  globals w = globals w' ->
  fst (serve exc_str r w) = fst (serve exc_str r w').
Proof.
  intros Hg. destruct r as [| | student]; cbv beta iota delta [serve].
  - reflexivity.
  - rewrite (runs_on_respond _ _ _ _ _ w (health_check_runs (globals w)) eq_refl).
    rewrite (runs_on_respond _ _ _ _ _ w' (health_check_runs (globals w))
               (eq_sym Hg)).
    reflexivity.
  - destruct (validate student); [| reflexivity].
    destruct (raw_score_runs (globals w) student) as (out & l & Hrun & _).
    rewrite (runs_on_respond _ _ _ _ _ w
               (predict_cgpa_runs exc_str _ _ _ _ Hrun) eq_refl).
    rewrite (runs_on_respond _ _ _ _ _ w'
               (predict_cgpa_runs exc_str _ _ _ _ Hrun) (eq_sym Hg)).
    reflexivity.
Qed.

End HandlerFacts.

(* ===================================================================== *)
(** * The claims *)
(* ===================================================================== *)

Import Runs EncoderLoop HandlerFacts PostProcessor.

Lemma postprocess_fields (score : spec_float) :
  postprocess score
  = {| predicted_cgpa := clamp (PyFloat.round2 score);
       cgpa_range := fst (interpret_cgpa (clamp (PyFloat.round2 score)));
       message := snd (interpret_cgpa (clamp (PyFloat.round2 score))) |}.
Proof.
  unfold postprocess.
  destruct (interpret_cgpa (clamp (PyFloat.round2 score))); reflexivity.
Qed.

Lemma pair_of_fst {A B} (x : A * B) (a : A) : fst x = a -> x = (a, snd x).
Proof. destruct x. simpl. congruence. Qed.

Lemma world_eta (w : World) l :
  l = [] -> {| globals := globals w; calls := calls w ++ l |} = w.
Proof. intros ->. destruct w. simpl. now rewrite app_nil_r. Qed.

(** The response of the route function, from a run of [raw_score]. *)
Lemma respond_predict exc_str student w out l :
  runs_on (globals w) (raw_score student) out l ->
  respond PredictionBody (predict_cgpa exc_str student) w
  = (match out with
     | Return score =>
         {| status := 200; body := PredictionBody (postprocess score) |}
     | Raise (HTTPException code d) =>
         {| status := code; body := DetailBody d |}
     | Raise (PyError e) =>
         {| status := 500;
            body := DetailBody ("Prediction error: " ++ exc_str e) |}
     end,
     {| globals := globals w; calls := calls w ++ l |}).
Proof.
  intros Hrun.
  rewrite (runs_on_respond _ _ _ _ _ w
             (predict_cgpa_runs exc_str _ _ _ _ Hrun) eq_refl).
  destruct out as [score | [code d | e]]; reflexivity.
Qed.

Lemma serve_predict exc_str student w :
  validate student = true ->
  serve exc_str (POST_predict student) w
  = respond PredictionBody (predict_cgpa exc_str student) w.
Proof. intros H. cbv beta iota delta [serve]. now rewrite H. Qed.

(** A request whose pipeline reaches a score is answered with the
    post-processed score. *)
Lemma predict_cgpa_postprocess exc_str student w score w' :
  raw_score student w = (Return score, w') ->
  predict_cgpa exc_str student w = (Return (postprocess score), w')
  /\ (validate student = true ->
      serve exc_str (POST_predict student) w
      = ({| status := 200; body := PredictionBody (postprocess score) |}, w')).
Proof.
  intros Hraw.
  assert (Hrun : predict_cgpa exc_str student w
                 = (Return (postprocess score), w')).
  { unfold predict_cgpa, try_except, predict_body, bind. rewrite Hraw.
    reflexivity. }
  split; [exact Hrun |].
  intros Hvalid. rewrite (serve_predict _ _ _ Hvalid).
  unfold respond. now rewrite Hrun.
Qed.

(** C3. The [predicted_cgpa] of a successful POST /predict response lies in
    [0.00, 4.00] and has two decimal digits: it is the float of one of the
    values k/100 with k an integer from 0 to 400, whatever the input and
    whatever score the model returned. *)
Theorem predicted_cgpa_two_decimals_in_range exc_str student w out w' :
  serve exc_str (POST_predict student) w
  = ({| status := 200; body := PredictionBody out |}, w') ->
  validate student = true
  /\ (exists k, 0 <= k <= 400 /\ predicted_cgpa out = PyFloat.centi k)
  /\ PyFloat.le (PyFloat.centi 0) (predicted_cgpa out) = true
  /\ PyFloat.le (predicted_cgpa out) (PyFloat.centi 400) = true.
Proof.
  intros H.
  destruct (validate student) eqn:Hvalid;
    [| cbv beta iota delta [serve] in H; rewrite Hvalid in H; discriminate].
  split; [reflexivity |].
  rewrite (serve_predict _ _ _ Hvalid) in H.
  destruct (raw_score_runs (globals w) student) as (o & l & Hrun & _).
  rewrite (respond_predict exc_str _ _ _ _ Hrun) in H.
  destruct o as [score | [code d | e]]; inversion H; subst.
  rewrite postprocess_fields. cbn [predicted_cgpa].
  split; [apply clamp_round2_grid | apply clamp_bounds].
Qed.

(** C3 on the sample request, whose response carries 3.5. *)
Lemma predicted_cgpa_two_decimals_in_range_witness :
  let out := {| predicted_cgpa := PyFloat.centi 350;
                cgpa_range := "Excellent (3.50 - 4.00)";
                message := "Student is performing excellently! Keep up the great work." |} in
  validate sample_student = true
  /\ (exists k, 0 <= k <= 400 /\ predicted_cgpa out = PyFloat.centi k)
  /\ PyFloat.le (PyFloat.centi 0) (predicted_cgpa out) = true
  /\ PyFloat.le (predicted_cgpa out) (PyFloat.centi 400) = true.
Proof.
  apply (predicted_cgpa_two_decimals_in_range show_error sample_student
           sample_world _
           (snd (serve show_error (POST_predict sample_student) sample_world))).
  apply pair_of_fst. vm_compute. reflexivity.
Defined.

(** ** Schema validation *)

Lemma Literal_In (allowed : list string) (v : string) :
  Literal allowed v = true <-> In v allowed.
Proof.
  unfold Literal. rewrite existsb_exists. split.
  - intros (x & Hx & E). apply String.eqb_eq in E. now subst.
  - intros H. exists v. split; [exact H | apply String.eqb_refl].
Qed.

Lemma Field_int_spec (lo hi v : Z) :
  Field_int lo hi v = true <-> lo <= v <= hi.
Proof. unfold Field_int. rewrite andb_true_iff, !Z.leb_le. tauto. Qed.

Lemma Field_str_spec (lo hi : nat) (v : string) :
  Field_str lo hi v = true
  <-> (lo <= py_len v <= hi)%nat.
Proof. unfold Field_str. rewrite andb_true_iff, !Nat.leb_le. tauto. Qed.

(** On text that is all ASCII the two lengths agree; in general a
    character takes between one and four bytes. *)
Lemma py_len_ascii (s : string) :
  (forall c, has_char c s = true -> (N_of_ascii c < 128)%N) ->
  py_len s = String.length s.
Proof.
  induction s as [| c s IH]; intros H; [reflexivity |].
  cbn [py_len String.length].
  assert (Hc : (N_of_ascii c < 128)%N).
  { apply H. cbn [has_char]. now rewrite Ascii.eqb_refl. }
  assert (E : is_continuation_byte c = false).
  { destruct c as [b0 b1 b2 b3 b4 b5 b6 b7].
    destruct b7; [| reflexivity].
    exfalso. revert Hc.
    destruct b0, b1, b2, b3, b4, b5, b6; vm_compute; congruence. }
  rewrite E. f_equal. apply IH.
  intros c' Hc'. apply H. cbn [has_char]. rewrite Hc'. apply orb_true_r.
Qed.

Lemma py_len_le (s : string) : (py_len s <= String.length s)%nat.
Proof.
  induction s as [| c s IH]; [apply le_n |].
  cbn [py_len String.length].
  destruct (is_continuation_byte c); lia.
Qed.

Lemma validate_checks (s : StudentInput) :
  validate s = forallb snd (StudentInput_checks s).
Proof.
  unfold validate, validation_errors, StudentInput_checks.
  cbn [filter map forallb snd fst].
  destruct (Field_int 18 30 (age s)); [| reflexivity].
  destruct (Literal ["Male"; "Female"] (gender s)); [| reflexivity].
  destruct (Field_str 2 100 (course s)); [| reflexivity].
  destruct (Literal ["year 1"; "year 2"; "year 3"; "year 4"] (year s));
    [| reflexivity].
  destruct (Literal ["Yes"; "No"] (marital_status s)); [| reflexivity].
  destruct (Literal ["Yes"; "No"] (depression s)); [| reflexivity].
  destruct (Literal ["Yes"; "No"] (anxiety s)); [| reflexivity].
  destruct (Literal ["Yes"; "No"] (panic_attack s)); [| reflexivity].
  destruct (Literal ["Yes"; "No"] (treatment s)); reflexivity.
Qed.

(** C5. Schema validation accepts a [StudentInput] exactly when the age is
    between 18 and 30, the course has between 2 and 100 characters (code
    points, as [len] counts them, not bytes) and each enum field is one of
    its declared literals; a rejected input is answered with 422 without
    entering the route function, so no encoder is reached.  Ages 17 and 31
    and courses of 1 and 101 characters are rejected; ages 18 and 30 and
    courses of 2 and 100 characters are accepted, for ASCII letters and for
    characters of three bytes alike: a course of 100 such characters, 300
    bytes long, is accepted, and a single one, three bytes long, is
    rejected. *)
Theorem StudentInput_accepts_exactly exc_str (s : StudentInput) :
  (validate s = true <->
     18 <= age s <= 30
     /\ (2 <= py_len (course s) <= 100)%nat
     /\ In (gender s) ["Male"; "Female"]
     /\ In (year s) ["year 1"; "year 2"; "year 3"; "year 4"]
     /\ In (marital_status s) ["Yes"; "No"]
     /\ In (depression s) ["Yes"; "No"]
     /\ In (anxiety s) ["Yes"; "No"]
     /\ In (panic_attack s) ["Yes"; "No"]
     /\ In (treatment s) ["Yes"; "No"])
  /\ (validate s = false ->
      forall w,
        serve exc_str (POST_predict s) w
        = ({| status := 422; body := ValidationBody (validation_errors s) |},
           w))
  /\ validate (with_age sample_student 17) = false
  /\ validate (with_age sample_student 18) = true
  /\ validate (with_age sample_student 30) = true
  /\ validate (with_age sample_student 31) = false
  /\ validate (with_course sample_student (letters 1)) = false
  /\ validate (with_course sample_student (letters 2)) = true
  /\ validate (with_course sample_student (letters 100)) = true
  /\ validate (with_course sample_student (letters 101)) = false
  /\ validate (with_course sample_student (wide_letters 1)) = false
  /\ validate (with_course sample_student (wide_letters 2)) = true
  /\ validate (with_course sample_student (wide_letters 100)) = true
  /\ validate (with_course sample_student (wide_letters 101)) = false
  /\ String.length (wide_letters 1) = 3%nat
  /\ String.length (wide_letters 100) = 300%nat.
Proof.
  split; [| split; [| repeat split; vm_compute; reflexivity]].
  - rewrite validate_checks. unfold StudentInput_checks.
    cbn [forallb snd]. rewrite andb_true_r, !andb_true_iff.
    rewrite Field_int_spec, Field_str_spec, !Literal_In. tauto.
  - intros H w. cbv beta iota delta [serve]. now rewrite H.
Qed.

(** ** Process start and the health route *)

Lemma startup_loaded fs p :
  startup fs = inr p ->
  best_model_pkl fs = inr (model p)
  /\ scaler_pkl fs = inr (scaler p)
  /\ label_encoders_pkl fs = inr (label_encoders p)
  /\ feature_names_pkl fs = inr (feature_names p).
Proof.
  unfold startup.
  destruct (best_model_pkl fs); [discriminate |].
  destruct (scaler_pkl fs); [discriminate |].
  destruct (label_encoders_pkl fs); [discriminate |].
  destruct (feature_names_pkl fs); [discriminate |].
  intros H. inversion H. simpl. auto.
Qed.

(** The globals of a serving process are the objects loaded at start. *)
Lemma serving_globals exc_str fs w :
  serving exc_str fs w -> startup fs = inr (globals w).
Proof.
  induction 1 as [p Hp | w r _ IH]; [exact Hp |].
  now rewrite serve_globals.
Qed.

Lemma serve_health exc_str w :
  serve exc_str GET_health w
  = ({| status := 200;
        body := JsonBody
          [ ("status", JStr "healthy");
            ("model_loaded", JBool (is_not_None (model (globals w))));
            ("scaler_loaded", JBool (is_not_None (scaler (globals w))));
            ("encoders_loaded",
             JBool (is_not_None (label_encoders (globals w)))) ] |}, w).
Proof.
  cbv beta iota delta [serve].
  rewrite (runs_on_respond _ _ _ _ _ w (health_check_runs (globals w)) eq_refl).
  now rewrite world_eta.
Qed.

(** C6 (as amended). In a serving process GET /health returns status
    "healthy" and three booleans, [model_loaded], [scaler_loaded] and
    [encoders_loaded], each true exactly when the object loaded at start
    for that artifact is not [None]; the feature-names artifact is not
    reported. *)
Theorem health_reports_three_artifacts exc_str fs w :
  serving exc_str fs w ->
  exists m s l,
    best_model_pkl fs = inr m
    /\ scaler_pkl fs = inr s
    /\ label_encoders_pkl fs = inr l
    /\ serve exc_str GET_health w
       = ({| status := 200;
             body := JsonBody
               [ ("status", JStr "healthy");
                 ("model_loaded", JBool (is_not_None m));
                 ("scaler_loaded", JBool (is_not_None s));
                 ("encoders_loaded", JBool (is_not_None l)) ] |}, w).
Proof.
  intros Hw. apply serving_globals, startup_loaded in Hw.
  destruct Hw as (Hm & Hs & Hl & _).
  exists (model (globals w)), (scaler (globals w)),
    (label_encoders (globals w)).
  split; [exact Hm |]. split; [exact Hs |]. split; [exact Hl |].
  apply serve_health.
Qed.

(** C6 (as amended) on the process started from the sample files. *)
Lemma health_reports_three_artifacts_witness :
  exists m s l,
    best_model_pkl sample_files = inr m
    /\ scaler_pkl sample_files = inr s
    /\ label_encoders_pkl sample_files = inr l
    /\ serve show_error GET_health sample_world
       = ({| status := 200;
             body := JsonBody
               [ ("status", JStr "healthy");
                 ("model_loaded", JBool (is_not_None m));
                 ("scaler_loaded", JBool (is_not_None s));
                 ("encoders_loaded", JBool (is_not_None l)) ] |},
          sample_world).
Proof.
  apply (health_reports_three_artifacts show_error sample_files sample_world).
  apply serving_start. reflexivity.
Defined.

(** C6, the claim as stated fails: a process started from files whose
    feature-name file holds [None] and one started from files where it
    holds the list of names are both serving and answer GET /health with the
    same body, whose only members are the status and three booleans. *)
Lemma health_omits_feature_names :
  let p := {| model := Some sample_model; scaler := Some sample_scaler;
              label_encoders := Some sample_encoders;
              feature_names := None |} in
  let w := {| globals := p; calls := [] |} in
  serving show_error sample_files sample_world
  /\ serving show_error files_features_None w
  /\ is_not_None (feature_names (globals sample_world)) = true
  /\ is_not_None (feature_names (globals w)) = false
  /\ fst (serve show_error GET_health sample_world)
     = fst (serve show_error GET_health w)
  /\ map fst (body_fields (body (fst (serve show_error GET_health w))))
     = ["status"; "model_loaded"; "scaler_loaded"; "encoders_loaded"].
Proof.
  repeat split.
  - apply serving_start. reflexivity.
  - apply serving_start. reflexivity.
Qed.

(** C9 (as amended). Whenever the process is serving, none of the four
    loads raised, the globals are the loaded objects, and GET /health
    reports a boolean as false exactly when the file of that artifact held
    [None]; when none of the three reported artifacts is [None], every
    boolean is true. *)
Theorem serving_health_booleans exc_str fs w :
  serving exc_str fs w ->
  let fields := body_fields (body (fst (serve exc_str GET_health w))) in
  startup fs = inr (globals w)
  /\ (forall e, best_model_pkl fs <> inl e)
  /\ (forall e, scaler_pkl fs <> inl e)
  /\ (forall e, label_encoders_pkl fs <> inl e)
  /\ (forall e, feature_names_pkl fs <> inl e)
  /\ (bool_field "model_loaded" fields = Some false
      <-> best_model_pkl fs = inr None)
  /\ (bool_field "scaler_loaded" fields = Some false
      <-> scaler_pkl fs = inr None)
  /\ (bool_field "encoders_loaded" fields = Some false
      <-> label_encoders_pkl fs = inr None)
  /\ (best_model_pkl fs <> inr None ->
      scaler_pkl fs <> inr None ->
      label_encoders_pkl fs <> inr None ->
      bool_field "model_loaded" fields = Some true
      /\ bool_field "scaler_loaded" fields = Some true
      /\ bool_field "encoders_loaded" fields = Some true).
Proof.
  intros Hw fields. pose proof (serving_globals _ _ _ Hw) as Hstart.
  destruct (startup_loaded _ _ Hstart) as (Hm & Hs & Hl & Hf).
  subst fields. rewrite serve_health. cbn [fst body body_fields].
  unfold bool_field. cbn [lookup String.eqb Ascii.eqb Bool.eqb].
  rewrite Hm, Hs, Hl, Hf.
  split; [exact Hstart |].
  repeat split; try discriminate.
  - destruct (model (globals w)); [discriminate | reflexivity].
  - intros H. inversion H as [H']. now rewrite H'.
  - destruct (scaler (globals w)); [discriminate | reflexivity].
  - intros H. inversion H as [H']. now rewrite H'.
  - destruct (label_encoders (globals w)); [discriminate | reflexivity].
  - intros H. inversion H as [H']. now rewrite H'.
  - destruct (model (globals w)); [reflexivity | congruence].
  - destruct (scaler (globals w)); [reflexivity | congruence].
  - destruct (label_encoders (globals w)); [reflexivity | congruence].
Qed.

(** C9 (as amended) on the process started from the sample files. *)
Lemma serving_health_booleans_witness :
  let fields :=
    body_fields (body (fst (serve show_error GET_health sample_world))) in
  startup sample_files = inr (globals sample_world)
  /\ (forall e, best_model_pkl sample_files <> inl e)
  /\ (forall e, scaler_pkl sample_files <> inl e)
  /\ (forall e, label_encoders_pkl sample_files <> inl e)
  /\ (forall e, feature_names_pkl sample_files <> inl e)
  /\ (bool_field "model_loaded" fields = Some false
      <-> best_model_pkl sample_files = inr None)
  /\ (bool_field "scaler_loaded" fields = Some false
      <-> scaler_pkl sample_files = inr None)
  /\ (bool_field "encoders_loaded" fields = Some false
      <-> label_encoders_pkl sample_files = inr None)
  /\ (best_model_pkl sample_files <> inr None ->
      scaler_pkl sample_files <> inr None ->
      label_encoders_pkl sample_files <> inr None ->
      bool_field "model_loaded" fields = Some true
      /\ bool_field "scaler_loaded" fields = Some true
      /\ bool_field "encoders_loaded" fields = Some true).
Proof.
  apply (serving_health_booleans show_error sample_files sample_world).
  apply serving_start. reflexivity.
Defined.

(** C9, the claim as stated fails: when the model file holds a pickled
    [None] every load returns, the process serves, and GET /health answers
    with [model_loaded] false. *)
Lemma serving_with_a_false_boolean :
  let p := {| model := None; scaler := Some sample_scaler;
              label_encoders := Some sample_encoders;
              feature_names := Some sample_feature_names |} in
  let w := {| globals := p; calls := [] |} in
  startup files_model_None = inr p
  /\ serving show_error files_model_None w
  /\ fst (serve show_error GET_health w)
     = {| status := 200;
          body := JsonBody
            [ ("status", JStr "healthy");
              ("model_loaded", JBool false);
              ("scaler_loaded", JBool true);
              ("encoders_loaded", JBool true) ] |}
  /\ bool_field "model_loaded"
       (body_fields (body (fst (serve show_error GET_health w))))
     = Some false.
Proof.
  split; [reflexivity |]. split; [apply serving_start; reflexivity |].
  split; reflexivity.
Qed.

(** With artifacts whose methods are functions of their argument, the
    same input submitted twice gets the same response, whatever requests
    are answered in between, and no request changes the globals. *)
Lemma predict_twice_same_response exc_str student between w :
  let (r1, w1) := serve exc_str (POST_predict student) w in
  let (r2, w2) :=
    serve exc_str (POST_predict student) (serve_all exc_str between w1) in
  r1 = r2 /\ globals w1 = globals w /\ globals w2 = globals w.
Proof.
  destruct (serve exc_str (POST_predict student) w) as [r1 w1] eqn:E1.
  destruct (serve exc_str (POST_predict student)
              (serve_all exc_str between w1)) as [r2 w2] eqn:E2.
  assert (H1 : globals w1 = globals w).
  { change w1 with (snd (r1, w1)). rewrite <- E1. apply serve_globals. }
  assert (H2 : globals w2 = globals w).
  { change w2 with (snd (r2, w2)). rewrite <- E2.
    now rewrite serve_globals, serve_all_globals. }
  split; [| auto].
  change r1 with (fst (r1, w1)). change r2 with (fst (r2, w2)).
  rewrite <- E1, <- E2. apply serve_response.
  now rewrite serve_all_globals.
Qed.

(* ===================================================================== *)
(** * Requests over artifacts that hold state *)
(* ===================================================================== *)

Module StatefulFacts.
Import Stateful.

Section Frame.

Variable Heap : Type.
Variable p : Process Heap.

Lemma leaves_ret {A} (a : A) : leaves p (ret a).
Proof. intros w _. reflexivity. Qed.

Lemma leaves_raise {A} (e : exn) : leaves p (@raise Heap A e).
Proof. intros w _. reflexivity. Qed.

Lemma leaves_lift {A} (r : lib A) : leaves p (lift r).
Proof. destruct r; [apply leaves_raise | apply leaves_ret]. Qed.

Lemma leaves_bind {A B} (c : M Heap A) (k : A -> M Heap B) :
  leaves p c -> (forall a, leaves p (k a)) -> leaves p (bind c k).
Proof.
  intros Hc Hk w Hw. unfold bind. specialize (Hc w Hw).
  destruct (c w) as [[a | e] w']; cbn [snd] in Hc; subst w'.
  - apply Hk. exact Hw.
  - reflexivity.
Qed.

Lemma leaves_read_bind {A B} (f : Process Heap -> A) (k : A -> M Heap B) :
  leaves p (k (f p)) -> leaves p (bind (read f) k).
Proof.
  intros Hk w Hw. unfold bind, read. rewrite Hw. apply Hk. exact Hw.
Qed.

Lemma leaves_lift_bind {A B} (r : lib A) (k : A -> M Heap B) :
  (forall a, r = inr a -> leaves p (k a)) -> leaves p (bind (lift r) k).
Proof.
  intros Hk w Hw. destruct r as [e | a]; [reflexivity |].
  unfold bind, lift, ret. apply Hk; [reflexivity | exact Hw].
Qed.

Lemma leaves_try_except {A} (c : M Heap A) catches (h : exn -> M Heap A) :
  leaves p c -> (forall e, leaves p (h e)) -> leaves p (try_except c catches h).
Proof.
  intros Hc Hh w Hw. unfold try_except. specialize (Hc w Hw).
  destruct (c w) as [[a | e] w']; cbn [snd] in Hc; subst w'.
  - reflexivity.
  - destruct (catches e); [apply Hh; exact Hw | reflexivity].
Qed.

Lemma leaves_call {A B} (f : method Heap A B) (a : A) :
  keeps_state f -> leaves p (call f a).
Proof.
  intros Hf w _. unfold call. specialize (Hf a (heap w)).
  destruct (f a (heap w)) as [r h]. cbn [snd] in *. subst h.
  destruct w; reflexivity.
Qed.

Hypothesis Hp : read_only p.

Lemma leaves_encode_value data col : leaves p (encode_value data col).
Proof.
  unfold encode_value. apply leaves_read_bind.
  destruct (label_encoders p) as [d |] eqn:Hd; [| apply leaves_raise].
  apply leaves_lift_bind. intros enc Henc.
  apply leaves_lift_bind. intros v _.
  apply leaves_call.
  destruct Hp as (_ & _ & Hencs). apply (Hencs d col enc Hd).
  unfold dict_getitem in Henc. destruct (lookup col d); congruence.
Qed.

Lemma leaves_unseen_category data col : leaves p (unseen_category data col).
Proof.
  unfold unseen_category. apply leaves_lift_bind. intros v _.
  apply leaves_raise.
Qed.

Lemma leaves_encode_columns data keys :
  forall df, leaves p (encode_columns data keys df).
Proof.
  induction keys as [| col keys IH]; intros df; cbn [encode_columns].
  - apply leaves_ret.
  - destruct (in_columns col df); [| apply IH].
    apply leaves_bind; [| intros code; apply IH].
    apply leaves_try_except; [apply leaves_encode_value |].
    intros _. apply leaves_unseen_category.
Qed.

Lemma leaves_score_of_frame df : leaves p (score_of_frame df).
Proof.
  unfold score_of_frame.
  apply leaves_bind.
  { unfold reorder_columns. apply leaves_read_bind.
    destruct (feature_names p); [apply leaves_lift | apply leaves_raise]. }
  intros df2. apply leaves_bind.
  { unfold scale. apply leaves_read_bind.
    destruct (scaler p) as [s |] eqn:Hs; [| apply leaves_raise].
    apply leaves_call. destruct Hp as (_ & Hsc & _). apply Hsc. exact Hs. }
  intros x. apply leaves_bind.
  { unfold predict. apply leaves_read_bind.
    destruct (model p) as [m |] eqn:Hm; [| apply leaves_raise].
    apply leaves_call. destruct Hp as (Hmd & _). apply Hmd. exact Hm. }
  intros prediction. apply leaves_lift.
Qed.

Lemma leaves_raw_score student : leaves p (raw_score student).
Proof.
  unfold raw_score. apply leaves_bind.
  { unfold label_encoders_keys. apply leaves_read_bind.
    destruct (label_encoders p); [apply leaves_ret | apply leaves_raise]. }
  intros keys. apply leaves_bind; [apply leaves_encode_columns |].
  intros df. apply leaves_score_of_frame.
Qed.

Lemma leaves_predict_cgpa exc_str student :
  leaves p (predict_cgpa exc_str student).
Proof.
  unfold predict_cgpa. apply leaves_try_except.
  - unfold predict_body. apply leaves_bind; [apply leaves_raw_score |].
    intros score. apply leaves_ret.
  - intros [code d | e]; apply leaves_raise.
Qed.

Lemma leaves_respond {A} (to_body : A -> Body) (c : M Heap A) w :
  leaves p c -> globals w = p -> snd (respond to_body c w) = w.
Proof.
  intros Hc Hw. unfold respond. specialize (Hc w Hw).
  destruct (c w) as [out w']. exact Hc.
Qed.

Lemma serve_leaves exc_str r w :
  globals w = p -> snd (serve exc_str r w) = w.
Proof.
  intros Hw. destruct r as [| | student]; cbn [serve].
  - reflexivity.
  - reflexivity.
  - destruct (validate student); [| reflexivity].
    apply leaves_respond; [apply leaves_predict_cgpa | exact Hw].
Qed.

Lemma serve_all_leaves exc_str rs w :
  globals w = p -> serve_all exc_str rs w = w.
Proof.
  intros Hw. induction rs as [| r rs IH]; cbn [serve_all]; [reflexivity |].
  rewrite (serve_leaves exc_str r w Hw). exact IH.
Qed.

End Frame.

(** Whatever the artifacts do, no request rebinds a global. *)
Section Globals.

Variable Heap : Type.

Lemma frames_ret {A} (a : A) : frames (@ret Heap A a).
Proof. intros w. reflexivity. Qed.

Lemma frames_raise {A} (e : exn) : frames (@raise Heap A e).
Proof. intros w. reflexivity. Qed.

Lemma frames_read {A} (f : Process Heap -> A) : frames (read f).
Proof. intros w. reflexivity. Qed.

Lemma frames_lift {A} (r : lib A) : frames (@lift Heap A r).
Proof. destruct r; [apply frames_raise | apply frames_ret]. Qed.

Lemma frames_call {A B} (f : method Heap A B) (a : A) : frames (call f a).
Proof. intros w. unfold call. destruct (f a (heap w)). reflexivity. Qed.

Lemma frames_bind {A B} (c : M Heap A) (k : A -> M Heap B) :
  frames c -> (forall a, frames (k a)) -> frames (bind c k).
Proof.
  intros Hc Hk w. unfold bind. specialize (Hc w).
  destruct (c w) as [[a | e] w']; cbn [snd] in Hc.
  - rewrite Hk. exact Hc.
  - exact Hc.
Qed.

Lemma frames_try_except {A} (c : M Heap A) catches (h : exn -> M Heap A) :
  frames c -> (forall e, frames (h e)) -> frames (try_except c catches h).
Proof.
  intros Hc Hh w. unfold try_except. specialize (Hc w).
  destruct (c w) as [[a | e] w']; cbn [snd] in Hc.
  - exact Hc.
  - destruct (catches e); [rewrite Hh |]; exact Hc.
Qed.

Lemma frames_encode_columns data keys :
  forall df, frames (@encode_columns Heap data keys df).
Proof.
  induction keys as [| col keys IH]; intros df; cbn [encode_columns].
  - apply frames_ret.
  - destruct (in_columns col df); [| apply IH].
    apply frames_bind; [| intros code; apply IH].
    apply frames_try_except.
    + unfold encode_value. apply frames_bind; [apply frames_read |].
      intros [d |]; [| apply frames_raise].
      apply frames_bind; [apply frames_lift |]. intros enc.
      apply frames_bind; [apply frames_lift |]. intros v.
      apply frames_call.
    + intros _. unfold unseen_category.
      apply frames_bind; [apply frames_lift |]. intros v.
      apply frames_raise.
Qed.

Lemma frames_raw_score student : frames (@raw_score Heap student).
Proof.
  unfold raw_score. apply frames_bind.
  { unfold label_encoders_keys. apply frames_bind; [apply frames_read |].
    intros [d |]; [apply frames_ret | apply frames_raise]. }
  intros keys. apply frames_bind; [apply frames_encode_columns |].
  intros df. unfold score_of_frame. apply frames_bind.
  { unfold reorder_columns. apply frames_bind; [apply frames_read |].
    intros [l |]; [apply frames_lift | apply frames_raise]. }
  intros df2. apply frames_bind.
  { unfold scale. apply frames_bind; [apply frames_read |].
    intros [s |]; [apply frames_call | apply frames_raise]. }
  intros x. apply frames_bind.
  { unfold predict. apply frames_bind; [apply frames_read |].
    intros [m |]; [apply frames_call | apply frames_raise]. }
  intros prediction. apply frames_lift.
Qed.

Lemma serve_keeps_globals exc_str r (w : World Heap) :
  globals (snd (serve exc_str r w)) = globals w.
Proof.
  destruct r as [| | student]; cbn [serve]; try reflexivity.
  destruct (validate student); [| reflexivity].
  unfold respond.
  assert (H : frames (@predict_cgpa Heap exc_str student)).
  { unfold predict_cgpa. apply frames_try_except.
    - unfold predict_body. apply frames_bind; [apply frames_raw_score |].
      intros score. apply frames_ret.
    - intros [code d | e]; apply frames_raise. }
  specialize (H w). destruct (predict_cgpa exc_str student w). exact H.
Qed.

End Globals.

End StatefulFacts.

(** ** Artifacts without state *)

(** The first embedding is the second one on objects that keep no state:
    the two handlers give the same outcome, and the state behind the
    objects is left as it was. *)
Module StatelessFacts.

Section Agreement.

Variable Heap : Type.
Variable p : Process.

Lemma lookup_stateless col (d : list (string * LabelEncoder)) :
  lookup col (map (fun ce => (fst ce, stateless_encoder Heap (snd ce))) d)
  = option_map (stateless_encoder Heap) (lookup col d).
Proof.
  induction d as [| [k enc] d IH]; [reflexivity |].
  cbn [map lookup fst snd].
  destruct (String.eqb col k); [reflexivity | exact IH].
Qed.

Lemma stateless_read_only : Stateful.read_only (stateless Heap p).
Proof.
  unfold Stateful.read_only, stateless. cbn.
  split; [| split].
  - intros m Hm a h. destruct (model p); inversion Hm. reflexivity.
  - intros s Hs a h. destruct (scaler p); inversion Hs. reflexivity.
  - intros encs col enc Hencs Hl a h.
    destruct (label_encoders p) as [d |]; inversion Hencs; subst encs.
    rewrite lookup_stateless in Hl.
    destruct (lookup col d); inversion Hl. reflexivity.
Qed.

Lemma agree_bind {A B} (c : M A) (cs : Stateful.M Heap A)
  (k : A -> M B) (ks : A -> Stateful.M Heap B) :
  agrees Heap p c cs -> (forall a, agrees Heap p (k a) (ks a)) ->
  agrees Heap p (bind c k) (Stateful.bind cs ks).
Proof.
  intros Hc Hk w h Hw. destruct (Hc w h Hw) as (out & w' & E & Hw' & Es).
  unfold bind, Stateful.bind. rewrite Es, E.
  destruct out as [a | e].
  - apply Hk. exact Hw'.
  - exists (Raise e), w'. auto.
Qed.

Lemma agree_ret {A} (a : A) : agrees Heap p (ret a) (Stateful.ret a).
Proof. intros w h Hw. eexists. exists w. split; [reflexivity |]. auto. Qed.

Lemma agree_raise {A} (e : exn) : agrees Heap p (@raise A e) (Stateful.raise e).
Proof. intros w h Hw. eexists. exists w. split; [reflexivity |]. auto. Qed.

Lemma agree_lift {A} (r : lib A) : agrees Heap p (lift r) (Stateful.lift r).
Proof. destruct r; [apply agree_raise | apply agree_ret]. Qed.

Lemma agree_try_except {A} (c : M A) (cs : Stateful.M Heap A) catches
  (h : exn -> M A) (hs : exn -> Stateful.M Heap A) :
  agrees Heap p c cs -> (forall e, agrees Heap p (h e) (hs e)) ->
  agrees Heap p (try_except c catches h) (Stateful.try_except cs catches hs).
Proof.
  intros Hc Hh w hp Hw. destruct (Hc w hp Hw) as (out & w' & E & Hw' & Es).
  unfold try_except, Stateful.try_except. rewrite Es, E.
  destruct out as [a | e].
  - exists (Return a), w'. auto.
  - destruct (catches e).
    + apply Hh. exact Hw'.
    + exists (Raise e), w'. auto.
Qed.

Lemma agree_encode_value data col :
  agrees Heap p (encode_value data col) (Stateful.encode_value data col).
Proof.
  intros [g l] h Hw. cbn [globals] in Hw. subst g.
  unfold encode_value, Stateful.encode_value, bind, Stateful.bind, read,
    Stateful.read, dict_getitem.
  cbn [globals Stateful.globals stateless Stateful.label_encoders].
  destruct (label_encoders p) as [d |]; cbn [option_map].
  - rewrite lookup_stateless.
    destruct (lookup col d) as [enc |]; cbn [option_map lift Stateful.lift].
    + destruct (lookup col data) as [v |]; cbn [lift Stateful.lift].
      * unfold ret, Stateful.ret, record, Stateful.call.
        cbn [stateless_encoder Stateful.LabelEncoder_transform pure_method
             Stateful.heap Stateful.globals globals calls].
        destruct (LabelEncoder_transform enc (py_str v)) as [e | code];
          cbn [lift]; do 2 eexists; (split; [reflexivity |]); auto.
      * do 2 eexists. split; [reflexivity |]. auto.
    + do 2 eexists. split; [reflexivity |]. auto.
  - do 2 eexists. split; [reflexivity |]. auto.
Qed.

Lemma agree_unseen_category data col :
  agrees Heap p (unseen_category data col) (Stateful.unseen_category data col).
Proof.
  unfold unseen_category, Stateful.unseen_category.
  apply agree_bind; [apply agree_lift | intros v; apply agree_raise].
Qed.

Lemma agree_encode_columns data keys :
  forall df,
    agrees Heap p (encode_columns data keys df)
      (Stateful.encode_columns data keys df).
Proof.
  induction keys as [| col keys IH]; intros df;
    cbn [encode_columns Stateful.encode_columns].
  - apply agree_ret.
  - destruct (in_columns col df); [| apply IH].
    apply agree_bind; [| intros code; apply IH].
    apply agree_try_except; [apply agree_encode_value |].
    intros _. apply agree_unseen_category.
Qed.

Lemma agree_reorder_columns df :
  agrees Heap p (reorder_columns df) (Stateful.reorder_columns df).
Proof.
  intros [g l] h Hw. cbn [globals] in Hw. subst g.
  unfold reorder_columns, Stateful.reorder_columns, bind, Stateful.bind,
    read, Stateful.read.
  cbn [globals Stateful.globals stateless Stateful.feature_names].
  destruct (feature_names p) as [names |].
  - destruct (df_select df names); cbn [lift]; do 2 eexists;
      (split; [reflexivity |]); auto.
  - do 2 eexists. split; [reflexivity |]. auto.
Qed.

Lemma agree_scale df : agrees Heap p (scale df) (Stateful.scale df).
Proof.
  intros [g l] h Hw. cbn [globals] in Hw. subst g.
  unfold scale, Stateful.scale, bind, Stateful.bind, read, Stateful.read.
  cbn [globals Stateful.globals stateless Stateful.scaler].
  destruct (scaler p) as [s |]; cbn [option_map].
  - unfold record, Stateful.call.
    cbn [stateless_scaler Stateful.Scaler_transform pure_method
         Stateful.heap Stateful.globals globals calls].
    destruct (Scaler_transform s df); cbn [lift fst];
      cbn [lift]; do 2 eexists; (split; [reflexivity |]); auto.
  - do 2 eexists. split; [reflexivity |]. auto.
Qed.

Lemma agree_predict x : agrees Heap p (predict x) (Stateful.predict x).
Proof.
  intros [g l] h Hw. cbn [globals] in Hw. subst g.
  unfold predict, Stateful.predict, bind, Stateful.bind, read, Stateful.read.
  cbn [globals Stateful.globals stateless Stateful.model].
  destruct (model p) as [m |]; cbn [option_map].
  - unfold record, Stateful.call.
    cbn [stateless_model Stateful.Model_predict pure_method
         Stateful.heap Stateful.globals globals calls].
    destruct (Model_predict m x); cbn [lift fst];
      cbn [lift]; do 2 eexists; (split; [reflexivity |]); auto.
  - do 2 eexists. split; [reflexivity |]. auto.
Qed.

Lemma agree_label_encoders_keys :
  agrees Heap p label_encoders_keys Stateful.label_encoders_keys.
Proof.
  intros [g l] h Hw. cbn [globals] in Hw. subst g.
  unfold label_encoders_keys, Stateful.label_encoders_keys, bind,
    Stateful.bind, read, Stateful.read.
  cbn [globals Stateful.globals stateless Stateful.label_encoders].
  destruct (label_encoders p) as [d |]; cbn [option_map].
  - rewrite map_map. cbn [fst]. do 2 eexists. split; [reflexivity |]. auto.
  - do 2 eexists. split; [reflexivity |]. auto.
Qed.

Lemma agree_raw_score student :
  agrees Heap p (raw_score student) (Stateful.raw_score student).
Proof.
  unfold raw_score, Stateful.raw_score.
  apply agree_bind; [apply agree_label_encoders_keys |]. intros keys.
  apply agree_bind; [apply agree_encode_columns |]. intros df.
  unfold score_of_frame, Stateful.score_of_frame.
  apply agree_bind; [apply agree_reorder_columns |]. intros df2.
  apply agree_bind; [apply agree_scale |]. intros x.
  apply agree_bind; [apply agree_predict |]. intros prediction.
  apply agree_lift.
Qed.

Lemma agree_predict_cgpa exc_str student :
  agrees Heap p (predict_cgpa exc_str student)
    (Stateful.predict_cgpa exc_str student).
Proof.
  unfold predict_cgpa, Stateful.predict_cgpa.
  apply agree_try_except.
  - unfold predict_body, Stateful.predict_body.
    apply agree_bind; [apply agree_raw_score |].
    intros score. apply agree_ret.
  - intros [code d | e]; apply agree_raise.
Qed.

(** The same response from both embeddings, request by request. *)
Lemma serve_stateless exc_str r w h :
  globals w = p ->
  Stateful.serve exc_str r
    {| Stateful.globals := stateless Heap p; Stateful.heap := h |}
  = (fst (serve exc_str r w),
     {| Stateful.globals := stateless Heap p; Stateful.heap := h |}).
Proof.
  intros Hw. destruct r as [| | student].
  - reflexivity.
  - destruct w as [g l]. cbn [globals] in Hw. subst g.
    cbv beta iota delta [serve Stateful.serve respond Stateful.respond
                          health_check Stateful.health_check bind
                          Stateful.bind read Stateful.read ret Stateful.ret].
    cbn [globals Stateful.globals stateless Stateful.model Stateful.scaler
         Stateful.label_encoders fst].
    destruct (model p), (scaler p), (label_encoders p); reflexivity.
  - cbv beta iota delta [serve Stateful.serve].
    destruct (validate student); [| reflexivity].
    destruct (agree_predict_cgpa exc_str student w h Hw)
      as (out & w' & E & _ & Es).
    unfold respond, Stateful.respond. rewrite Es, E. reflexivity.
Qed.

End Agreement.

End StatelessFacts.




(** ** Failures inside the pipeline *)

Lemma predict_body_run student w out l :
  runs_on (globals w) (raw_score student) out l ->
  predict_body student w
  = (match out with
     | Return score => Return (postprocess score)
     | Raise e => Raise e
     end, {| globals := globals w; calls := calls w ++ l |}).
Proof.
  intros Hrun. unfold predict_body, bind. rewrite (Hrun w eq_refl).
  destruct out; reflexivity.
Qed.

Lemma first_unseen_rejects p student :
  (exists encs c v,
     label_encoders p = Some encs
     /\ first_unseen encs (input_data student) (map fst encs) = Some (c, v))
  <-> encoder_rejects p student.
Proof.
  unfold encoder_rejects. split.
  - intros (encs & c & v & Hp & Hf). exists encs, c, v.
    split; [exact Hp |]. eapply first_unseen_sound; eauto.
  - intros (encs & col & v & Hp & Hu).
    assert (Hin : In col (map fst encs)).
    { destruct Hu as (enc & Henc & _). eapply lookup_In; eauto. }
    destruct (first_unseen_complete _ _ _ _ _ Hin Hu) as (c & v' & Hf).
    exists encs, c, v'. auto.
Qed.

(** C8 (as amended). Every run of the pipeline is a single pass: the
    scaler and the model are called at most once, an exception raised by
    either is the outcome, and a returned prediction is the post-processed
    first entry of what the model returned.  The run ends in a score, in
    the 400 of an unseen category, or in another exception; in the last
    case (column selection failing, the scaler or the model raising, a
    missing artifact) the caller gets a 500 whose detail is
    ["Prediction error: "] followed by the text of the exception.  A
    mismatch between the artifacts is covered in so far as it makes one of
    these steps raise. *)
Theorem internal_failure_gives_500 exc_str student w :
  exists out l,
    raw_score student w
    = (out, {| globals := globals w; calls := calls w ++ l |})
    /\ single_pass (globals w) out l
    /\ ((exists score, out = Return score)
        \/ (exists c v, out = Raise (HTTPException 400
                                      (invalid_value_detail c v))
                        /\ encoder_rejects (globals w) student)
        \/ (exists e, out = Raise (PyError e)))
    /\ (forall e, out = Raise (PyError e) ->
        respond PredictionBody (predict_cgpa exc_str student) w
        = ({| status := 500;
              body := DetailBody ("Prediction error: " ++ exc_str e) |},
           {| globals := globals w; calls := calls w ++ l |}))
    /\ (forall score, out = Return score ->
        respond PredictionBody (predict_cgpa exc_str student) w
        = ({| status := 200; body := PredictionBody (postprocess score) |},
           {| globals := globals w; calls := calls w ++ l |}))
    /\ (validate student = true ->
        serve exc_str (POST_predict student) w
        = respond PredictionBody (predict_cgpa exc_str student) w).
Proof.
  destruct (raw_score_runs (globals w) student)
    as (out & l & Hrun & Hpass & Hhttp & _).
  pose proof (respond_predict exc_str _ _ _ _ Hrun) as Hresp.
  exists out, l.
  split; [apply (Hrun w eq_refl) |]. split; [exact Hpass |].
  split; [| split; [| split]].
  - destruct out as [score | [code d | e]]; [left; eauto | | right; right; eauto].
    right; left.
    destruct (proj1 (Hhttp code d) eq_refl) as (encs & c & v & Hp & Hf & -> & ->).
    exists c, v. split; [reflexivity |].
    apply first_unseen_rejects. eauto.
  - intros e ->. exact Hresp.
  - intros score ->. exact Hresp.
  - apply serve_predict.
Qed.

(** C8, the claim as stated fails on two counts.  The message of the 500
    is not generic: two artifact mismatches, a scaler handed eight columns
    and a scaler handed unencoded strings, and a failing model give three
    different details, each carrying the text of the exception.  And not
    every mismatch is a failure: with the feature names in the opposite
    order the scaler is handed the nine columns in that order, a scaler
    that does not look at the labels lets them through, and the request
    is answered 200 with the same body as under the right order. *)
Lemma internal_failure_neither_generic_nor_certain :
  let narrow := {| globals := process_narrow; calls := [] |} in
  let unencoded := {| globals := process_unencoded; calls := [] |} in
  let failing := {| globals := process_model_fails; calls := [] |} in
  let reversed := {| globals := process_reversed; calls := [] |} in
  fst (serve show_error (POST_predict sample_student) narrow)
  = {| status := 500;
       body := DetailBody
         "Prediction error: X has a wrong number of features" |}
  /\ fst (serve show_error (POST_predict sample_student) unencoded)
     = {| status := 500;
          body := DetailBody
            "Prediction error: could not convert string to float" |}
  /\ fst (serve show_error (POST_predict sample_student) failing)
     = {| status := 500;
          body := DetailBody "Prediction error: Input contains NaN." |}
  /\ scaler_frames
       (calls (snd (serve show_error (POST_predict sample_student)
                      sample_world)))
     = [ [ "Choose your gender"; "Age"; "What is your course?";
           "Your current year of Study"; "Marital status";
           "Do you have Depression?"; "Do you have Anxiety?";
           "Do you have Panic attack?";
           "Did you seek any specialist for a treatment?" ] ]
  /\ scaler_frames
       (calls (snd (serve show_error (POST_predict sample_student)
                      reversed)))
     = [ [ "Did you seek any specialist for a treatment?";
           "Do you have Panic attack?"; "Do you have Anxiety?";
           "Do you have Depression?"; "Marital status";
           "Your current year of Study"; "What is your course?"; "Age";
           "Choose your gender" ] ]
  /\ fst (serve show_error (POST_predict sample_student) reversed)
     = {| status := 200;
          body := PredictionBody
            {| predicted_cgpa := PyFloat.centi 350;
               cgpa_range := "Excellent (3.50 - 4.00)";
               message :=
                 "Student is performing excellently! Keep up the great work." |} |}
  /\ fst (serve show_error (POST_predict sample_student) reversed)
     = fst (serve show_error (POST_predict sample_student) sample_world).
Proof. repeat split; vm_compute; reflexivity. Qed.


(* ===================================================================== *)
(** * Concrete runs *)
(* ===================================================================== *)

(** The scenario request on the sample artifacts. *)
Example sample_request_response :
  fst (serve show_error (POST_predict sample_student) sample_world)
  = {| status := 200;
       body := PredictionBody
         {| predicted_cgpa := PyFloat.centi 350;
            cgpa_range := "Excellent (3.50 - 4.00)";
            message :=
              "Student is performing excellently! Keep up the great work." |} |}.
Proof. vm_compute. reflexivity. Qed.

(** A gender outside the declared literals is stopped by the schema with
    422; the encoders are not reached, so it cannot produce the 400. *)
Example gender_outside_literals_is_422 :
  serve show_error (POST_predict (with_gender sample_student "Other"))
    sample_world
  = ({| status := 422; body := ValidationBody ["gender"] |}, sample_world).
Proof. reflexivity. Qed.

(** A file that cannot be loaded stops the start-up with its exception. *)
Example missing_scaler_file_fails_startup :
  startup files_scaler_missing
  = inl (OtherError "FileNotFoundError"
           "[Errno 2] No such file or directory: 'scaler.pkl'").
Proof. reflexivity. Qed.

(** The text of exceptions: [repr] quotes with single quotes unless the
    text has one (and no double quote), and the [KeyError] of a column
    selection shows the message of pandas between double quotes, with the
    labels between single ones. *)
Example exception_texts :
  py_repr "Age" = "'Age'"
  /\ py_repr "it's" = String double_quote ("it's" ++ String double_quote EmptyString)
  /\ py_repr "a\b" = "'a\\b'"
  /\ show_error (KeyError (KStr "Age")) = "'Age'"
  /\ show_error (KeyError (KList ["What is your CGPA?"; "Sex"]))
     = String double_quote
         ("['What is your CGPA?', 'Sex'] not in index"
          ++ String double_quote EmptyString)
  /\ show_error (KeyError (KNoneOf ["CGPA"]))
     = String double_quote
         ("None of [Index(['CGPA'], dtype='object')] are in the [columns]"
          ++ String double_quote EmptyString)
  /\ show_error (AttributeError "NoneType" "keys")
     = "'NoneType' object has no attribute 'keys'".
Proof. repeat split. Qed.

(** Column selection reports the distinct missing labels, or the whole
    request when no label is a column. *)
Example selection_errors :
  df_select [("a", PInt 1); ("b", PInt 2)] ["b"; "a"]
  = inr [("b", PInt 2); ("a", PInt 1)]
  /\ df_select [("a", PInt 1); ("b", PInt 2)] ["x"; "a"; "y"; "x"]
     = inl (KeyError (KList ["x"; "y"]))
  /\ df_select [("a", PInt 1); ("b", PInt 2)] ["x"; "y"; "x"]
     = inl (KeyError (KNoneOf ["x"; "y"; "x"])).
Proof. repeat split. Qed.

(** Scores outside the range, infinite or NaN: [min(4.0, nan)] keeps 4.0,
    so a NaN score is reported as 4.0. *)
Example extreme_scores :
  predicted_cgpa (postprocess S754_nan) = PyFloat.centi 400
  /\ predicted_cgpa (postprocess (S754_infinity false)) = PyFloat.centi 400
  /\ predicted_cgpa (postprocess (S754_infinity true)) = PyFloat.centi 0
  /\ predicted_cgpa (postprocess (PyFloat.nearest_double false 437 100))
     = PyFloat.centi 400
  /\ predicted_cgpa (postprocess (PyFloat.nearest_double true 1 1000))
     = PyFloat.centi 0.
Proof. repeat split; vm_compute; reflexivity. Qed.

(* ===================================================================== *)
(** * Further properties of the post-processor *)
(* ===================================================================== *)

Module Bands.
Import PyFloat PyFloatFacts PostProcessor.

(** A boolean property checked on each of the 401 grid values holds on the
    whole range. *)
Lemma grid_check (P : Z -> bool) :
  forallb (fun n => P (Z.of_nat n)) (seq 0 401) = true ->
  forall k, 0 <= k <= 400 -> P k = true.
Proof.
  intros H k Hk. rewrite forallb_forall in H.
  specialize (H (Z.to_nat k)). rewrite Z2Nat.id in H by lia.
  apply H. apply in_seq. lia.
Qed.

Lemma same_eq (x y : spec_float) : same x y = true -> x = y.
Proof.
  destruct x as [a | a | | a m e], y as [b | b | | b m' e'];
    simpl; try discriminate; try reflexivity.
  - intros H. apply Bool.eqb_prop in H. now subst.
  - intros H. apply Bool.eqb_prop in H. now subst.
  - rewrite !andb_true_iff. intros [[H1 H2] H3].
    apply Bool.eqb_prop in H1. apply Pos.eqb_eq in H2. apply Z.eqb_eq in H3.
    now subst.
Qed.

Lemma grid_band (k : Z) :
  0 <= k <= 400 -> fst (interpret_cgpa (centi k)) = band_of_hundredths k.
Proof.
  intros Hk. apply String.eqb_eq.
  apply (grid_check (fun k => String.eqb (fst (interpret_cgpa (centi k)))
                                (band_of_hundredths k))); [| exact Hk].
  vm_compute. reflexivity.
Qed.

Lemma grid_fixed (k : Z) :
  0 <= k <= 400 -> clamp (round2 (centi k)) = centi k.
Proof.
  intros Hk. apply same_eq.
  apply (grid_check (fun k => same (clamp (round2 (centi k))) (centi k)));
    [| exact Hk].
  vm_compute. reflexivity.
Qed.

Lemma grid_clamp (k : Z) : 0 <= k <= 400 -> clamp (centi k) = centi k.
Proof.
  intros Hk. apply same_eq.
  apply (grid_check (fun k => same (clamp (centi k)) (centi k))); [| exact Hk].
  vm_compute. reflexivity.
Qed.

Lemma interpret_cgpa_cases (s : spec_float) :
  interpret_cgpa s
  = ("Excellent (3.50 - 4.00)",
     "Student is performing excellently! Keep up the great work.")
  \/ interpret_cgpa s
     = ("Good (3.00 - 3.49)", "Student is performing well academically.")
  \/ interpret_cgpa s
     = ("Average (2.50 - 2.99)",
        "Student is performing at an average level. Some improvement possible.")
  \/ interpret_cgpa s
     = ("Below Average (2.00 - 2.49)",
        "Student may need academic support and intervention.")
  \/ interpret_cgpa s
     = ("Poor (0.00 - 1.99)",
        "Student requires immediate academic and mental health support.").
Proof.
  unfold interpret_cgpa.
  destruct (ge s (centi 350)); [now left |].
  destruct (ge s (centi 300)); [now right; left |].
  destruct (ge s (centi 250)); [now right; right; left |].
  destruct (ge s (centi 200)); [now right; right; right; left |].
  now right; right; right; right.
Qed.

End Bands.

Import Bands.

(** X1. The range label and the message of [interpret_cgpa] determine each
    other: two scores get the same label exactly when they get the same
    message. *)
Theorem interpret_cgpa_label_message_one_to_one (s t : spec_float) :
  fst (interpret_cgpa s) = fst (interpret_cgpa t)
  <-> snd (interpret_cgpa s) = snd (interpret_cgpa t).
Proof.
  destruct (interpret_cgpa_cases s) as [Hs | [Hs | [Hs | [Hs | Hs]]]];
    destruct (interpret_cgpa_cases t) as [Ht | [Ht | [Ht | [Ht | Ht]]]];
    rewrite Hs, Ht; cbn [fst snd];
    (split; intros H; first [reflexivity | discriminate H]).
Qed.

(** X2. The label of every prediction is the band whose printed bounds
    contain the returned number: the post-processed value is k/100 for an
    integer k from 0 to 400, and the label is Excellent for k >= 350, Good
    for 300..349, Average for 250..299, Below Average for 200..249 and Poor
    below 200. *)
Theorem label_bounds_contain_predicted_cgpa (score : spec_float) :
  exists k,
    0 <= k <= 400
    /\ predicted_cgpa (postprocess score) = PyFloat.centi k
    /\ cgpa_range (postprocess score) = band_of_hundredths k.
Proof.
  destruct (clamp_round2_grid score) as (k & Hk & E).
  exists k. rewrite postprocess_fields. cbn [predicted_cgpa cgpa_range].
  rewrite E. split; [exact Hk |]. split; [reflexivity |].
  apply grid_band. exact Hk.
Qed.

(** X3. Post-processing is idempotent: feeding a returned [predicted_cgpa]
    back through round, clamp and interpret gives the same output. *)
Theorem postprocess_idempotent (score : spec_float) :
  postprocess (predicted_cgpa (postprocess score)) = postprocess score.
Proof.
  rewrite !postprocess_fields. cbn [predicted_cgpa].
  destruct (clamp_round2_grid score) as (k & Hk & E).
  rewrite E, (grid_fixed k Hk). reflexivity.
Qed.

Module FloatOrder.
Import PyFloat PyFloatFacts PostProcessor.

(** The comparison [<=] of floats is transitive. *)
Lemma le_trans (a b c : spec_float) :
  le a b = true -> le b c = true -> le a c = true.
Proof.
  unfold le, SFleb, SFcompare.
  destruct a as [sa | sa | | sa ma ea], b as [sb | sb | | sb mb eb],
    c as [sc | sc | | sc mc ec];
    try destruct sa; try destruct sb; try destruct sc;
    try discriminate; try reflexivity.
  all: rewrite ?Pos.compare_cont_spec; simpl.
  all: destruct (Z.compare_spec ea eb); try discriminate;
       destruct (Z.compare_spec eb ec); try discriminate;
       destruct (Z.compare_spec ea ec); try reflexivity; try lia.
  all: subst.
  all: destruct (Pos.compare_spec ma mb); try discriminate;
       destruct (Pos.compare_spec mb mc); try discriminate;
       destruct (Pos.compare_spec ma mc); try reflexivity; try lia.
Qed.

(** A threshold reached by a score is reached by every larger score. *)
Lemma ge_mono (c s t : spec_float) :
  le s t = true -> ge s c = true -> ge t c = true.
Proof. unfold ge. intros Hst Hcs. exact (le_trans c s t Hcs Hst). Qed.

Lemma digits2_pos_bounds (m : positive) :
  2 ^ (Z.pos (digits2_pos m) - 1) <= Z.pos m < 2 ^ Z.pos (digits2_pos m).
Proof.
  induction m as [m IH | m IH |]; cbn [digits2_pos].
  - rewrite Pos2Z.inj_succ.
    replace (Z.succ (Z.pos (digits2_pos m)) - 1)
      with (Z.succ (Z.pos (digits2_pos m) - 1)) by lia.
    rewrite !Z.pow_succ_r by lia. lia.
  - rewrite Pos2Z.inj_succ.
    replace (Z.succ (Z.pos (digits2_pos m)) - 1)
      with (Z.succ (Z.pos (digits2_pos m) - 1)) by lia.
    rewrite !Z.pow_succ_r by lia. lia.
  - simpl. lia.
Qed.

(** A positive binary64 number has a mantissa below 2^53, and at least 2^52
    unless its exponent is the least one. *)
Lemma valid_mantissa (s : bool) (m : positive) (e : Z) :
  valid_binary prec emax (S754_finite s m e) = true ->
  Z.pos m < 2 ^ 53 /\ (-1074 < e -> 2 ^ 52 <= Z.pos m) /\ -1074 <= e.
Proof.
  unfold valid_binary, bounded, canonical_mantissa, fexp, emin, prec, emax.
  rewrite andb_true_iff, Z.eqb_eq. intros [Hc _].
  pose proof (digits2_pos_bounds m) as [Hlo Hhi].
  set (d := Z.pos (digits2_pos m)) in *.
  assert (Hd : d <= 53) by lia.
  split; [| split].
  - eapply Z.lt_le_trans; [exact Hhi |].
    apply Z.pow_le_mono_r; lia.
  - intros He. assert (d = 53) by lia.
    replace (2 ^ 52) with (2 ^ (d - 1)) by (f_equal; lia). exact Hlo.
  - lia.
Qed.

Lemma round_half_even_upper (n d q1 : Z) :
  0 < d -> n < q1 * d -> round_half_even n d <= q1.
Proof.
  intros Hd Hn. unfold round_half_even.
  assert (Hq : n / d < q1) by (apply Z.div_lt_upper_bound; lia).
  destruct (2 * (n mod d) ?= d); [destruct (Z.even (n / d)) | | ]; lia.
Qed.

Lemma round_half_even_nonneg (n d : Z) :
  0 < d -> 0 <= n -> 0 <= round_half_even n d.
Proof. intros Hd Hn. apply round_half_even_lower; lia. Qed.

End FloatOrder.

Import FloatOrder.

(* ===================================================================== *)
(** * Rounding, clamping and banding, in hundredths *)
(* ===================================================================== *)

Module Hundredths.
Import PyFloat PyFloatFacts PostProcessor Bands FloatOrder.

Lemma round_half_even_nearest (n d : Z) :
  0 < d -> nearest_integer n d (round_half_even n d).
Proof.
  intros Hd. unfold nearest_integer, round_half_even.
  pose proof (Z.div_mod n d ltac:(lia)) as Hdiv.
  pose proof (Z.mod_pos_bound n d Hd) as Hmod.
  set (q := n / d) in *. set (r := n mod d) in *.
  destruct (Z.compare_spec (2 * r) d) as [E | L | G].
  - destruct (Z.even q) eqn:Hq.
    + replace (n - q * d) with r by lia.
      split; [lia | intros _; exact Hq].
    + replace (n - (q + 1) * d) with (r - d) by lia.
      split; [lia |]. intros _.
      rewrite Z.even_add, Hq. reflexivity.
  - replace (n - q * d) with r by lia. split; lia.
  - replace (n - (q + 1) * d) with (r - d) by lia. split; lia.
Qed.

Lemma nearest_integer_unique (n d a b : Z) :
  0 < d -> nearest_integer n d a -> nearest_integer n d b -> a = b.
Proof.
  intros Hd [Ha Ha'] [Hb Hb'].
  assert (Hclose : -1 <= a - b <= 1) by nia.
  destruct (Z.eq_dec a b) as [E | N]; [exact E | exfalso].
  assert (Hties : 2 * Z.abs (n - a * d) = d /\ 2 * Z.abs (n - b * d) = d)
    by nia.
  destruct Hties as [Ta Tb].
  specialize (Ha' Ta). specialize (Hb' Tb).
  assert (Hab : a = b + 1 \/ b = a + 1) by lia.
  destruct Hab as [-> | ->].
  - rewrite Z.even_add, Hb' in Ha'. discriminate.
  - rewrite Z.even_add, Ha' in Hb'. discriminate.
Qed.

Lemma nearest_integer_opp (n d a : Z) :
  nearest_integer n d a -> nearest_integer (- n) d (- a).
Proof.
  unfold nearest_integer.
  replace (- n - - a * d) with (- (n - a * d)) by ring.
  rewrite Z.abs_opp, Z.even_opp. tauto.
Qed.

Lemma nearest_integer_whole (n : Z) : nearest_integer (n * 1) 1 n.
Proof.
  unfold nearest_integer. replace (n * 1 - n * 1) with 0 by ring.
  simpl. split; [lia | discriminate].
Qed.

(** The integer that [round2] hands to the conversion is the rounding of
    100 times the magnitude of the score. *)
Lemma round2_magnitude (m : positive) (e : Z) :
  let k := if 0 <=? e then 100 * Z.pos m * 2 ^ e
           else round_half_even (100 * Z.pos m) (2 ^ (- e)) in
  0 <= k
  /\ (if 0 <=? e then nearest_integer (100 * (Z.pos m * 2 ^ e)) 1 k
      else nearest_integer (100 * Z.pos m) (2 ^ (- e)) k).
Proof.
  destruct (0 <=? e) eqn:He; cbv zeta.
  - apply Z.leb_le in He.
    assert (0 < 2 ^ e) by (apply Z.pow_pos_nonneg; lia).
    split; [nia |].
    replace (100 * (Z.pos m * 2 ^ e)) with (100 * Z.pos m * 2 ^ e * 1) by ring.
    apply nearest_integer_whole.
  - apply Z.leb_gt in He.
    assert (0 < 2 ^ (- e)) by (apply Z.pow_pos_nonneg; lia).
    split; [apply round_half_even_nonneg; lia |].
    apply round_half_even_nearest. assumption.
Qed.

Lemma clamp_zero (s : bool) : clamp (S754_zero s) = centi 0.
Proof. destruct s; reflexivity. Qed.

Lemma clamp_nearest_double (k : Z) :
  0 <= k -> clamp (nearest_double false k 100) = centi (clamp_hundredths k).
Proof.
  intros Hk. unfold clamp_hundredths.
  destruct (Z_lt_le_dec k 400) as [Hlt | Hge].
  - replace (Z.max 0 (Z.min 400 k)) with k by lia.
    apply grid_clamp. lia.
  - replace (Z.max 0 (Z.min 400 k)) with 400 by lia.
    unfold clamp, min.
    rewrite nearest_double_ge_4 by lia. reflexivity.
Qed.

Lemma grid_message (k : Z) :
  0 <= k <= 400 -> snd (interpret_cgpa (centi k)) = message_of_hundredths k.
Proof.
  intros Hk. apply String.eqb_eq.
  apply (grid_check (fun k => String.eqb (snd (interpret_cgpa (centi k)))
                                (message_of_hundredths k))); [| exact Hk].
  vm_compute. reflexivity.
Qed.

(** Every number has one rounding, in hundredths. *)
Lemma rounded_hundredths_exists (score : spec_float) :
  exact_value score <> None -> exists k, rounded_hundredths score k.
Proof.
  unfold rounded_hundredths.
  destruct score as [s | s | | s m e]; cbn [exact_value]; intros H;
    try congruence.
  - exists 0. unfold nearest_integer. simpl. split; [lia | discriminate].
  - destruct (round2_magnitude m e) as [_ Hk]. cbv zeta in Hk.
    destruct (0 <=? e) eqn:He.
    + destruct s.
      * eexists.
        replace (100 * (Z.neg m * 2 ^ e))
          with (- (100 * (Z.pos m * 2 ^ e)))
          by (rewrite <- Pos2Z.opp_pos; ring).
        apply nearest_integer_opp. exact Hk.
      * eexists. exact Hk.
    + destruct s.
      * eexists.
        replace (100 * Z.neg m) with (- (100 * Z.pos m))
          by (rewrite <- Pos2Z.opp_pos; ring).
        apply nearest_integer_opp. exact Hk.
      * eexists. exact Hk.
Qed.

Lemma rounded_hundredths_unique (score : spec_float) (k k' : Z) :
  rounded_hundredths score k -> rounded_hundredths score k' -> k = k'.
Proof.
  unfold rounded_hundredths.
  destruct score as [s | s | | s m e]; cbn [exact_value]; try tauto.
  - apply nearest_integer_unique. lia.
  - destruct (0 <=? e) eqn:He.
    + apply nearest_integer_unique. lia.
    + apply Z.leb_gt in He. apply nearest_integer_unique.
      apply Z.pow_pos_nonneg; lia.
Qed.

(** Rounding with [round2] and clamping with [clamp] is rounding and
    clamping in hundredths. *)
Lemma clamp_round2_hundredths (score : spec_float) (k : Z) :
  rounded_hundredths score k ->
  clamp (round2 score) = centi (clamp_hundredths k).
Proof.
  intros Hk.
  destruct score as [s | s | | s m e];
    try (unfold rounded_hundredths in Hk; cbn [exact_value] in Hk;
         contradiction).
  - assert (k = 0).
    { apply (rounded_hundredths_unique (S754_zero s)); [exact Hk |].
      unfold rounded_hundredths, nearest_integer. simpl.
      split; [lia | discriminate]. }
    subst k. cbn [round2]. apply clamp_zero.
  - unfold round2.
    destruct (round2_magnitude m e) as [Hpos Hnear]. cbv zeta in Hpos, Hnear.
    set (K := if 0 <=? e then 100 * Z.pos m * 2 ^ e
              else round_half_even (100 * Z.pos m) (2 ^ (- e))) in *.
    destruct s.
    + rewrite clamp_negative.
      assert (k = - K).
      { apply (rounded_hundredths_unique (S754_finite true m e));
          [exact Hk |].
        unfold rounded_hundredths. cbn [exact_value].
        destruct (0 <=? e).
        - replace (100 * (Z.neg m * 2 ^ e))
            with (- (100 * (Z.pos m * 2 ^ e)))
            by (rewrite <- Pos2Z.opp_pos; ring).
          apply nearest_integer_opp. exact Hnear.
        - replace (100 * Z.neg m) with (- (100 * Z.pos m))
            by (rewrite <- Pos2Z.opp_pos; ring).
          apply nearest_integer_opp. exact Hnear. }
      subst k. unfold clamp_hundredths.
      replace (Z.max 0 (Z.min 400 (- K))) with 0 by lia. reflexivity.
    + assert (k = K).
      { apply (rounded_hundredths_unique (S754_finite false m e));
          [exact Hk |].
        unfold rounded_hundredths. cbn [exact_value].
        destruct (0 <=? e); exact Hnear. }
      subst k. apply clamp_nearest_double. exact Hpos.
Qed.

Lemma clamp_hundredths_range (k : Z) : 0 <= clamp_hundredths k <= 400.
Proof. unfold clamp_hundredths. lia. Qed.

Lemma postprocess_hundredths (score : spec_float) (k : Z) :
  rounded_hundredths score k ->
  postprocess score
  = {| predicted_cgpa := centi (clamp_hundredths k);
       cgpa_range := band_of_hundredths (clamp_hundredths k);
       message := message_of_hundredths (clamp_hundredths k) |}.
Proof.
  intros Hk. rewrite postprocess_fields.
  rewrite (clamp_round2_hundredths score k Hk).
  rewrite grid_band, grid_message by apply clamp_hundredths_range.
  reflexivity.
Qed.

End Hundredths.

Import Hundredths.

(** C1. In the /predict pipeline the raw score is first rounded to two
    decimals, the rounded value is then clamped into [0.0, 4.0], and the
    clamped value is both the returned [predicted_cgpa] and the argument of
    the band/message decision, for every score the model returns.  In
    hundredths: a score that is a number has exactly one rounding [k] (100
    times its exact value, to the nearest integer, ties to even), and the
    response carries the float of [c/100] with [c] the integer [k] clamped
    into 0..400, the band of [c] and the message of [c]; NaN and the
    positive infinity give 4.0 and Excellent, the negative infinity 0.0
    and Poor.  The band is decided after the rounding (3.496 is Good as
    it stands and Excellent in the response) and after the clamp (NaN is
    Poor as it stands and after rounding, and Excellent in the
    response). *)
Theorem predict_rounds_then_clamps_then_bands exc_str student w score w' :
  raw_score student w = (Return score, w') ->
  exists out,
    predict_cgpa exc_str student w = (Return out, w')
    /\ (validate student = true ->
        serve exc_str (POST_predict student) w
        = ({| status := 200; body := PredictionBody out |}, w'))
    /\ match score with
       | S754_nan | S754_infinity false =>
           out = {| predicted_cgpa := PyFloat.centi 400;
                    cgpa_range := "Excellent (3.50 - 4.00)";
                    message :=
                      "Student is performing excellently! Keep up the great work." |}
       | S754_infinity true =>
           out = {| predicted_cgpa := PyFloat.centi 0;
                    cgpa_range := "Poor (0.00 - 1.99)";
                    message :=
                      "Student requires immediate academic and mental health support." |}
       | _ =>
           exists k,
             rounded_hundredths score k
             /\ (forall k', rounded_hundredths score k' -> k' = k)
             /\ out
                = {| predicted_cgpa := PyFloat.centi (clamp_hundredths k);
                     cgpa_range := band_of_hundredths (clamp_hundredths k);
                     message := message_of_hundredths (clamp_hundredths k) |}
       end
    /\ fst (interpret_cgpa (PyFloat.nearest_double false 3496 1000))
       = "Good (3.00 - 3.49)"
    /\ cgpa_range (postprocess (PyFloat.nearest_double false 3496 1000))
       = "Excellent (3.50 - 4.00)"
    /\ fst (interpret_cgpa (PyFloat.round2 S754_nan)) = "Poor (0.00 - 1.99)"
    /\ cgpa_range (postprocess S754_nan) = "Excellent (3.50 - 4.00)".
Proof.
  intros Hraw.
  destruct (predict_cgpa_postprocess exc_str _ _ _ _ Hraw) as [Hrun Hserve].
  exists (postprocess score).
  split; [exact Hrun |]. split; [exact Hserve |].
  split; [| repeat split; vm_compute; reflexivity].
  assert (Hnum : exact_value score <> None ->
            exists k,
              rounded_hundredths score k
              /\ (forall k', rounded_hundredths score k' -> k' = k)
              /\ postprocess score
                 = {| predicted_cgpa := PyFloat.centi (clamp_hundredths k);
                      cgpa_range := band_of_hundredths (clamp_hundredths k);
                      message :=
                        message_of_hundredths (clamp_hundredths k) |}).
  { intros H. destruct (rounded_hundredths_exists score H) as [k Hk].
    exists k. split; [exact Hk |]. split.
    - intros k' Hk'. exact (rounded_hundredths_unique score k' k Hk' Hk).
    - apply postprocess_hundredths. exact Hk. }
  destruct score as [s | [|] | | s m e].
  - apply Hnum. discriminate.
  - vm_compute. reflexivity.
  - vm_compute. reflexivity.
  - vm_compute. reflexivity.
  - apply Hnum. cbn [exact_value]. discriminate.
Qed.

(** C1 on the sample request: the model's 3.496 has the rounding 350, which
    the clamp leaves alone and which is banded as Excellent. *)
Lemma predict_rounds_then_clamps_then_bands_witness :
  let score := PyFloat.nearest_double false 3496 1000 in
  let w' := snd (raw_score sample_student sample_world) in
  let out := {| predicted_cgpa := PyFloat.centi 350;
                cgpa_range := "Excellent (3.50 - 4.00)";
                message :=
                  "Student is performing excellently! Keep up the great work." |} in
  raw_score sample_student sample_world = (Return score, w')
  /\ rounded_hundredths score 350
  /\ predict_cgpa show_error sample_student sample_world = (Return out, w')
  /\ serve show_error (POST_predict sample_student) sample_world
     = ({| status := 200; body := PredictionBody out |}, w').
Proof.
  assert (H : raw_score sample_student sample_world
              = (Return (PyFloat.nearest_double false 3496 1000),
                 snd (raw_score sample_student sample_world)))
    by (apply pair_of_fst; vm_compute; reflexivity).
  destruct (predict_rounds_then_clamps_then_bands show_error _ _ _ _ H)
    as (out & H1 & H2 & H3 & _).
  assert (Hk : rounded_hundredths (PyFloat.nearest_double false 3496 1000) 350).
  { unfold rounded_hundredths, nearest_integer. vm_compute.
    split; [discriminate | discriminate]. }
  assert (Hout : out
                 = {| predicted_cgpa := PyFloat.centi 350;
                      cgpa_range := "Excellent (3.50 - 4.00)";
                      message :=
                        "Student is performing excellently! Keep up the great work." |}).
  { change (PyFloat.nearest_double false 3496 1000)
      with (S754_finite false 7872292148643627 (-51)) in H3, Hk.
    destruct H3 as (k & _ & Huniq & Hout).
    rewrite <- (Huniq 350 Hk) in Hout. exact Hout. }
  subst out.
  split; [exact H |]. split; [exact Hk |].
  split; [exact H1 | apply H2; reflexivity].
Defined.


(** X4. The band never goes down when the score goes up: if [s <= t] then
    the label of [s] is the label of [t] or a lower one. *)
Theorem interpret_cgpa_monotone (s t : spec_float) :
  PyFloat.le s t = true ->
  (band_rank (fst (interpret_cgpa s)) <= band_rank (fst (interpret_cgpa t)))%nat.
Proof.
  intros Hst. unfold interpret_cgpa.
  pose proof (ge_mono (PyFloat.centi 350) s t Hst) as H350.
  pose proof (ge_mono (PyFloat.centi 300) s t Hst) as H300.
  pose proof (ge_mono (PyFloat.centi 250) s t Hst) as H250.
  pose proof (ge_mono (PyFloat.centi 200) s t Hst) as H200.
  destruct (PyFloat.ge s (PyFloat.centi 350));
    [rewrite (H350 eq_refl); vm_compute; lia |].
  destruct (PyFloat.ge s (PyFloat.centi 300)).
  { rewrite (H300 eq_refl).
    destruct (PyFloat.ge t (PyFloat.centi 350)); vm_compute; lia. }
  destruct (PyFloat.ge s (PyFloat.centi 250)).
  { rewrite (H250 eq_refl).
    destruct (PyFloat.ge t (PyFloat.centi 350));
      [| destruct (PyFloat.ge t (PyFloat.centi 300))]; vm_compute; lia. }
  destruct (PyFloat.ge s (PyFloat.centi 200)).
  { rewrite (H200 eq_refl).
    destruct (PyFloat.ge t (PyFloat.centi 350));
      [| destruct (PyFloat.ge t (PyFloat.centi 300));
         [| destruct (PyFloat.ge t (PyFloat.centi 250))]]; vm_compute; lia. }
  destruct (PyFloat.ge t (PyFloat.centi 350));
    [| destruct (PyFloat.ge t (PyFloat.centi 300));
       [| destruct (PyFloat.ge t (PyFloat.centi 250));
          [| destruct (PyFloat.ge t (PyFloat.centi 200))]]]; vm_compute; lia.
Qed.

(** X4 on the scores 2.49 and 2.50: Below Average, then Average. *)
Lemma interpret_cgpa_monotone_witness :
  PyFloat.le (PyFloat.centi 249) (PyFloat.centi 250) = true
  /\ (band_rank (fst (interpret_cgpa (PyFloat.centi 249)))
      <= band_rank (fst (interpret_cgpa (PyFloat.centi 250))))%nat.
Proof.
  assert (H : PyFloat.le (PyFloat.centi 249) (PyFloat.centi 250) = true)
    by (vm_compute; reflexivity).
  split; [exact H |].
  exact (interpret_cgpa_monotone _ _ H).
Defined.

(** X5. On every binary64 score, rounding and clamping commute: rounding
    to two decimals and then clamping into [0.0, 4.0], as the handler does,
    gives the same float as clamping first and rounding afterwards. *)
Theorem round_then_clamp_is_clamp_then_round (x : spec_float) :
  valid_binary PyFloat.prec PyFloat.emax x = true ->
  clamp (PyFloat.round2 x) = PyFloat.round2 (clamp x).
Proof.
  intros Hv. destruct x as [s | s | | s m e].
  - destruct s; vm_compute; reflexivity.
  - destruct s; vm_compute; reflexivity.
  - vm_compute; reflexivity.
  - destruct s.
    + unfold PyFloat.round2 at 1. rewrite PostProcessor.clamp_negative.
      assert (E : clamp (S754_finite true m e) = PyFloat.centi 0).
      { unfold clamp. rewrite PyFloatFacts.centi_400, PyFloatFacts.centi_0.
        reflexivity. }
      rewrite E. reflexivity.
    + destruct (valid_mantissa _ _ _ Hv) as (Hhi & Hlo & Hmin).
      destruct (Z_lt_le_dec e (-50)) as [He | He].
      * (* below 4.0: the clamp leaves both the score and its rounding *)
        assert (E : clamp (S754_finite false m e) = S754_finite false m e).
        { unfold clamp. rewrite PyFloatFacts.centi_400, PyFloatFacts.centi_0.
          unfold PyFloat.max, PyFloat.min, PyFloat.lt, PyFloat.gt, SFltb,
            SFcompare.
          destruct (Z.compare_spec e (-50)); try lia. reflexivity. }
        rewrite E. unfold PyFloat.round2.
        replace (0 <=? e) with false by (symmetry; apply Z.leb_gt; lia).
        set (k := PyFloat.round_half_even (100 * Z.pos m) (2 ^ (- e))).
        assert (Hp : 0 < 2 ^ (- e)) by (apply Z.pow_pos_nonneg; lia).
        assert (Hk : 0 <= k <= 400).
        { split; [apply round_half_even_nonneg; lia |].
          apply round_half_even_upper; [exact Hp |].
          assert (2 ^ 51 <= 2 ^ (- e)) by (apply Z.pow_le_mono_r; lia).
          change (2 ^ 53) with (4 * 2 ^ 51) in Hhi. lia. }
        apply (grid_clamp k Hk).
      * (* at least 4.0: both orders give 4.0 *)
        assert (Hm : 2 ^ 52 <= Z.pos m) by (apply Hlo; lia).
        assert (E : clamp (S754_finite false m e) = PyFloat.centi 400).
        { unfold clamp. rewrite PyFloatFacts.centi_400, PyFloatFacts.centi_0.
          unfold PyFloat.max, PyFloat.min, PyFloat.lt, PyFloat.gt, SFltb,
            SFcompare.
          destruct (Z.compare_spec e (-50)) as [Heq | Hlt | Hgt];
            [| lia | reflexivity].
          rewrite Pos.compare_cont_spec. simpl.
          destruct (Pos.compare_spec m 4503599627370496) as [_ | Hlt | _];
            try reflexivity.
          apply Pos2Z.pos_lt_pos in Hlt.
          change (2 ^ 52) with 4503599627370496 in Hm. lia. }
        rewrite E.
        replace (PyFloat.round2 (PyFloat.centi 400)) with (PyFloat.centi 400)
          by (vm_compute; reflexivity).
        unfold PyFloat.round2.
        set (k := if 0 <=? e then 100 * Z.pos m * 2 ^ e
                  else PyFloat.round_half_even (100 * Z.pos m) (2 ^ (- e))).
        assert (Hk : 400 <= k).
        { unfold k. destruct (0 <=? e) eqn:H0.
          - apply Z.leb_le in H0.
            assert (0 < 2 ^ e) by (apply Z.pow_pos_nonneg; lia).
            change (2 ^ 52) with 4503599627370496 in Hm. nia.
          - apply Z.leb_gt in H0.
            assert (Hp : 0 < 2 ^ (- e)) by (apply Z.pow_pos_nonneg; lia).
            apply PyFloatFacts.round_half_even_lower; [exact Hp |].
            assert (2 ^ (- e) <= 2 ^ 50) by (apply Z.pow_le_mono_r; lia).
            change (2 ^ 52) with (4 * 2 ^ 50) in Hm. lia. }
        unfold clamp, PyFloat.min.
        rewrite PyFloatFacts.nearest_double_ge_4 by lia.
        reflexivity.
Qed.

(** X5 on the score 3.999, which both orders report as 4.0. *)
Lemma round_then_clamp_is_clamp_then_round_witness :
  let x := PyFloat.nearest_double false 3999 1000 in
  valid_binary PyFloat.prec PyFloat.emax x = true
  /\ clamp (PyFloat.round2 x) = PyFloat.round2 (clamp x).
Proof.
  assert (H : valid_binary PyFloat.prec PyFloat.emax
                (PyFloat.nearest_double false 3999 1000) = true)
    by (vm_compute; reflexivity).
  split; [exact H |].
  exact (round_then_clamp_is_clamp_then_round _ H).
Defined.

(* ===================================================================== *)
(** * Further properties of the handler *)
(* ===================================================================== *)

Module Trace.
Import Runs EncoderLoop HandlerFacts.

Lemma lookup_df_setitem (df : DataFrame) (col n : string) (v : pyval) :
  lookup n (df_setitem df col v)
  = if String.eqb n col then Some v else lookup n df.
Proof.
  induction df as [| [c x] df IH]; simpl.
  - destruct (String.eqb n col); reflexivity.
  - destruct (String.eqb_spec col c) as [-> | Hc]; simpl.
    + destruct (String.eqb n c); reflexivity.
    + destruct (String.eqb_spec n c) as [-> | Hn].
      * destruct (String.eqb_spec c col); [congruence | reflexivity].
      * exact IH.
Qed.

Lemma lookup_none_not_column (n : string) (df : DataFrame) :
  lookup n df = None <-> in_columns n df = false.
Proof.
  destruct (in_columns n df) eqn:H.
  - apply lookup_in_columns in H as [v Hv]. rewrite Hv.
    split; discriminate.
  - split; [reflexivity | intros _].
    destruct (lookup n df) as [v |] eqn:Hv; [| reflexivity].
    assert (in_columns n df = true) by (apply lookup_in_columns; eauto).
    congruence.
Qed.

(** The encoder loop, with its exact calls and the cells it leaves. *)
Lemma encode_columns_trace p encs data :
  label_encoders p = Some encs ->
  forall keys df,
    map fst df = map fst data ->
    (forall k, In k keys -> In k (map fst encs)) ->
    match first_unseen encs data keys with
    | Some (c, v) =>
        runs_on p (encode_columns data keys df)
          (Raise (HTTPException 400 (invalid_value_detail c v)))
          (encoder_calls encs data keys)
    | None =>
        exists df',
          map fst df' = map fst data
          /\ (forall n,
                lookup n df'
                = if existsb (String.eqb n) keys
                  then encode_cell encs data n (lookup n df)
                  else lookup n df)
          /\ runs_on p (encode_columns data keys df) (Return df')
               (encoder_calls encs data keys)
    end.
Proof.
  intros Hp keys. induction keys as [| col keys IH]; intros df Hdf Hk.
  - simpl. exists df. split; [exact Hdf |]. split; [reflexivity |].
    apply runs_on_ret.
  - assert (Hk' : forall k, In k keys -> In k (map fst encs))
      by (intros k Hin; apply Hk; now right).
    cbn [first_unseen encoder_calls encode_columns existsb].
    destruct (in_columns col df) eqn:Hcol.
    + pose proof Hcol as Hcol'.
      rewrite (in_columns_names col df data Hdf) in Hcol'.
      apply lookup_in_columns in Hcol' as [v Hv]. rewrite Hv.
      destruct (lookup_keys col encs (Hk col (or_introl eq_refl)))
        as [enc Henc].
      rewrite Henc.
      pose proof (encode_value_runs p encs data col enc v Hp Henc Hv) as Hrun.
      destruct (index_of (py_str v) (classes_ enc)) as [code |] eqn:Hidx.
      * specialize (IH (df_setitem df col (PInt code))).
        rewrite df_setitem_columns in IH by exact Hcol.
        specialize (IH Hdf Hk').
        change (EncoderCall col (py_str v) :: encoder_calls encs data keys)
          with ([EncoderCall col (py_str v)]
                ++ encoder_calls encs data keys)%list.
        destruct (first_unseen encs data keys) as [[c v'] |].
        -- eapply runs_on_bind; [apply runs_on_try_return; exact Hrun |].
           exact IH.
        -- destruct IH as (df' & Hdf' & Hcells & Hrest). exists df'.
           split; [exact Hdf' |]. split.
           ++ intros n. rewrite Hcells, lookup_df_setitem.
              destruct (String.eqb_spec n col) as [-> | Hn]; simpl.
              ** unfold encode_cell. rewrite Hv, Henc, Hidx.
                 destruct (existsb (String.eqb col) keys); reflexivity.
              ** reflexivity.
           ++ eapply runs_on_bind; [apply runs_on_try_return; exact Hrun |].
              exact Hrest.
      * change [EncoderCall col (py_str v)]
          with ([EncoderCall col (py_str v)] ++ [])%list.
        apply runs_on_bind_raise.
        eapply runs_on_try_caught;
          [exact Hrun | reflexivity | apply unseen_category_runs; exact Hv].
    + assert (Hnone : lookup col data = None).
      { apply lookup_none_not_column.
        now rewrite <- (in_columns_names col df data Hdf). }
      rewrite Hnone. specialize (IH df Hdf Hk').
      destruct (first_unseen encs data keys) as [[c v'] |]; [exact IH |].
      destruct IH as (df' & Hdf' & Hcells & Hrest). exists df'.
      split; [exact Hdf' |]. split; [| exact Hrest].
      intros n. rewrite Hcells.
      destruct (String.eqb_spec n col) as [-> | Hn]; simpl; [| reflexivity].
      unfold encode_cell. rewrite Hnone.
      destruct (existsb (String.eqb col) keys); reflexivity.
Qed.

Lemma score_of_frame_trace p df :
  exists out l, runs_on p (score_of_frame df) out l /\ frame_run p df out l.
Proof.
  destruct (feature_names p) as [names |] eqn:Hnames.
  2:{ do 2 eexists. split; [| apply frame_no_names; assumption].
      compute_run. }
  destruct (df_select df names) as [e | df2] eqn:Hsel.
  { do 2 eexists. split; [| eapply frame_missing_columns; eassumption].
    compute_run. }
  destruct (scaler p) as [s |] eqn:Hs.
  2:{ do 2 eexists. split; [| eapply frame_no_scaler; eassumption].
      compute_run. }
  destruct (Scaler_transform s df2) as [e | x] eqn:Hx.
  { do 2 eexists. split; [| eapply frame_scaler_raises; eassumption].
    compute_run. }
  destruct (model p) as [m |] eqn:Hm.
  2:{ do 2 eexists. split; [| eapply frame_no_model; eassumption].
      compute_run. }
  destruct (Model_predict m x) as [e | prediction] eqn:Hpred.
  { do 2 eexists. split; [| eapply frame_model_raises; eassumption].
    compute_run. }
  destruct prediction as [| score rest].
  { do 2 eexists. split; [| eapply frame_empty_prediction; eassumption].
    compute_run. }
  do 2 eexists. split; [| eapply frame_score; eassumption].
  compute_run.
Qed.

(** Every run of [raw_score] is one of the runs of [request_run]. *)
Lemma raw_score_trace p student :
  exists out l,
    runs_on p (raw_score student) out l /\ request_run p student out l.
Proof.
  destruct (label_encoders p) as [encs |] eqn:Hencs.
  2:{ do 2 eexists. split; [| apply request_no_encoders; assumption].
      unfold raw_score. apply runs_on_bind_raise. compute_run. }
  assert (Hkeys : runs_on p label_encoders_keys (Return (map fst encs)) [])
    by compute_run.
  pose proof (encode_columns_trace p encs (input_data student) Hencs
                (map fst encs) (input_data student) eq_refl (fun k H => H))
    as Hloop.
  destruct (first_unseen encs (input_data student) (map fst encs))
    as [[c v] |] eqn:Hfirst.
  - do 2 eexists. split; [| eapply request_unseen; eassumption].
    unfold raw_score.
    change (encoder_calls encs (input_data student) (map fst encs))
      with ([] ++ encoder_calls encs (input_data student) (map fst encs))%list.
    eapply runs_on_bind; [exact Hkeys |].
    apply runs_on_bind_raise. exact Hloop.
  - destruct Hloop as (df' & Hdf' & Hcells & Hloop).
    destruct (score_of_frame_trace p df') as (out & l2 & Hrun & Hframe).
    exists out,
      (encoder_calls encs (input_data student) (map fst encs) ++ l2)%list.
    split; [| eapply request_encoded; eassumption].
    unfold raw_score.
    change (encoder_calls encs (input_data student) (map fst encs) ++ l2)%list
      with ([] ++ (encoder_calls encs (input_data student) (map fst encs)
                   ++ l2))%list.
    eapply runs_on_bind; [exact Hkeys |].
    eapply runs_on_bind; [exact Hloop | exact Hrun].
Qed.

Lemma encoder_calls_are_encoder_calls encs data keys :
  encoder_calls_only (encoder_calls encs data keys).
Proof.
  induction keys as [| col keys IH]; simpl; [constructor |].
  destruct (lookup col data); [| exact IH].
  destruct (lookup col encs) as [enc |]; [| exact IH].
  constructor; [reflexivity |].
  destruct (index_of _ _); [exact IH | constructor].
Qed.

(** Column selection: the selected frame has the listed labels, in the
    listed order, each with the cell the frame holds for it. *)
Lemma df_select_inr df names df2 :
  df_select df names = inr df2 ->
  map fst df2 = names
  /\ (forall n c, In (n, c) df2 -> In n names /\ lookup n df = Some c).
Proof.
  unfold df_select.
  destruct (filter (fun n => negb (in_columns n df)) names) eqn:Hf;
    [| discriminate].
  intros H. inversion H; subst df2. clear H.
  assert (Hall : forall n, In n names -> in_columns n df = true).
  { intros n Hn. destruct (in_columns n df) eqn:E; [reflexivity |].
    assert (Hin : In n (filter (fun n => negb (in_columns n df)) names))
      by (apply filter_In; rewrite E; auto).
    rewrite Hf in Hin. destruct Hin. }
  clear Hf. induction names as [| n names IH]; simpl; [split; [auto | tauto] |].
  destruct (proj1 (lookup_in_columns n df) (Hall n (or_introl eq_refl)))
    as [v Hv].
  rewrite Hv. simpl.
  destruct IH as [IH1 IH2]; [intros k Hk; apply Hall; now right |].
  split; [now rewrite IH1 |].
  intros k c [E | Hin].
  - inversion E; subst. split; [now left | exact Hv].
  - destruct (IH2 k c Hin). split; [now right | assumption].
Qed.

Lemma df_select_missing df names n :
  In n names -> lookup n df = None ->
  df_select df names
  = inl (not_in_index names
           (filter (fun n => negb (in_columns n df)) names)).
Proof.
  intros Hn Hnone. unfold df_select.
  assert (Hin : In n (filter (fun n => negb (in_columns n df)) names)).
  { apply filter_In. split; [exact Hn |].
    apply lookup_none_not_column in Hnone. now rewrite Hnone. }
  destruct (filter (fun n => negb (in_columns n df)) names);
    [destruct Hin | reflexivity].
Qed.

End Trace.

Import Trace.

(** ** Unseen categories *)

(** C4 (as amended). When a request that passes the schema carries, for a
    column of the label-encoder mapping, a value that is not among the
    categories its encoder was fit on, POST /predict answers 400 with the
    detail "Invalid value for <column>: <value>. Must be one of the
    categories in training data.", where the column is the first unseen
    one in the order of the mapping's keys (that very column, with its
    value, when no other column is unseen); the calls made are the encoder
    calls up to the rejecting one, so neither the scaler nor the model ran
    and no prediction was made.  The route function answers so for every
    input it is given; a request that does not pass the schema is answered
    422 and no encoder is consulted. *)
Theorem unseen_category_is_rejected exc_str student w encs col v :
  label_encoders (globals w) = Some encs ->
  unseen encs (input_data student) col v ->
  exists c v' l,
    first_unseen encs (input_data student) (map fst encs) = Some (c, v')
    /\ unseen encs (input_data student) c v'
    /\ l = encoder_calls encs (input_data student) (map fst encs)
    /\ respond PredictionBody (predict_cgpa exc_str student) w
       = ({| status := 400;
             body := DetailBody
               ("Invalid value for " ++ c ++ ": " ++ py_str v'
                ++ ". Must be one of the categories in training data.") |},
          {| globals := globals w; calls := calls w ++ l |})
    /\ (validate student = true ->
        serve exc_str (POST_predict student) w
        = ({| status := 400;
              body := DetailBody
                ("Invalid value for " ++ c ++ ": " ++ py_str v'
                 ++ ". Must be one of the categories in training data.") |},
           {| globals := globals w; calls := calls w ++ l |}))
    /\ (validate student = false ->
        serve exc_str (POST_predict student) w
        = ({| status := 422;
              body := ValidationBody (validation_errors student) |}, w))
    /\ encoder_calls_only l
    /\ count_calls is_scaler_call l = 0%nat
    /\ count_calls is_model_call l = 0%nat
    /\ ((forall c0 v0, unseen encs (input_data student) c0 v0 -> c0 = col) ->
        c = col /\ v' = v).
Proof.
  intros Hencs Hunseen.
  assert (Hin : In col (map fst encs)).
  { destruct Hunseen as (enc & Henc & _). eapply lookup_In; eauto. }
  destruct (first_unseen_complete _ _ _ _ _ Hin Hunseen) as (c & v' & Hfirst).
  destruct (first_unseen_sound _ _ _ _ _ Hfirst) as [_ Hc].
  destruct (raw_score_trace (globals w) student) as (o & l & Hrun & Htrace).
  assert (Ho : o = Raise (HTTPException 400 (invalid_value_detail c v'))
               /\ l = encoder_calls encs (input_data student) (map fst encs)).
  { destruct Htrace as [Henc | encs' c' v'' Hencs' Hfirst'
                       | encs' df' out l2 Hencs' Hfirst' _ _ _];
      try congruence.
    assert (encs' = encs) by congruence. subst encs'.
    rewrite Hfirst in Hfirst'. inversion Hfirst'; subst. split; reflexivity. }
  destruct Ho as [-> Hl].
  assert (Hcalls : encoder_calls_only l)
    by (rewrite Hl; apply encoder_calls_are_encoder_calls).
  pose proof (respond_predict exc_str _ _ _ _ Hrun) as Hresp.
  exists c, v', l.
  split; [exact Hfirst |]. split; [exact Hc |]. split; [exact Hl |].
  split; [exact Hresp |].
  split; [intros Hvalid; rewrite serve_predict by exact Hvalid; exact Hresp |].
  split; [intros Hvalid; cbv beta iota delta [serve]; now rewrite Hvalid |].
  split; [exact Hcalls |].
  split; [apply encoder_calls_only_count; exact Hcalls |].
  split; [apply encoder_calls_only_count; exact Hcalls |].
  intros H.
  assert (c = col) by (apply (H c v' Hc)). subst c.
  split; [reflexivity |].
  destruct Hc as (? & _ & Hv1 & _). destruct Hunseen as (? & _ & Hv2 & _).
  congruence.
Qed.

(** C4 (as amended) on the sample request with a course the encoder was not
    fit on: the answer names the course column and "Medicine", after the
    gender and course encoders were called. *)
Lemma unseen_category_is_rejected_witness :
  let student := with_course sample_student "Medicine" in
  (exists c v' l,
    first_unseen sample_encoders (input_data student) (map fst sample_encoders)
    = Some (c, v')
    /\ unseen sample_encoders (input_data student) c v'
    /\ l = encoder_calls sample_encoders (input_data student)
             (map fst sample_encoders)
    /\ respond PredictionBody (predict_cgpa show_error student) sample_world
       = ({| status := 400;
             body := DetailBody
               ("Invalid value for " ++ c ++ ": " ++ py_str v'
                ++ ". Must be one of the categories in training data.") |},
          {| globals := sample_process; calls := [] ++ l |})
    /\ (validate student = true ->
        serve show_error (POST_predict student) sample_world
        = ({| status := 400;
              body := DetailBody
                ("Invalid value for " ++ c ++ ": " ++ py_str v'
                 ++ ". Must be one of the categories in training data.") |},
           {| globals := sample_process; calls := [] ++ l |}))
    /\ (validate student = false ->
        serve show_error (POST_predict student) sample_world
        = ({| status := 422;
              body := ValidationBody (validation_errors student) |},
           sample_world))
    /\ encoder_calls_only l
    /\ count_calls is_scaler_call l = 0%nat
    /\ count_calls is_model_call l = 0%nat
    /\ ((forall c0 v0, unseen sample_encoders (input_data student) c0 v0 ->
         c0 = "What is your course?") ->
        c = "What is your course?" /\ v' = PStr "Medicine"))
  /\ validate student = true
  /\ serve show_error (POST_predict student) sample_world
     = ({| status := 400;
           body := DetailBody
             "Invalid value for What is your course?: Medicine. Must be one of the categories in training data." |},
        {| globals := sample_process;
           calls := [EncoderCall "Choose your gender" "Male";
                     EncoderCall "What is your course?" "Medicine"] |}).
Proof.
  split; [| split; [reflexivity | apply pair_of_fst; vm_compute; reflexivity]].
  apply (unseen_category_is_rejected show_error
           (with_course sample_student "Medicine") sample_world
           sample_encoders "What is your course?" (PStr "Medicine")).
  - reflexivity.
  - exists {| classes_ := ["BCS"; "BIT"; "Engineering"; "Law"] |}.
    split; [reflexivity |]. split; reflexivity.
Defined.

(** C4, the claim as stated fails on two counts.  A gender outside the
    schema's literals is unseen by the gender encoder, yet the request is
    answered 422 by the schema and no encoder is called.  And with encoders
    fit on years spelt with a capital, a request whose course and year are
    both unseen is answered 400 with a detail that names the course and its
    value only: the year, an offending column too, is not named. *)
Lemma unseen_category_not_always_a_400_naming_it :
  unseen sample_encoders (input_data (with_gender sample_student "Other"))
    "Choose your gender" (PStr "Other")
  /\ serve show_error (POST_predict (with_gender sample_student "Other"))
       sample_world
     = ({| status := 422; body := ValidationBody ["gender"] |}, sample_world)
  /\ unseen encoders_capital_years
       (input_data (with_course sample_student "Medicine"))
       "What is your course?" (PStr "Medicine")
  /\ unseen encoders_capital_years
       (input_data (with_course sample_student "Medicine"))
       "Your current year of Study" (PStr "year 2")
  /\ validate (with_course sample_student "Medicine") = true
  /\ fst (serve show_error
            (POST_predict (with_course sample_student "Medicine"))
            {| globals := process_capital_years; calls := [] |})
     = {| status := 400;
          body := DetailBody
            "Invalid value for What is your course?: Medicine. Must be one of the categories in training data." |}
  /\ occurs "Your current year of Study"
       "Invalid value for What is your course?: Medicine. Must be one of the categories in training data."
     = false
  /\ occurs "year 2"
       "Invalid value for What is your course?: Medicine. Must be one of the categories in training data."
     = false.
Proof.
  split.
  { eexists. split; [reflexivity |]. split; reflexivity. }
  split; [reflexivity |].
  split.
  { eexists. split; [reflexivity |]. split; reflexivity. }
  split.
  { eexists. split; [reflexivity |]. split; reflexivity. }
  split; [reflexivity |].
  split; [vm_compute; reflexivity |].
  split; vm_compute; reflexivity.
Qed.

Lemma not_unseen_has_code encs data keys n enc v :
  first_unseen encs data keys = None ->
  In n keys ->
  lookup n encs = Some enc ->
  lookup n data = Some v ->
  exists code, index_of (py_str v) (classes_ enc) = Some code.
Proof.
  intros Hfirst Hin Henc Hv.
  destruct (index_of (py_str v) (classes_ enc)) as [code |] eqn:Hidx;
    [eauto |].
  destruct (first_unseen_complete encs data keys n v Hin) as (c & v' & H).
  - exists enc. auto.
  - congruence.
Qed.

Lemma in_keys_existsb (n : string) (keys : list string) :
  existsb (String.eqb n) keys = true <-> In n keys.
Proof.
  rewrite existsb_exists. split.
  - intros (k & Hk & E). apply String.eqb_eq in E. now subst.
  - intros H. exists n. split; [exact H | apply String.eqb_refl].
Qed.

(** The cells of an encoded frame, when no column is unseen. *)
Lemma encoded_cell_value encs data n c :
  first_unseen encs data (map fst encs) = None ->
  (if existsb (String.eqb n) (map fst encs)
   then encode_cell encs data n (lookup n data)
   else lookup n data) = Some c ->
  exists v,
    lookup n data = Some v
    /\ match lookup n encs with
       | Some enc =>
           exists code,
             index_of (py_str v) (classes_ enc) = Some code /\ c = PInt code
       | None => c = v
       end.
Proof.
  intros Hfirst Hcell.
  destruct (lookup n encs) as [enc |] eqn:Henc.
  - assert (Hin : In n (map fst encs)) by (eapply lookup_In; eauto).
    rewrite (proj2 (in_keys_existsb n _) Hin) in Hcell.
    unfold encode_cell in Hcell. rewrite Henc in Hcell.
    destruct (lookup n data) as [v |] eqn:Hv; [| discriminate].
    exists v. split; [reflexivity |].
    destruct (not_unseen_has_code _ _ _ _ _ _ Hfirst Hin Henc Hv)
      as [code Hcode].
    rewrite Hcode in Hcell. inversion Hcell. eauto.
  - assert (Hold : lookup n data = Some c).
    { destruct (existsb (String.eqb n) (map fst encs)); [| exact Hcell].
      unfold encode_cell in Hcell. rewrite Henc in Hcell.
      destruct (lookup n data); exact Hcell. }
    exists c. auto.
Qed.

(** X6. What the scaler is handed: whenever the handler calls the scaler,
    the frame has exactly the columns of [feature_names], in that order, and
    each cell is the request's value for that column, replaced by the
    integer code of its encoder when the mapping has one for the column. *)
Theorem scaler_receives_encoded_frame student w :
  exists out l,
    raw_score student w
    = (out, {| globals := globals w; calls := calls w ++ l |})
    /\ forall df,
        In (ScalerCall df) l ->
        exists encs names,
          label_encoders (globals w) = Some encs
          /\ feature_names (globals w) = Some names
          /\ map fst df = names
          /\ forall n c,
              In (n, c) df ->
              exists v,
                lookup n (input_data student) = Some v
                /\ match lookup n encs with
                   | Some enc =>
                       exists code,
                         index_of (py_str v) (classes_ enc) = Some code
                         /\ c = PInt code
                   | None => c = v
                   end.
Proof.
  destruct (raw_score_trace (globals w) student) as (out & l & Hrun & Htrace).
  exists out, l. split; [apply (Hrun w eq_refl) |].
  intros df Hin.
  destruct Htrace as [Hnone | encs c v Hencs Hfirst
                     | encs df' out l2 Hencs Hfirst Hcols Hcells Hframe].
  - destruct Hin.
  - apply (encoder_calls_only_In _ _ (encoder_calls_are_encoder_calls _ _ _))
      in Hin. discriminate.
  - apply in_app_or in Hin as [Hin | Hin].
    { apply (encoder_calls_only_In _ _ (encoder_calls_are_encoder_calls _ _ _))
        in Hin. discriminate. }
    assert (Hsel : exists names,
               feature_names (globals w) = Some names
               /\ df_select df' names = inr df).
    { inversion Hframe; subst; simpl in Hin;
        repeat match goal with
               | H : _ \/ _ |- _ => destruct H
               | H : False |- _ => destruct H
               | H : ScalerCall _ = ScalerCall _ |- _ =>
                   inversion H; clear H; subst
               end; try discriminate; eauto. }
    destruct Hsel as (names & Hnames & Hsel).
    destruct (df_select_inr _ _ _ Hsel) as [Hlabels Hcell].
    exists encs, names. repeat split; try assumption.
    intros n c0 Hn. destruct (Hcell n c0 Hn) as [_ Hlook].
    rewrite Hcells in Hlook.
    exact (encoded_cell_value _ _ _ _ Hfirst Hlook).
Qed.

(** X7. The order of the calls of one request: first the encoders, one
    call per key of the mapping that is a column of the request, in key
    order, each on [str] of the request's value, stopping at the first
    rejection; then at most one scaler call; then at most one model call,
    made on exactly what the scaler returned. *)
Theorem calls_are_encoders_then_scaler_then_model student w :
  exists out l rest,
    raw_score student w
    = (out, {| globals := globals w; calls := calls w ++ l |})
    /\ l = (match label_encoders (globals w) with
            | Some encs =>
                encoder_calls encs (input_data student) (map fst encs)
            | None => []
            end ++ rest)%list
    /\ (rest = []
        \/ (exists s df, scaler (globals w) = Some s /\ rest = [ScalerCall df])
        \/ (exists s m df x,
              scaler (globals w) = Some s
              /\ model (globals w) = Some m
              /\ Scaler_transform s df = inr x
              /\ rest = [ScalerCall df; ModelCall x])).
Proof.
  destruct (raw_score_trace (globals w) student) as (out & l & Hrun & Htrace).
  destruct Htrace as [Hnone | encs c v Hencs Hfirst
                     | encs df' out l2 Hencs Hfirst Hcols Hcells Hframe].
  - exists (Raise (PyError (AttributeError "NoneType" "keys"))), [], [].
    split; [apply (Hrun w eq_refl) |]. rewrite Hnone. auto.
  - exists (Raise (HTTPException 400 (invalid_value_detail c v))),
      (encoder_calls encs (input_data student) (map fst encs)), [].
    split; [apply (Hrun w eq_refl) |]. rewrite Hencs, app_nil_r. auto.
  - exists out,
      (encoder_calls encs (input_data student) (map fst encs) ++ l2)%list, l2.
    split; [apply (Hrun w eq_refl) |]. rewrite Hencs.
    split; [reflexivity |].
    inversion Hframe; subst; eauto 10.
Qed.

(** X8. A prediction is returned only when everything is in place: none of
    the four artifacts is [None], no encoder rejected a value, every
    feature name is a column of the request, the scaler and the model each
    returned, and the output is the post-processed first entry of the
    model's result; the log then holds the encoder calls followed by exactly
    one scaler call and one model call. *)
Theorem prediction_needs_every_artifact exc_str student w out w' :
  serve exc_str (POST_predict student) w
  = ({| status := 200; body := PredictionBody out |}, w') ->
  exists m s encs names df x score rest,
    model (globals w) = Some m
    /\ scaler (globals w) = Some s
    /\ label_encoders (globals w) = Some encs
    /\ feature_names (globals w) = Some names
    /\ first_unseen encs (input_data student) (map fst encs) = None
    /\ (forall n, In n names -> lookup n (input_data student) <> None)
    /\ map fst df = names
    /\ Scaler_transform s df = inr x
    /\ Model_predict m x = inr (score :: rest)
    /\ out = postprocess score
    /\ w' = {| globals := globals w;
               calls := calls w
                        ++ encoder_calls encs (input_data student)
                             (map fst encs)
                        ++ [ScalerCall df; ModelCall x] |}.
Proof.
  intros H.
  assert (Hvalid : validate student = true).
  { destruct (validate student) eqn:E; [reflexivity |].
    cbv beta iota delta [serve] in H. rewrite E in H. discriminate. }
  rewrite (serve_predict _ _ _ Hvalid) in H.
  destruct (raw_score_trace (globals w) student) as (o & l & Hrun & Htrace).
  rewrite (respond_predict exc_str _ _ _ _ Hrun) in H.
  destruct Htrace as [Hnone | encs c v Hencs Hfirst
                     | encs df' o l2 Hencs Hfirst Hcols Hcells Hframe];
    [discriminate H | discriminate H |].
  inversion Hframe; subst; try discriminate H.
  inversion H; subst. clear H.
  match goal with
  | Hsel : df_select df' ?names = inr ?df2 |- _ =>
      destruct (df_select_inr _ _ _ Hsel) as [Hlabels Hcell];
      exists m, s, encs, names, df2, x, score, rest
  end.
  repeat split; try assumption; try reflexivity.
  intros n Hn Hnone.
  assert (Hin : In n (map fst df2)) by (rewrite Hlabels; exact Hn).
  apply in_map_iff in Hin as ([n' c] & E & Hin). simpl in E. subst n'.
  destruct (Hcell n c Hin) as [_ Hlook].
  assert (Hcol : in_columns n df' = true) by (apply lookup_in_columns; eauto).
  rewrite (in_columns_names n df' (input_data student) Hcols) in Hcol.
  apply lookup_none_not_column in Hnone. congruence.
Qed.

(** X8 on the sample request and artifacts. *)
Lemma prediction_needs_every_artifact_witness :
  exists m s encs names df x score rest,
    model sample_process = Some m
    /\ scaler sample_process = Some s
    /\ label_encoders sample_process = Some encs
    /\ feature_names sample_process = Some names
    /\ first_unseen encs (input_data sample_student) (map fst encs) = None
    /\ (forall n, In n names -> lookup n (input_data sample_student) <> None)
    /\ map fst df = names
    /\ Scaler_transform s df = inr x
    /\ Model_predict m x = inr (score :: rest)
    /\ {| predicted_cgpa := PyFloat.centi 350;
          cgpa_range := "Excellent (3.50 - 4.00)";
          message :=
            "Student is performing excellently! Keep up the great work." |}
       = postprocess score
    /\ snd (serve show_error (POST_predict sample_student) sample_world)
       = {| globals := sample_process;
            calls := []
                     ++ encoder_calls encs (input_data sample_student)
                          (map fst encs)
                     ++ [ScalerCall df; ModelCall x] |}.
Proof.
  apply (prediction_needs_every_artifact show_error sample_student
           sample_world).
  apply pair_of_fst. vm_compute. reflexivity.
Defined.

(** X9. Column drift is caught before the scaler runs: when
    [feature_names] lists a label that is not a column of the request, the
    route function never answers 200 and calls neither the scaler nor the
    model.  Its answer is fixed by the encoders alone: with no encoder
    mapping, the 500 of the attribute missing on [None], after no call;
    with an encoder that rejects a value, the 400 naming the first such
    column and its value; otherwise the 500 whose detail carries the
    [KeyError] of the column selection, which names the requested labels
    if none is a column and the distinct missing labels if some are. *)
Theorem unknown_feature_name_never_predicts exc_str student w names n :
  feature_names (globals w) = Some names ->
  In n names ->
  lookup n (input_data student) = None ->
  exists resp l,
    respond PredictionBody (predict_cgpa exc_str student) w
    = (resp, {| globals := globals w; calls := calls w ++ l |})
    /\ encoder_calls_only l
    /\ status resp <> 200
    /\ match label_encoders (globals w) with
       | None =>
           l = []
           /\ resp
              = {| status := 500;
                   body := DetailBody
                     ("Prediction error: "
                      ++ exc_str (AttributeError "NoneType" "keys")) |}
       | Some encs =>
           l = encoder_calls encs (input_data student) (map fst encs)
           /\ match first_unseen encs (input_data student) (map fst encs) with
              | Some (c, v) =>
                  resp
                  = {| status := 400;
                       body := DetailBody
                         ("Invalid value for " ++ c ++ ": " ++ py_str v
                          ++ ". Must be one of the categories in training data.") |}
              | None =>
                  resp
                  = {| status := 500;
                       body := DetailBody
                         ("Prediction error: "
                          ++ exc_str
                               (not_in_index names
                                  (filter
                                     (fun k =>
                                        negb (in_columns k
                                                (input_data student)))
                                     names))) |}
              end
       end.
Proof.
  intros Hnames Hn Hnone.
  destruct (raw_score_trace (globals w) student) as (out & l & Hrun & Htrace).
  pose proof (respond_predict exc_str _ _ _ _ Hrun) as Hresp.
  destruct Htrace as [Henc | encs c v Hencs Hfirst
                     | encs df' out l2 Hencs Hfirst Hcols Hcells Hframe].
  - eexists. exists []. split; [exact Hresp |].
    split; [constructor |]. split; [discriminate |].
    rewrite Henc. split; reflexivity.
  - eexists. eexists. split; [exact Hresp |].
    split; [apply encoder_calls_are_encoder_calls |].
    split; [discriminate |].
    rewrite Hencs, Hfirst. split; reflexivity.
  - assert (Hnone' : lookup n df' = None).
    { apply lookup_none_not_column.
      rewrite (in_columns_names n df' (input_data student) Hcols).
      now apply lookup_none_not_column. }
    pose proof (df_select_missing df' names n Hn Hnone') as Hsel.
    assert (Hfilter :
              filter (fun k => negb (in_columns k df')) names
              = filter (fun k => negb (in_columns k (input_data student)))
                  names).
    { apply filter_ext. intros k.
      now rewrite (in_columns_names k df' (input_data student) Hcols). }
    rewrite Hfilter in Hsel.
    inversion Hframe; subst; try congruence.
    match goal with
    | H1 : feature_names (globals w) = Some ?names',
      H2 : df_select df' ?names' = inl ?e |- _ =>
        assert (names' = names) by congruence; subst names';
        rewrite Hsel in H2; inversion H2; subst e
    end.
    eexists. eexists. split; [exact Hresp |].
    split.
    { rewrite app_nil_r. apply encoder_calls_are_encoder_calls. }
    split; [discriminate |].
    rewrite Hencs, Hfirst. split; [now rewrite app_nil_r | reflexivity].
Qed.

(** X9 on a process whose feature names list the column of the CGPA, which
    no request has: the sample request is answered with the 500 of the
    missing label, and with the 400 of the course if its course is not
    one the encoder was fit on. *)
Lemma unknown_feature_name_never_predicts_witness :
  let w := {| globals := process_drifted; calls := [] |} in
  let names := (sample_feature_names ++ ["What is your CGPA?"])%list in
  (exists resp l,
    respond PredictionBody (predict_cgpa show_error sample_student) w
    = (resp, {| globals := process_drifted; calls := [] ++ l |})
    /\ encoder_calls_only l
    /\ status resp <> 200
    /\ match label_encoders process_drifted with
       | None =>
           l = []
           /\ resp
              = {| status := 500;
                   body := DetailBody
                     ("Prediction error: "
                      ++ show_error (AttributeError "NoneType" "keys")) |}
       | Some encs =>
           l = encoder_calls encs (input_data sample_student) (map fst encs)
           /\ match first_unseen encs (input_data sample_student)
                      (map fst encs) with
              | Some (c, v) =>
                  resp
                  = {| status := 400;
                       body := DetailBody
                         ("Invalid value for " ++ c ++ ": " ++ py_str v
                          ++ ". Must be one of the categories in training data.") |}
              | None =>
                  resp
                  = {| status := 500;
                       body := DetailBody
                         ("Prediction error: "
                          ++ show_error
                               (not_in_index names
                                  (filter
                                     (fun k =>
                                        negb (in_columns k
                                                (input_data sample_student)))
                                     names))) |}
              end
       end)
  /\ not_in_index names
       (filter (fun k => negb (in_columns k (input_data sample_student)))
          names)
     = KeyError (KList ["What is your CGPA?"])
  /\ fst (respond PredictionBody (predict_cgpa show_error sample_student) w)
     = {| status := 500;
          body := DetailBody
            ("Prediction error: "
             ++ String double_quote
                  ("['What is your CGPA?'] not in index"
                   ++ String double_quote EmptyString)) |}
  /\ fst (respond PredictionBody
            (predict_cgpa show_error
               (with_course sample_student "Medicine")) w)
     = {| status := 400;
          body := DetailBody
            "Invalid value for What is your course?: Medicine. Must be one of the categories in training data." |}.
Proof.
  split; [| split; [| split]]; [| vm_compute; reflexivity ..].
  apply (unknown_feature_name_never_predicts show_error sample_student
           {| globals := process_drifted; calls := [] |}
           (sample_feature_names ++ ["What is your CGPA?"])%list
           "What is your CGPA?").
  - reflexivity.
  - apply in_or_app. right. now left.
  - reflexivity.
Defined.

(** X10. The statuses of the three routes that the source declares.
    GET / and GET /health always answer 200, make no call and leave the
    process as it was.  POST /predict, on a body with the nine fields,
    answers 422 exactly when the schema rejects the body, and then makes
    no call either; a body the schema accepts is answered 200, 400 or
    500. *)
Theorem serve_status_codes exc_str r w :
  match r with
  | GET_root | GET_health =>
      status (fst (serve exc_str r w)) = 200 /\ snd (serve exc_str r w) = w
  | POST_predict student =>
      (status (fst (serve exc_str r w)) = 422 <-> validate student = false)
      /\ (validate student = false -> snd (serve exc_str r w) = w)
      /\ (validate student = true ->
          In (status (fst (serve exc_str r w))) [200; 400; 500])
  end.
Proof.
  destruct r as [| | student].
  - split; reflexivity.
  - rewrite serve_health. split; reflexivity.
  - assert (Hvalid : validate student = true ->
                     In (status (fst (serve exc_str (POST_predict student) w)))
                       [200; 400; 500]).
    { intros Hvalid. rewrite (serve_predict _ _ _ Hvalid).
      destruct (raw_score_trace (globals w) student)
        as (out & l & Hrun & Htrace).
      rewrite (respond_predict exc_str _ _ _ _ Hrun). cbn [fst].
      destruct Htrace as [Henc | encs c v Hencs Hfirst
                         | encs df' out l2 Hencs Hfirst Hcols Hcells Hframe];
        [simpl; auto | simpl; auto |].
      inversion Hframe; subst; simpl; auto. }
    assert (Hinvalid : validate student = false ->
                       serve exc_str (POST_predict student) w
                       = ({| status := 422;
                             body := ValidationBody
                                       (validation_errors student) |}, w)).
    { intros H. cbv beta iota delta [serve]. now rewrite H. }
    split; [| split; [| exact Hvalid]].
    + split.
      * intros H422. destruct (validate student) eqn:E; [| reflexivity].
        specialize (Hvalid eq_refl). rewrite H422 in Hvalid.
        simpl in Hvalid. intuition discriminate.
      * intros H. rewrite (Hinvalid H). reflexivity.
    + intros H. rewrite (Hinvalid H). reflexivity.
Qed.
